(** * here_v2: session state machine, risk assessor and outbound dispatcher

    A shallow embedding of the JavaScript services of the repository
    (config, prompts, onboarding, crisisDetection, journaling, redis,
    conversationEngine, messageHandler, proactiveMessaging and the
    webhook route) together with the properties stated about them.

    Conventions of the embedding
    - Text is a list of characters.  The model is exact on ASCII text:
      [toLowerCase] folds A-Z, [trim] strips tab, LF, VT, FF, CR and
      space.  Canned replies that carry an emoji hold its UTF-8 bytes.
    - The Redis store is a record of finite maps; store outages and the
      retry wrapper are not modelled (every store call succeeds).
    - Everything the services obtain from outside (the LLM, the message
      gateway, time zone, latencies) is bundled in a record [Env] that is
      passed explicitly, indexed by a call counter kept in the world.
    - [async] code is sequential code in a state-and-exception monad;
      only the webhook's idempotency check is modelled with explicit
      interleavings, since its claim is about them. *)

From Stdlib Require Import ZArith Ascii String List Bool Lia.
From stdpp Require Import base option list gmap strings.

Local Open Scope Z_scope.

(** ** JavaScript strings *)

Module JS.

Definition str := list ascii.

(** A literal of the source. *)
Definition lit (s : string) : str := list_ascii_of_string s.

Fixpoint str_eqb (a b : str) : bool :=
  match a, b with
  | [], [] => true
  | c :: a', d :: b' => Ascii.eqb c d && str_eqb a' b'
  | _, _ => false
  end.

(** [!s] for a string: only the empty string is falsy. *)
Definition falsy (s : str) : bool :=
  match s with [] => true | _ => false end.

Definition isUpper (c : ascii) : bool :=
  let n := nat_of_ascii c in (65 <=? n)%nat && (n <=? 90)%nat.

Definition isLower (c : ascii) : bool :=
  let n := nat_of_ascii c in (97 <=? n)%nat && (n <=? 122)%nat.

Definition isDigit (c : ascii) : bool :=
  let n := nat_of_ascii c in (48 <=? n)%nat && (n <=? 57)%nat.

Definition lowerChar (c : ascii) : ascii :=
  if isUpper c then ascii_of_nat (nat_of_ascii c + 32) else c.

Definition upperChar (c : ascii) : ascii :=
  if isLower c then ascii_of_nat (nat_of_ascii c - 32) else c.

Definition toLowerCase (s : str) : str := map lowerChar s.
Definition toUpperCase (s : str) : str := map upperChar s.

(** White space and line terminators, as [trim] and [\s] see them. *)
Definition isSpace (c : ascii) : bool :=
  let n := nat_of_ascii c in
  ((9 <=? n)%nat && (n <=? 13)%nat) || (n =? 32)%nat.

(** [\w] *)
Definition isWordChar (c : ascii) : bool :=
  isUpper c || isLower c || isDigit c || (nat_of_ascii c =? 95)%nat.

Fixpoint dropSpaces (s : str) : str :=
  match s with
  | c :: s' => if isSpace c then dropSpaces s' else s
  | [] => []
  end.

Definition trimStart (s : str) : str := dropSpaces s.
Definition trimEnd (s : str) : str := rev (dropSpaces (rev s)).
Definition trim (s : str) : str := trimEnd (trimStart s).

Fixpoint startsWith (s p : str) {struct p} : bool :=
  match p with
  | [] => true
  | c :: p' =>
      match s with
      | d :: s' => Ascii.eqb c d && startsWith s' p'
      | [] => false
      end
  end.

Fixpoint includes (s w : str) : bool :=
  startsWith s w ||
  match s with
  | [] => false
  | _ :: s' => includes s' w
  end.

(** [s.substring(a, b)] for [0 <= a <= b] and [s.substring(a)]. *)
Definition substring (s : str) (a b : nat) : str := take (b - a) (drop a s).
Definition substringFrom (s : str) (a : nat) : str := drop a s.

(** [s.lastIndexOf(w, pos)]: the largest index [k <= pos] at which [w]
    occurs in [s], and [-1] when there is none.  The scan runs over the
    suffixes of [s]; [i] is the index of the suffix at hand and [best]
    the last hit so far. *)
Fixpoint lastIndexOfFrom (s w : str) (i pos : nat) (best : Z) : Z :=
  let best' :=
    if (i <=? pos)%nat && startsWith s w then Z.of_nat i else best in
  match s with
  | [] => best'
  | _ :: s' => lastIndexOfFrom s' w (S i) pos best'
  end.

Definition lastIndexOf (s w : str) (pos : nat) : Z :=
  lastIndexOfFrom s w 0 pos (-1).

End JS.

Import JS.

(** ** config/index.js *)

Module Config.

Definition crisisKeywords : list str :=
  map lit
    [ "suicide"; "kill myself"; "end it all"; "want to die"; "hurt myself";
      "self harm"; "self-harm"; "can't go on"; "end my life";
      "no reason to live"; "better off dead"; "kill me" ]%string.

Definition INITIAL : nat := 0.
Definition ASK_NAME : nat := 1.
Definition ASK_REASON : nat := 2.
Definition ASK_CHECKIN : nat := 3.
Definition COMPLETE : nat := 4.

Definition journalPrefixes : list str := map lit [ "journal:"; "j:" ]%string.

Definition lockTTL : Z := 300.

End Config.

(** ** prompts/crisisPrompt.js *)

Definition containsCrisisKeyword (message : str) : bool :=
  if falsy message then false
  else
    let lowerMessage := toLowerCase message in
    existsb (fun keyword => includes lowerMessage (toLowerCase keyword))
            Config.crisisKeywords.

(** ** Data model (records as the services store them in Redis) *)

(** [user.stats] *)
Record Stats := mkStats {
  joinedAt : Z;
  lastActive : Z;
  messageCount : nat;
  journalCount : nat;
  streakDays : nat
}.

(** A profile under [user:<phone>].  Every field may be absent: a
    profile written by [updateUser] over a missing key holds only the
    fields of the update.  Preferences and the emotional-state summary
    play no part in the modelled services and are left out. *)
Record User := mkUser {
  name : option str;
  onboardingStage : option nat;
  stats : option Stats
}.

(** The object passed to [updateUser]: the fields it sets. *)
Record UserPatch := mkPatch {
  p_name : option str;
  p_stage : option nat;
  p_stats : option Stats
}.

Inductive Role := RoleUser | RoleAssistant.

Inductive MsgType :=
  TPlain | TProactive (triggerType : str) | TJournalPrompt.

(** An entry of [conversations:<phone>]. *)
Record Msg := mkMsg {
  role : Role;
  content : str;
  mtype : MsgType;
  timestamp : Z
}.

Record FollowUp := mkFollowUp {
  fuType : str;
  fuTime : Z;
  fuRiskLevel : str;
  fuScheduledAt : Z
}.

(** [scheduled:<phone>]; [None] is [null] (or a missing field). *)
Record Schedule := mkSchedule {
  nextCheckIn : option Z;
  nextJournalPrompt : option Z;
  followUps : list FollowUp
}.

(** [crisis:<phone>:<timestamp>] *)
Record CrisisEntry := mkCrisisEntry {
  ceMessage : str;
  ceRiskLevel : str;
  ceKeywordMatch : bool;
  ceTimestamp : Z;
  ceHandled : bool
}.

Record JournalItem := mkJournalItem {
  jiContent : str;
  jiPrompted : bool;
  jiTimestamp : Z
}.

(** [journal:<phone>:<date>] *)
Record JournalDay := mkJournalDay {
  jdEntries : list JournalItem;
  jdTimestamp : Z
}.

(** ** The world: the store, the clock and what left the process *)

(** Calls worth observing, kept as a ghost trace. *)
Inductive Event :=
| EvDetectCrisis (phone message : str)
| EvAssessLLM (message : str)
| EvRisk (phone riskLevel : str)          (* what detectCrisis returned *)
| EvGenerateResponse (phone message : str)
| EvProcessOnboarding (phone message : str)
| EvAdvanceStage (phone : str) (newStage : nat)
| EvSaveJournal (phone content : str)
| EvProactive (phone triggerType : str)
| EvJournalPrompt (phone : str).

(** A stats update left running in the background by
    [updateUserStats]: the phone, the message and the profile read when
    it was started. *)
Record Deferred := mkDeferred {
  dPhone : str;
  dMessage : str;
  dUser : User
}.

Record World := mkWorld {
  users : gmap str User;
  conversations : gmap str (list Msg);
  journal : gmap (str * Z) JournalDay;
  schedules : gmap str Schedule;
  crisis : gmap (str * Z) CrisisEntry;
  clock : Z;                    (* Date.now(), in ms *)
  calls : nat;                  (* external calls made so far *)
  outbox : list (str * str);    (* messages the gateway accepted *)
  background : list Deferred;
  trace : list Event
}.

Definition set_users (f : gmap str User -> gmap str User) (w : World) : World :=
  mkWorld (f (users w)) (conversations w) (journal w) (schedules w) (crisis w)
          (clock w) (calls w) (outbox w) (background w) (trace w).
Definition set_conversations (f : gmap str (list Msg) -> gmap str (list Msg))
    (w : World) : World :=
  mkWorld (users w) (f (conversations w)) (journal w) (schedules w) (crisis w)
          (clock w) (calls w) (outbox w) (background w) (trace w).
Definition set_journal (f : gmap (str * Z) JournalDay -> gmap (str * Z) JournalDay)
    (w : World) : World :=
  mkWorld (users w) (conversations w) (f (journal w)) (schedules w) (crisis w)
          (clock w) (calls w) (outbox w) (background w) (trace w).
Definition set_schedules (f : gmap str Schedule -> gmap str Schedule)
    (w : World) : World :=
  mkWorld (users w) (conversations w) (journal w) (f (schedules w)) (crisis w)
          (clock w) (calls w) (outbox w) (background w) (trace w).
Definition set_crisis (f : gmap (str * Z) CrisisEntry -> gmap (str * Z) CrisisEntry)
    (w : World) : World :=
  mkWorld (users w) (conversations w) (journal w) (schedules w) (f (crisis w))
          (clock w) (calls w) (outbox w) (background w) (trace w).
Definition set_clock (f : Z -> Z) (w : World) : World :=
  mkWorld (users w) (conversations w) (journal w) (schedules w) (crisis w)
          (f (clock w)) (calls w) (outbox w) (background w) (trace w).
Definition set_calls (f : nat -> nat) (w : World) : World :=
  mkWorld (users w) (conversations w) (journal w) (schedules w) (crisis w)
          (clock w) (f (calls w)) (outbox w) (background w) (trace w).
Definition set_outbox (f : list (str * str) -> list (str * str)) (w : World) : World :=
  mkWorld (users w) (conversations w) (journal w) (schedules w) (crisis w)
          (clock w) (calls w) (f (outbox w)) (background w) (trace w).
Definition set_background (f : list Deferred -> list Deferred) (w : World) : World :=
  mkWorld (users w) (conversations w) (journal w) (schedules w) (crisis w)
          (clock w) (calls w) (outbox w) (f (background w)) (trace w).
Definition set_trace (f : list Event -> list Event) (w : World) : World :=
  mkWorld (users w) (conversations w) (journal w) (schedules w) (crisis w)
          (clock w) (calls w) (outbox w) (background w) (f (trace w)).

Definition emptyWorld : World :=
  mkWorld ∅ ∅ ∅ ∅ ∅ 0 0%nat [] [] [].

(** ** What comes from outside *)

(** The parsed [follow_up_hours] of an assessment. *)
Inductive JsonHours := HNull | HUndefined | HNum (h : Z).

(** The object [safeJsonParse] returns for a risk assessment.  [level]
    is the field as a string; the empty string stands for a missing or
    falsy field. *)
Record Assessment := mkAssessment {
  level : str;
  reasoning : str;
  follow_up_hours : JsonHours
}.

(** [client.messages.create] for the risk prompt, then the parse. *)
Inductive AssessReply :=
| AssessApiError
| AssessUnparsable
| AssessParsed (a : Assessment).

(** [client.messages.create] for a reply: an error with its HTTP status,
    or [response.content[0]?.text]. *)
Inductive CompleteReply :=
| CompleteError (status : Z)
| CompleteText (text : option str).

(** One POST to the gateway. *)
Inductive PostReply := PostOk | Post400 | PostAuth | Post429 | PostFailed.

Record Env := mkEnv {
  hasClient : bool;             (* config.claudeApiKey is set *)
  hasGatewayKey : bool;         (* config.loopMessageApiKey is set *)
  assessReply : nat -> str -> AssessReply;
  completeReply : nat -> str -> str -> CompleteReply;
  proactiveReply : nat -> str -> str -> CompleteReply;
  emotionReply : nat -> str -> option str;
  gatewayPost : nat -> str -> str -> PostReply;
  latency : nat -> nat;         (* ms taken by the n-th external call *)
  random : nat -> nat;          (* the n-th draw of Math.random, as an index *)
  tzOffset : Z                  (* local time = UTC + tzOffset, in ms *)
}.

(** ** Sequential code with exceptions over the world *)

Inductive Exn :=
| TypeError              (* a property read on undefined *)
| RateLimitExceeded      (* thrown by the gateway client *)
| RequestFailed          (* any other failed request *)
| ApiError (status : Z). (* thrown by the LLM client *)

Inductive Res (A : Type) := Ok (a : A) | Raise (e : Exn).
Arguments Ok {A} a.
Arguments Raise {A} e.

Definition M (A : Type) : Type := World -> Res A * World.

Definition ret {A} (a : A) : M A := fun w => (Ok a, w).

Definition bind {A B} (m : M A) (k : A -> M B) : M B :=
  fun w =>
    match m w with
    | (Ok a, w') => k a w'
    | (Raise e, w') => (Raise e, w')
    end.

Definition throw {A} (e : Exn) : M A := fun w => (Raise e, w).

(** [try { m } catch (e) { h e }] *)
Definition tryCatch {A} (m : M A) (h : Exn -> M A) : M A :=
  fun w =>
    match m w with
    | (Ok a, w') => (Ok a, w')
    | (Raise e, w') => h e w'
    end.

Definition gets {A} (f : World -> A) : M A := fun w => (Ok (f w), w).
Definition modify (f : World -> World) : M unit := fun w => (Ok tt, f w).

Declare Scope js_scope.
Delimit Scope js_scope with js.
Notation "x <- m ;; k" := (bind m (fun x => k))
  (at level 100, m at next level, right associativity) : js_scope.
Notation "m ;;; k" := (bind m (fun _ => k))
  (at level 100, right associativity) : js_scope.
Local Open Scope js_scope.

(** [for (const x of xs) body(x)] *)
Fixpoint forEach {A} (xs : list A) (body : A -> M unit) : M unit :=
  match xs with
  | [] => ret tt
  | x :: xs' => body x ;;; forEach xs' body
  end.

Definition emit (e : Event) : M unit := modify (set_trace (fun t => t ++ [e])).

(** [Date.now()] *)
Definition dateNow : M Z := gets clock.

(** [await sleep(ms)] *)
Definition sleep (ms : Z) : M unit := modify (set_clock (fun t => t + ms)).

(** An external call: it takes its latency and gets the next index. *)
Definition external (E : Env) : M nat :=
  n <- gets calls ;;
  modify (fun w => set_clock (fun t => t + Z.of_nat (latency E n))
                     (set_calls S w)) ;;;
  ret n.

(** [choices[Math.floor(Math.random() * choices.length)]] *)
Definition pick (E : Env) (choices : list str) : M str :=
  n <- gets calls ;;
  modify (set_calls S) ;;;
  ret (nth (random E n mod length choices)%nat choices []).

(** ** services/redis.js *)

Module Redis.

Definition getUser (phoneNumber : str) : M (option User) :=
  gets (fun w => users w !! phoneNumber).

Definition setUser (phoneNumber : str) (userData : User) : M unit :=
  modify (set_users (fun m => <[phoneNumber := userData]> m)).

(** [{ ...existing, ...updates }] *)
Definition spread (existing : option User) (updates : UserPatch) : User :=
  let e := default (mkUser None None None) existing in
  mkUser (match p_name updates with Some n => Some n | None => name e end)
         (match p_stage updates with Some n => Some n | None => onboardingStage e end)
         (match p_stats updates with Some n => Some n | None => stats e end).

(** A GET, an await and a SET.  Awaited by a handler they run one after
    the other; the update that [updateUserStats] leaves running is
    taken at the two commands, with whatever else runs in between: see
    [Background]. *)
Definition updateUser (phoneNumber : str) (updates : UserPatch) : M User :=
  existing <- getUser phoneNumber ;;
  let updated := spread existing updates in
  setUser phoneNumber updated ;;;
  ret updated.

Definition createUser (phoneNumber : str) : M User :=
  now <- dateNow ;;
  let newUser := mkUser None (Some 0%nat) (Some (mkStats now now 0 0 0)) in
  setUser phoneNumber newUser ;;;
  ret newUser.

Definition getOrCreateUser (phoneNumber : str) : M User :=
  user <- getUser phoneNumber ;;
  match user with
  | Some u => ret u
  | None => createUser phoneNumber
  end.

Definition maxMessages : nat := 50.

(** The last [n] elements of a list: what [lTrim(key, length - n, -1)]
    keeps of a list of [length] elements. *)
Definition lastN {A} (n : nat) (l : list A) : list A := drop (length l - n) l.

Definition addMessage (phoneNumber : str) (r : Role) (c : str) (t : MsgType) : M unit :=
  now <- dateNow ;;
  modify (set_conversations (fun m =>
    let l := default [] (m !! phoneNumber) ++ [mkMsg r c t now] in
    <[phoneNumber := if (maxMessages <? length l)%nat then lastN maxMessages l else l]> m)).

(** [lRange(key, -limit, -1)]: the last [limit] entries; for a limit of
    0 the start index [-0] is sent as 0 and the whole list comes back. *)
Definition lRangeLast {A} (limit : nat) (l : list A) : list A :=
  if (limit =? 0)%nat then l else lastN limit l.

Definition getConversationHistory (phoneNumber : str) (limit : nat) : M (list Msg) :=
  gets (fun w => lRangeLast limit (default [] (conversations w !! phoneNumber))).

Definition msPerDay : Z := 24 * 60 * 60 * 1000.

(** [new Date().toISOString().split('T')[0]], as a day number (UTC). *)
Definition isoDate (now : Z) : Z := now / msPerDay.

Definition addJournalEntry (phoneNumber : str) (entryContent : str)
    (entryPrompted : bool) : M unit :=
  now <- dateNow ;;
  let key := (phoneNumber, isoDate now) in
  modify (set_journal (fun m =>
    let journalData := default (mkJournalDay [] now) (m !! key) in
    <[key := mkJournalDay (jdEntries journalData ++
                             [mkJournalItem entryContent entryPrompted now])
                          (jdTimestamp journalData)]> m)).

Definition getSchedule (phoneNumber : str) : M (option Schedule) :=
  gets (fun w => schedules w !! phoneNumber).

Definition setSchedule (phoneNumber : str) (scheduleData : Schedule) : M unit :=
  modify (set_schedules (fun m => <[phoneNumber := scheduleData]> m)).

Definition addFollowUp (phoneNumber : str) (followUp : FollowUp) : M unit :=
  got <- getSchedule phoneNumber ;;
  let schedule := default (mkSchedule None None []) got in
  setSchedule phoneNumber
    (mkSchedule (nextCheckIn schedule) (nextJournalPrompt schedule)
                (followUps schedule ++ [followUp])).

(** [data] arrives with its own timestamp, which the spread overwrites. *)
Definition logCrisis (phoneNumber : str) (message : str) (riskLevel : str)
    (keywordMatch : bool) : M unit :=
  timestamp <- dateNow ;;
  modify (set_crisis (fun m =>
    <[(phoneNumber, timestamp) :=
        mkCrisisEntry message riskLevel keywordMatch timestamp false]> m)).

(** Whether the keys [journal:<identity>:<date>] and
    [crisis:<identity>:<timestamp>] match the patterns
    [journal:<phoneNumber>:*] and [crisis:<phoneNumber>:*] of
    [deleteUserData]: what follows the first colon has to begin with
    the phone number and a colon, so the keys of an identity that
    itself begins with the phone number and a colon match as well.
    Dates and timestamps hold no colon.  The phone number is taken to
    hold none of the characters that [KEYS] reads as a pattern; the
    handler passes digits only. *)
Definition keysMatch (phoneNumber identity : str) : bool :=
  startsWith (identity ++ lit ":") (phoneNumber ++ lit ":").

Definition deleteUserData (phoneNumber : str) : M unit :=
  modify (fun w =>
    set_users (delete phoneNumber)
      (set_conversations (delete phoneNumber)
        (set_schedules (delete phoneNumber)
          (set_journal (filter (fun kv => keysMatch phoneNumber kv.1.1 = false))
            (set_crisis (filter (fun kv => keysMatch phoneNumber kv.1.1 = false)) w))))).

End Redis.

(** ** utils/helpers.js and utils/errorHandler.js *)

(** [phone.replace(/\D/g, '')], [null] for a falsy argument. *)
Definition normalizePhoneNumber (phone : option str) : option str :=
  match phone with
  | None => None
  | Some p => if falsy p then None else Some (filter (fun c => Is_true (isDigit c)) p)
  end.

Definition truncate (text : str) (maxLength : nat) : str :=
  if falsy text || (length text <=? maxLength)%nat then text
  else substring text 0 (maxLength - 3) ++ lit "...".

Definition fallbacks : list str :=
  map lit
    [ "I'm having a moment - give me a sec and try again?";
      "Sorry, I got a bit mixed up there. Mind saying that again?";
      "My mind wandered for a second. What were you saying?";
      "I'm here for you, just had a little hiccup. Try again?" ]%string.

Definition getFallbackResponse (E : Env) : M str := pick E fallbacks.

(** ** services/loopMessage.js *)

Inductive SendResult :=
| SendSuccess
| SendFailure (reason : str).

Definition sendSucceeded (r : SendResult) : bool :=
  match r with SendSuccess => true | SendFailure _ => false end.

(** One attempt of the request inside [withRetry]: it returns a result
    or throws. *)
Definition postOnce (E : Env) (phoneNumber text : str) : M SendResult :=
  n <- external E ;;
  match gatewayPost E n phoneNumber text with
  | PostOk =>
      modify (set_outbox (fun o => o ++ [(phoneNumber, text)])) ;;;
      ret SendSuccess
  | Post400 => ret (SendFailure (lit "invalid_request"))
  | PostAuth => ret (SendFailure (lit "auth_error"))
  | Post429 => throw RateLimitExceeded
  | PostFailed => throw RequestFailed
  end.

(** [withRetry(operation, maxRetries, 1000)] of helpers.js: [attempt]
    counts up, [left] is the number of attempts still allowed. *)
Fixpoint withRetry {A} (operation : M A) (left attempt : nat) (lastError : Exn) : M A :=
  match left with
  | O => throw lastError
  | S left' =>
      tryCatch operation (fun error =>
        (if (0 <? left')%nat then sleep (1000 * 2 ^ Z.of_nat attempt) else ret tt) ;;;
        withRetry operation left' (S attempt) error)
  end.

Definition sendMessage (E : Env) (phoneNumber text : str) : M SendResult :=
  if negb (hasGatewayKey E) then ret (SendFailure (lit "no_api_key"))
  else withRetry (postOnce E phoneNumber text) 3 0 RequestFailed.

(** ** prompts/crisisPrompt.js: the canned replies *)

Definition resourcesSuicide : str := lit "988 Suicide & Crisis Lifeline".
Definition resourcesCrisis : str := lit "Text HOME to 741741 (Crisis Text Line)".
Definition resourcesEmergency : str := lit "911".

Definition criticalText : str :=
  lit "I hear you, and I'm really glad you're talking to me right now. What you're feeling matters, and so do you.

I want to make sure you have support beyond just me. Please reach out to someone who can help:

📞 " ++ resourcesSuicide ++ lit "
💬 " ++ resourcesCrisis ++ lit "

These are real people who care and can help right now. Are you safe at this moment?".

Definition highText : str :=
  lit "Thank you for trusting me with this. I'm here for you, and I want you to know that what you're going through is real and valid.

I also want to share some resources in case you need them:
📞 " ++ resourcesSuicide ++ lit "
💬 " ++ resourcesCrisis ++ lit "

You don't have to go through this alone. How are you feeling right now?".

Definition mediumText : str :=
  lit "I hear that you're going through a really tough time. That takes a lot to share, and I'm glad you did.

If things ever feel too overwhelming, remember you can also reach out to " ++ resourcesCrisis ++ lit " - they're there 24/7.

I'm here too. Tell me more about what's going on.".

Definition getCrisisResponse (riskLevel : str) : option str :=
  if str_eqb riskLevel (lit "critical") then Some criticalText
  else if str_eqb riskLevel (lit "high") then Some highText
  else if str_eqb riskLevel (lit "medium") then Some mediumText
  else None.

Definition getCrisisResourcesText : str :=
  lit "If you're in crisis, please reach out to these resources:
📞 " ++ resourcesSuicide ++ lit "
💬 " ++ resourcesCrisis ++ lit "
🚨 Emergency: " ++ resourcesEmergency ++ lit "

You matter, and help is available.".

(** ** services/crisisDetection.js *)

Module CrisisDetection.

Record CrisisResult := mkResult {
  isCrisis : bool;
  riskLevel : str;
  keywordMatch : bool;
  crisisResponse : option str;
  shouldFollowUp : bool;
  followUpHours : JsonHours
}.

(** [riskOrder[l] || 0]: a level outside the table reads as [undefined]
    and counts as 0 (an inherited property such as [constructor] reads
    as an object, which compares false against every number, as 0 does
    in the one comparison made). *)
Definition riskOrder (l : str) : nat :=
  if str_eqb l (lit "low") then 0
  else if str_eqb l (lit "medium") then 1
  else if str_eqb l (lit "high") then 2
  else if str_eqb l (lit "critical") then 3
  else 0.

Definition assessWithLLM (E : Env) (message : str) (conversationHistory : list Msg)
    : M (option Assessment) :=
  if negb (hasClient E) then ret None
  else
    n <- external E ;;
    emit (EvAssessLLM message) ;;;
    match assessReply E n message with
    | AssessApiError => ret None
    | AssessUnparsable => ret None
    | AssessParsed assessment =>
        if falsy (level assessment) then ret None else ret (Some assessment)
    end.

Definition initialResult : CrisisResult :=
  mkResult false (lit "low") false None false HNull.

(** Layer 1 *)
Definition keywordLayer (message : str) (result : CrisisResult) : CrisisResult :=
  if containsCrisisKeyword message
  then mkResult true (lit "high") true (crisisResponse result)
                (shouldFollowUp result) (followUpHours result)
  else result.

(** The body of [if (llmAssessment) { ... }]. *)
Definition mergeAssessment (result : CrisisResult) (llmAssessment : Assessment)
    : CrisisResult :=
  let currentRisk := riskOrder (riskLevel result) in
  let llmRisk := riskOrder (level llmAssessment) in
  let newLevel :=
    if (currentRisk <? llmRisk)%nat then level llmAssessment else riskLevel result in
  mkResult (negb (str_eqb newLevel (lit "low"))) newLevel (keywordMatch result)
           (crisisResponse result)
           (match follow_up_hours llmAssessment with HNull => false | _ => true end)
           (follow_up_hours llmAssessment).

(** Layer 2, around any way of obtaining the assessment: what the
    [try] block computes, and the layer-1 result when it throws. *)
Definition llmLayer (assess : M (option Assessment)) (result : CrisisResult)
    : M CrisisResult :=
  tryCatch
    (llmAssessment <- assess ;;
     match llmAssessment with
     | Some a => ret (mergeAssessment result a)
     | None => ret result
     end)
    (fun _ => ret result).

Definition hoursTruthy (h : JsonHours) : bool :=
  match h with HNum n => negb (n =? 0) | _ => false end.

Definition hoursValue (h : JsonHours) : Z :=
  match h with HNum n => n | _ => 0 end.

Definition logCrisisEvent (phoneNumber message : str) (result : CrisisResult) : M unit :=
  tryCatch
    (Redis.logCrisis phoneNumber (truncate message 500) (riskLevel result)
                     (keywordMatch result))
    (fun _ => ret tt).

Definition scheduleFollowUp (phoneNumber : str) (hours : Z) (riskLevel : str) : M unit :=
  tryCatch
    (now <- dateNow ;;
     let followUpTime := now + hours * 60 * 60 * 1000 in
     Redis.addFollowUp phoneNumber
       (mkFollowUp (lit "distress-follow-up") followUpTime riskLevel now))
    (fun _ => ret tt).

(** From [// Generate crisis response if needed] to the [return]. *)
Definition conclude (phoneNumber message : str) (result2 : CrisisResult)
    : M CrisisResult :=
  if isCrisis result2 then
    let result3 :=
      mkResult (isCrisis result2) (riskLevel result2) (keywordMatch result2)
               (getCrisisResponse (riskLevel result2))
               (shouldFollowUp result2) (followUpHours result2) in
    logCrisisEvent phoneNumber message result3 ;;;
    (if shouldFollowUp result3 && hoursTruthy (followUpHours result3)
     then scheduleFollowUp phoneNumber (hoursValue (followUpHours result3))
                           (riskLevel result3)
     else ret tt) ;;;
    emit (EvRisk phoneNumber (riskLevel result3)) ;;;
    ret result3
  else
    emit (EvRisk phoneNumber (riskLevel result2)) ;;;
    ret result2.

Definition detectCrisisWith (assess : M (option Assessment))
    (phoneNumber message : str) : M CrisisResult :=
  emit (EvDetectCrisis phoneNumber message) ;;;
  let result1 := keywordLayer message initialResult in
  result2 <- llmLayer assess result1 ;;
  conclude phoneNumber message result2.

Definition detectCrisis (E : Env) (phoneNumber message : str)
    (conversationHistory : list Msg) : M CrisisResult :=
  detectCrisisWith (assessWithLLM E message conversationHistory) phoneNumber message.

End CrisisDetection.

(** ** prompts/systemPrompt.js *)

Definition getWelcomeMessage : str :=
  lit "Hey there! 👋 I'm here to be a supportive friend whenever you need someone to talk to.

I'm not a therapist, but I'm a good listener and I'll remember our conversations.

What's on your mind today?".

Definition getOnboardingPrompt (stage : nat) : option str :=
  match stage with
  | 1%nat => Some (lit "By the way, I'd love to know what to call you. What's your name?")
  | 2%nat => Some (lit "I want to be helpful in the right ways. What brings you here? (No pressure - you can say 'just to talk' if you prefer)")
  | 3%nat => Some (lit "Would you like me to check in on you sometimes? I can send a morning message or evening reflection prompt. Totally optional!")
  | _ => None
  end.

Definition getNameAcknowledgment (E : Env) (name : str) : M str :=
  pick E
    [ lit "Nice to meet you, " ++ name ++ lit "! 💫";
      name ++ lit " - I love that! Great to meet you.";
      lit "Thanks for sharing, " ++ name ++ lit "! I'll remember that." ].

(** ** Local dates

    [Date] arithmetic in the server's time zone, for a zone with a fixed
    offset from UTC ([tzOffset], in ms); changes of the offset (daylight
    saving) are outside the model. *)

Module LocalDate.

Definition msPerHour : Z := 60 * 60 * 1000.
Definition msPerDay : Z := 24 * msPerHour.

(** Midnight, local time, of the day [t] lies in. *)
Definition startOfDay (E : Env) (t : Z) : Z :=
  (t + tzOffset E) / msPerDay * msPerDay - tzOffset E.

(** [d.setHours(h, 0, 0, 0)] *)
Definition setHours (E : Env) (t : Z) (h : Z) : Z := startOfDay E t + h * msPerHour.

(** [d.setDate(d.getDate() + 1)] *)
Definition nextDay (t : Z) : Z := t + msPerDay.

(** The local day number of [t], and [d.getDay()] (0 is Sunday;
    1 January 1970 was a Thursday). *)
Definition dayNumber (E : Env) (t : Z) : Z := (t + tzOffset E) / msPerDay.
Definition getDay (E : Env) (t : Z) : Z := (dayNumber E t + 4) mod 7.

(** The time of day of [t], local time. *)
Definition timeOfDay (E : Env) (t : Z) : Z := (t + tzOffset E) mod msPerDay.

End LocalDate.

(** ** services/onboarding.js *)

Module Onboarding.

Import Config.

Fixpoint takeWhile {A} (f : A -> bool) (l : list A) : list A :=
  match l with
  | x :: l' => if f x then x :: takeWhile f l' else []
  | [] => []
  end.

(** The alternatives of [(?:i'?m|my name is|call me|it'?s)], spelled
    out; no two of them are prefixes of one string. *)
Definition introPhrases : list str :=
  map lit [ "i'm"; "im"; "my name is"; "call me"; "it's"; "its" ]%string.

(** Group 1 of [/^(?:i'?m|my name is|call me|it'?s)\s+(\w+)/i]. *)
Definition matchIntro (s : str) : option str :=
  match List.find (fun p => startsWith (toLowerCase s) p) introPhrases with
  | None => None
  | Some p =>
      let rest := drop (length p) s in
      match rest with
      | c :: _ =>
          if isSpace c then
            let w := takeWhile isWordChar (dropSpaces rest) in
            if falsy w then None else Some w
          else None
      | [] => None
      end
  end.

(** Group 1 of [/^(\w+)(?:\s*!|\s*\.|\s*$)/i]. *)
Definition matchBare (s : str) : option str :=
  let w := takeWhile isWordChar s in
  if falsy w then None
  else
    match dropSpaces (drop (length w) s) with
    | [] => Some w
    | c :: _ =>
        if Ascii.eqb c "!"%char || Ascii.eqb c "."%char then Some w else None
    end.

Definition commonWords : list str :=
  map lit
    [ "yes"; "no"; "hi"; "hey"; "hello"; "thanks"; "thank"; "ok"; "okay";
      "sure"; "yeah"; "yep"; "nope"; "the"; "and"; "but"; "what"; "why" ]%string.

Definition isCommonWord (word : str) : bool :=
  existsb (str_eqb (toLowerCase word)) commonWords.

Definition capitalizeName (name : str) : str :=
  toUpperCase (take 1 name) ++ toLowerCase (drop 1 name).

(** [s.split(/\s+/)]; [cur] collects the word at hand, reversed. *)
Fixpoint splitSpaces (s : str) (cur : str) : list str :=
  match s with
  | [] => [rev cur]
  | c :: s' =>
      if isSpace c then
        match s' with
        | d :: _ => if isSpace d then splitSpaces s' cur
                    else rev cur :: splitSpaces s' []
        | [] => rev cur :: splitSpaces s' []
        end
      else splitSpaces s' (c :: cur)
  end.

(** The name a pattern yields, when its match passes validation. *)
Definition validName (m : option str) : option str :=
  match m with
  | Some name =>
      if (2 <=? length name)%nat && negb (isCommonWord name)
      then Some (capitalizeName name) else None
  | None => None
  end.

(** [null] is [None]. *)
Definition extractName (message : str) : option str :=
  if falsy message then None
  else
    let trimmed := trim message in
    match validName (matchIntro trimmed) with
    | Some n => Some n
    | None =>
        match validName (matchBare trimmed) with
        | Some n => Some n
        | None =>
            let words := splitSpaces trimmed [] in
            let first := nth 0 words [] in
            if (length words <=? 2)%nat && (2 <=? length first)%nat then
              let potentialName := filter (fun c => Is_true (isWordChar c)) first in
              if negb (isCommonWord potentialName)
              then Some (capitalizeName potentialName) else None
            else None
        end
    end.

Definition isCheckInResponse (message : str) : bool :=
  if falsy message then false
  else
    let lower := toLowerCase message in
    includes lower (lit "yes") || includes lower (lit "no") ||
    includes lower (lit "sure") || includes lower (lit "okay") ||
    includes lower (lit "don't") || includes lower (lit "please").

Definition positiveWords : list str :=
  map lit [ "yes"; "sure"; "okay"; "ok"; "yeah"; "yep"; "please";
            "would love"; "sounds good" ]%string.

Definition negativeWords : list str :=
  map lit [ "no"; "nope"; "don't"; "not really"; "pass" ]%string.

Definition parseCheckInPreference (message : str) : bool :=
  if falsy message then false
  else
    let lower := toLowerCase message in
    if existsb (fun word => includes lower word) positiveWords then true
    else if existsb (fun word => includes lower word) negativeWords then false
    else true.

Definition getNext9AM (E : Env) : M Z :=
  now <- dateNow ;;
  let next := LocalDate.setHours E now 9 in
  ret (if next <=? now then LocalDate.nextDay next else next).

Definition getNext8PM (E : Env) : M Z :=
  now <- dateNow ;;
  let next := LocalDate.setHours E now 20 in
  ret (if next <=? now then LocalDate.nextDay next else next).

Definition setupCheckIns (E : Env) (phoneNumber : str) : M unit :=
  tryCatch
    (tomorrow9am <- getNext9AM E ;;
     next8pm <- getNext8PM E ;;
     Redis.setSchedule phoneNumber (mkSchedule (Some tomorrow9am) (Some next8pm) []))
    (fun _ => ret tt).

Definition advanceStage (phoneNumber : str) (newStage : nat) : M unit :=
  emit (EvAdvanceStage phoneNumber newStage) ;;;
  Redis.updateUser phoneNumber (mkPatch None (Some newStage) None) ;;;
  ret tt.

(** [user?.onboardingStage || 0] *)
Definition stageOf (user : option User) : nat :=
  match user with
  | Some u => default 0%nat (onboardingStage u)
  | None => 0%nat
  end.

Definition getCurrentStage (phoneNumber : str) : M nat :=
  user <- Redis.getUser phoneNumber ;;
  ret (stageOf user).

Record OnboardingResult := mkOnboarding {
  response : option str;
  stageAdvanced : bool;
  currentStage : nat
}.

(** [user.stats.messageCount]; the read throws when [stats] is missing. *)
Definition readMessageCount (user : User) : M nat :=
  match stats user with
  | Some st => ret (messageCount st)
  | None => throw TypeError
  end.

(** [!user.name] *)
Definition nameMissing (user : User) : bool :=
  match name user with Some n => falsy n | None => true end.

Definition checkInYes : str :=
  lit "Great! I'll send you a gentle check-in from time to time. You can always tell me to stop if it gets annoying 😊".

Definition checkInNo : str := lit "No problem! I'll be here whenever you need me.".

(** The [switch (stage)]: the reply it sets and whether it advanced. *)
Definition stageSwitch (E : Env) (phoneNumber message : str) (user : User)
    (stage : nat) : M (option str * bool) :=
  match stage with
  | 0%nat =>
      count <- readMessageCount user ;;
      if (2 <=? count)%nat && nameMissing user then
        advanceStage phoneNumber ASK_NAME ;;;
        ret (getOnboardingPrompt 1, true)
      else ret (None, false)
  | 1%nat =>
      match extractName message with
      | Some extractedName =>
          if falsy extractedName then ret (None, false)
          else
            Redis.updateUser phoneNumber (mkPatch (Some extractedName) None None) ;;;
            ack <- getNameAcknowledgment E extractedName ;;
            advanceStage phoneNumber ASK_REASON ;;;
            ret (Some ack, true)
      | None => ret (None, false)
      end
  | 2%nat =>
      count <- readMessageCount user ;;
      if (5 <=? count)%nat then
        advanceStage phoneNumber ASK_CHECKIN ;;;
        ret (getOnboardingPrompt 2, true)
      else ret (None, false)
  | 3%nat =>
      count <- readMessageCount user ;;
      if (10 <=? count)%nat then
        advanceStage phoneNumber COMPLETE ;;;
        ret (getOnboardingPrompt 3, true)
      else ret (None, false)
  | _ => ret (None, false)
  end.

(** The body of [processOnboarding] once [user] is known to be an object. *)
Definition onboardingSteps (E : Env) (phoneNumber message : str) (user : User)
    : M OnboardingResult :=
  let stage := default 0%nat (onboardingStage user) in
  switched <- stageSwitch E phoneNumber message user stage ;;
  (* Handle check-in preference response *)
  handled <-
    (if (stage =? ASK_CHECKIN)%nat && isCheckInResponse message then
       let wantsCheckIn := parseCheckInPreference message in
       (if wantsCheckIn then setupCheckIns E phoneNumber else ret tt) ;;;
       advanceStage phoneNumber COMPLETE ;;;
       ret (Some (if wantsCheckIn then checkInYes else checkInNo), true)
     else ret switched) ;;
  current <- (if snd handled then getCurrentStage phoneNumber else ret stage) ;;
  ret (mkOnboarding (fst handled) (snd handled) current).

(** [user] is what the caller read from the store; reading a field of
    [null] throws. *)
Definition processOnboarding (E : Env) (phoneNumber message : str)
    (user : option User) : M OnboardingResult :=
  emit (EvProcessOnboarding phoneNumber message) ;;;
  match user with
  | Some u => onboardingSteps E phoneNumber message u
  | None => throw TypeError
  end.

End Onboarding.

(** ** prompts/journalPrompts.js and services/journaling.js *)

Module Journaling.

Definition journalPrompts : list str :=
  map lit
    [ "What's one thing you're grateful for today?";
      "How are you feeling right now, and why?";
      "What challenged you today, and how did you handle it?";
      "What's something you learned about yourself this week?";
      "What's one small win you had today?";
      "What's been on your mind lately?";
      "What made you smile today?";
      "What's something you're looking forward to?" ]%string.

Definition acknowledgments : list str :=
  map lit
    [ "Thanks for sharing that with me 📝 I've saved it for you.";
      "Got it, I've noted that down. It's good to reflect like this.";
      "Journaling saved 💫 These moments of reflection really add up.";
      "I've saved your journal entry. Thanks for taking a moment to reflect.";
      "Nice, got it noted! Coming back to these later can be really valuable." ]%string.

Definition intros : list str :=
  map lit
    [ "Quick reflection time! 📝"; "Journal prompt for you:";
      "A moment to reflect:"; "Something to think about:";
      "Time for a quick check-in:" ]%string.

Definition weeklyPrompts : list str :=
  map lit
    [ "It's Sunday - a good time to look back. What was the highlight of your week?";
      "Weekly check-in time! What's one thing you learned about yourself this week?";
      "End of the week reflection: What are you carrying into next week, and what can you let go?";
      "Sunday thoughts: What made this week different from the last?" ]%string.

Definition isJournalEntry (message : str) : bool :=
  if falsy message then false
  else
    let lowerMessage := trim (toLowerCase message) in
    existsb (fun prefix => startsWith lowerMessage prefix) Config.journalPrefixes.

Definition extractJournalContent (message : str) : str :=
  if falsy message then message
  else
    let content := trim message in
    match List.find (fun prefix => startsWith (toLowerCase content) prefix)
                    Config.journalPrefixes with
    | Some prefix => trim (substringFrom content (length prefix))
    | None => content
    end.

Definition saveFailed : str :=
  lit "I had trouble saving that, but I heard you. Want to try again?".

(** The result's [acknowledgment]; [success] is not read by any caller. *)
Definition saveJournalEntry (E : Env) (phoneNumber message : str) (prompted : bool)
    : M (bool * str) :=
  tryCatch
    (let content := extractJournalContent message in
     emit (EvSaveJournal phoneNumber content) ;;;
     Redis.addJournalEntry phoneNumber content prompted ;;;
     user <- Redis.getUser phoneNumber ;;
     match user with
     | Some u =>
         match stats u with
         | Some st =>
             Redis.updateUser phoneNumber
               (mkPatch None None
                  (Some (mkStats (joinedAt st) (lastActive st) (messageCount st)
                                 (journalCount st + 1) (streakDays st)))) ;;;
             ret tt
         | None => throw TypeError
         end
     | None => ret tt
     end ;;;
     ack <- pick E acknowledgments ;;
     ret (true, ack))
    (fun _ => ret (false, saveFailed)).

Definition getJournalPrompt (E : Env) (dayOfWeek : Z) : M str :=
  if dayOfWeek =? 0 then pick E weeklyPrompts
  else ret (nth (Z.to_nat dayOfWeek mod length journalPrompts)%nat journalPrompts []).

Definition generateJournalPromptMessage (E : Env) : M str :=
  intro <- pick E intros ;;
  now <- dateNow ;;
  prompt <- getJournalPrompt E (LocalDate.getDay E now) ;;
  ret (intro ++ lit "

" ++ prompt).

End Journaling.

(** ** services/conversationEngine.js *)

Module ConversationEngine.

Definition throttled : str :=
  lit "I'm getting a lot of messages right now. Give me a moment and try again?".

(** The profile is read, then the rest is started and not awaited: it
    is queued in [background] with the profile read, and runs later, in
    the two steps of [Background]. *)
Definition updateUserStats (phoneNumber message : str) : M unit :=
  tryCatch
    (user <- Redis.getUser phoneNumber ;;
     match user with
     | None => ret tt
     | Some u =>
         modify (set_background (fun b => b ++ [mkDeferred phoneNumber message u]))
     end)
    (fun _ => ret tt).

Definition detectEmotionalState (E : Env) (message : str) : M str :=
  if negb (hasClient E) then ret (lit "neutral")
  else
    n <- external E ;;
    ret (default (lit "neutral") (emotionReply E n message)).

Definition generateResponse (E : Env) (phoneNumber userMessage : str) : M str :=
  emit (EvGenerateResponse phoneNumber userMessage) ;;;
  if negb (hasClient E) then getFallbackResponse E
  else
    tryCatch
      (user <- Redis.getOrCreateUser phoneNumber ;;
       conversationHistory <- Redis.getConversationHistory phoneNumber 20 ;;
       n <- external E ;;
       match completeReply E n phoneNumber userMessage with
       | CompleteError status => throw (ApiError status)
       | CompleteText text =>
           assistantMessage <-
             match text with
             | Some t => if falsy t then getFallbackResponse E else ret t
             | None => getFallbackResponse E
             end ;;
           Redis.addMessage phoneNumber RoleUser userMessage TPlain ;;;
           Redis.addMessage phoneNumber RoleAssistant assistantMessage TPlain ;;;
           updateUserStats phoneNumber userMessage ;;;
           ret assistantMessage
       end)
      (fun error =>
         match error with
         | ApiError 429 => ret throttled
         | _ => getFallbackResponse E
         end).

Definition generateProactiveMessage (E : Env) (phoneNumber triggerType : str)
    : M (option str) :=
  if negb (hasClient E) then ret None
  else
    tryCatch
      (user <- Redis.getUser phoneNumber ;;
       match user with
       | None => ret None
       | Some _ =>
           conversationHistory <- Redis.getConversationHistory phoneNumber 10 ;;
           n <- external E ;;
           match proactiveReply E n phoneNumber triggerType with
           | CompleteError status => throw (ApiError status)
           | CompleteText text => ret text
           end
       end)
      (fun _ => ret None).

End ConversationEngine.

(** ** handlers/messageHandler.js *)

Module MessageHandler.

Definition newline : str := [ascii_of_nat 10].
Definition quote : str := [ascii_of_nat 34].

(** [breakPoint === -1 || breakPoint < maxLength / 2] *)
Definition tooEarly (breakPoint : Z) (maxLength : nat) : bool :=
  (breakPoint =? -1) || (2 * breakPoint <? Z.of_nat maxLength).

Definition findBreakPoint (remaining : str) (maxLength : nat) : Z :=
  let bp1 := lastIndexOf remaining (newline ++ newline) maxLength in
  let bp2 := if tooEarly bp1 maxLength
             then lastIndexOf remaining newline maxLength else bp1 in
  let bp3 := if tooEarly bp2 maxLength
             then lastIndexOf remaining (lit ". ") maxLength else bp2 in
  let bp4 := if tooEarly bp3 maxLength
             then lastIndexOf remaining (lit " ") maxLength else bp3 in
  if bp4 =? -1 then Z.of_nat maxLength else bp4.

(** The [while (remaining.length > 0)] loop; [None] when [fuel] rounds
    do not finish it. *)
Fixpoint splitLoop (fuel : nat) (remaining : str) (maxLength : nat)
    (messages : list str) : option (list str) :=
  match fuel with
  | O => None
  | S fuel' =>
      if (0 <? length remaining)%nat then
        if (length remaining <=? maxLength)%nat then Some (messages ++ [remaining])
        else
          let breakPoint := Z.to_nat (findBreakPoint remaining maxLength) in
          splitLoop fuel'
            (trim (substringFrom remaining (breakPoint + 1))) maxLength
            (messages ++ [trim (substring remaining 0 (breakPoint + 1))])
      else Some messages
  end.

(** Every round removes a character, so [length text + 1] rounds are
    enough (see [splitLoop_total]). *)
Definition splitMessage (text : str) (maxLength : nat) : list str :=
  if (length text <=? maxLength)%nat then [text]
  else default [] (splitLoop (S (length text)) text maxLength []).

Definition maxLength : nat := 1600.

(** [text] is [None] for [null] or [undefined]. *)
Definition sendResponse (E : Env) (phoneNumber : str) (text : option str) : M unit :=
  match text with
  | None => ret tt
  | Some t =>
      if falsy t then ret tt
      else
        let messages := splitMessage t maxLength in
        forEach messages (fun msg =>
          result <- sendMessage E phoneNumber msg ;;
          if (1 <? length messages)%nat then sleep 500 else ret tt)
  end.

Definition generateAndSendResponse (E : Env) (phoneNumber message : str) : M str :=
  response <- ConversationEngine.generateResponse E phoneNumber message ;;
  sendResponse E phoneNumber (Some response) ;;;
  ret response.

Definition deletedText : str :=
  lit "I've deleted all your data. If you ever want to chat again, just send a message and we'll start fresh. Take care 💙".
Definition stoppedText : str :=
  lit "Got it, I've stopped the check-ins. I'm still here whenever you want to talk though!".
Definition resumedText : str :=
  lit "Welcome back! I'll start sending check-ins again. Talk soon 💫".
Definition helpText : str :=
  lit "Here's what you can do:
        
📝 Journal: Start a message with " ++ quote ++ lit "j:" ++ quote ++ lit " to save a journal entry
⏸ Stop check-ins: Say " ++ quote ++ lit "stop" ++ quote ++ lit " to pause proactive messages
▶️ Resume: Say " ++ quote ++ lit "resume" ++ quote ++ lit " to restart check-ins
🗑 Delete data: Say " ++ quote ++ lit "forget me" ++ quote ++ lit " to delete all your data
💬 Or just chat - I'm here to listen!".

(** [Some response] when the message was a command. *)
Definition handleCommands (E : Env) (phoneNumber message : str) : M (option str) :=
  let lowerMessage := trim (toLowerCase message) in
  if str_eqb lowerMessage (lit "forget me") || str_eqb lowerMessage (lit "delete my data")
  then Redis.deleteUserData phoneNumber ;;; ret (Some deletedText)
  else if str_eqb lowerMessage (lit "stop") || str_eqb lowerMessage (lit "stop check-ins")
          || str_eqb lowerMessage (lit "unsubscribe")
  then Redis.setSchedule phoneNumber (mkSchedule None None []) ;;; ret (Some stoppedText)
  else if str_eqb lowerMessage (lit "resume") || str_eqb lowerMessage (lit "start check-ins")
  then Onboarding.setupCheckIns E phoneNumber ;;; ret (Some resumedText)
  else if str_eqb lowerMessage (lit "help") || str_eqb lowerMessage (lit "?")
  then ret (Some helpText)
  else if str_eqb lowerMessage (lit "crisis") || str_eqb lowerMessage (lit "help me")
          || str_eqb lowerMessage (lit "resources")
  then ret (Some getCrisisResourcesText)
  else ret None.

Record WebhookData := mkWebhook {
  messageId : option str;
  phoneNumber : option str;
  wcontent : option str
}.

Definition momentText : str := lit "I'm having a moment - give me a sec and try again?".

(** The [try] block of [handleMessage]. *)
Definition handleBody (E : Env) (phoneNumber message : str) : M unit :=
  user <- Redis.getOrCreateUser phoneNumber ;;
  count <- Onboarding.readMessageCount user ;;
  let isNewUser := (count =? 0)%nat in
  commandResult <- handleCommands E phoneNumber message ;;
  match commandResult with
  | Some commandResponse => sendResponse E phoneNumber (Some commandResponse)
  | None =>
      if Journaling.isJournalEntry message then
        result <- Journaling.saveJournalEntry E phoneNumber message false ;;
        sendResponse E phoneNumber (Some (snd result))
      else if isNewUser then
        sendResponse E phoneNumber (Some getWelcomeMessage) ;;;
        generateAndSendResponse E phoneNumber message ;;;
        ret tt
      else
        conversationHistory <- Redis.getConversationHistory phoneNumber 10 ;;
        crisisResult <- CrisisDetection.detectCrisis E phoneNumber message
                          conversationHistory ;;
        if CrisisDetection.isCrisis crisisResult &&
           str_eqb (CrisisDetection.riskLevel crisisResult) (lit "critical")
        then sendResponse E phoneNumber (CrisisDetection.crisisResponse crisisResult)
        else
          generated <- ConversationEngine.generateResponse E phoneNumber message ;;
          let response :=
            match CrisisDetection.crisisResponse crisisResult with
            | Some crisisText =>
                if CrisisDetection.isCrisis crisisResult && negb (falsy crisisText)
                then crisisText ++ newline ++ newline ++ generated
                else generated
            | None => generated
            end in
          refreshed <- Redis.getUser phoneNumber ;;
          onboardingResult <-
            Onboarding.processOnboarding E phoneNumber message refreshed ;;
          let response' :=
            match Onboarding.response onboardingResult with
            | Some prompt =>
                if falsy prompt then response
                else response ++ newline ++ newline ++ prompt
            | None => response
            end in
          sendResponse E phoneNumber (Some response')
  end.

Definition handleMessage (E : Env) (webhookData : WebhookData) : M unit :=
  match normalizePhoneNumber (phoneNumber webhookData), wcontent webhookData with
  | Some phone, Some message =>
      if falsy phone || falsy message then ret tt
      else
        tryCatch (handleBody E phone message)
                 (fun _ => sendResponse E phone (Some momentText))
  | _, _ => ret tt
  end.

End MessageHandler.

(** ** services/proactiveMessaging.js *)

Module ProactiveMessaging.

Definition sendProactiveMessage (E : Env) (phoneNumber triggerType : str) : M unit :=
  emit (EvProactive phoneNumber triggerType) ;;;
  tryCatch
    (message <- ConversationEngine.generateProactiveMessage E phoneNumber triggerType ;;
     match message with
     | None => ret tt
     | Some text =>
         if falsy text then ret tt
         else
           result <- sendMessage E phoneNumber text ;;
           if sendSucceeded result
           then Redis.addMessage phoneNumber RoleAssistant text (TProactive triggerType)
           else ret tt
     end)
    (fun _ => ret tt).

Definition sendJournalPrompt (E : Env) (phoneNumber : str) : M unit :=
  emit (EvJournalPrompt phoneNumber) ;;;
  tryCatch
    (promptMessage <- Journaling.generateJournalPromptMessage E ;;
     result <- sendMessage E phoneNumber promptMessage ;;
     if sendSucceeded result
     then Redis.addMessage phoneNumber RoleAssistant promptMessage TJournalPrompt
     else ret tt)
    (fun _ => ret tt).

(** 9 AM next day, from the clock as it is when the function runs. *)
Definition getNextCheckInTime (E : Env) : M Z :=
  now <- dateNow ;;
  ret (LocalDate.setHours E (LocalDate.nextDay now) 9).

(** 8 PM next day *)
Definition getNextJournalPromptTime (E : Env) : M Z :=
  now <- dateNow ;;
  ret (LocalDate.setHours E (LocalDate.nextDay now) 20).

(** [slot && now >= slot]: [null] and 0 are falsy. *)
Definition due (slot : option Z) (now : Z) : bool :=
  match slot with
  | Some t => negb (t =? 0) && (t <=? now)
  | None => false
  end.

Definition followUpDue (now : Z) (f : FollowUp) : bool := fuTime f <=? now.

(** The block under [// Morning check-in]: the value [nextCheckIn] has
    afterwards and whether it was updated. *)
Definition morningCheckIn (E : Env) (phoneNumber : str) (schedule : Schedule) (now : Z)
    : M (option Z * bool) :=
  if due (nextCheckIn schedule) now then
    sendProactiveMessage E phoneNumber (lit "morning") ;;;
    next <- getNextCheckInTime E ;;
    ret (Some next, true)
  else ret (nextCheckIn schedule, false).

(** The block under [// Evening journal prompt]. *)
Definition eveningPrompt (E : Env) (phoneNumber : str) (schedule : Schedule) (now : Z)
    : M (option Z * bool) :=
  if due (nextJournalPrompt schedule) now then
    sendJournalPrompt E phoneNumber ;;;
    next <- getNextJournalPromptTime E ;;
    ret (Some next, true)
  else ret (nextJournalPrompt schedule, false).

(** The processed follow-ups are the due ones, so filtering out the
    members of [processed] keeps those that are not due. *)
Definition processUserSchedule (E : Env) (phoneNumber : str) (now : Z) : M unit :=
  got <- Redis.getSchedule phoneNumber ;;
  match got with
  | None => ret tt
  | Some schedule =>
      checkIn <- morningCheckIn E phoneNumber schedule now ;;
      prompt <- eveningPrompt E phoneNumber schedule now ;;
      (* Process follow-ups *)
      let processed := List.filter (followUpDue now) (followUps schedule) in
      forEach processed (fun followUp =>
        sendProactiveMessage E phoneNumber (fuType followUp)) ;;;
      let remaining :=
        if (0 <? length processed)%nat
        then List.filter (fun f => negb (followUpDue now f)) (followUps schedule)
        else followUps schedule in
      let updated := snd checkIn || snd prompt || (0 <? length processed)%nat in
      if updated
      then Redis.setSchedule phoneNumber (mkSchedule (fst checkIn) (fst prompt) remaining)
      else ret tt
  end.

(** The scan of one tick; [isLeader] is the flag the process keeps. *)
Definition checkAndSendProactiveMessages (E : Env) (isLeader : bool) : M unit :=
  if negb isLeader then ret tt
  else
    now <- dateNow ;;
    scheduledUsers <- gets (fun w => (map_to_list (schedules w)).*1) ;;
    forEach scheduledUsers (fun phoneNumber =>
      tryCatch (processUserSchedule E phoneNumber now) (fun _ => ret tt)).

End ProactiveMessaging.

(** ** routes/webhook.js: the duplicate check of [POST /message]

    The handler awaits the store twice before it processes a message:
    once for [checkIdempotency] (a GET) and once for [setIdempotency] (a
    SET with expiry).  Other requests run between the awaits, so the
    requests in flight are modelled as small machines over a shared
    store and a schedule says which one runs next. *)

Module Webhook.

(** [idempotency:<id>] with the time, in seconds, at which it expires. *)
Definition checkIdempotency (messageId : str) (now : Z) (store : gmap str Z) : bool :=
  match store !! messageId with
  | Some expiry => now <? expiry
  | None => false
  end.

Definition idempotencyTTL : Z := 300.

Definition setIdempotency (messageId : str) (now : Z) (store : gmap str Z)
    : gmap str Z :=
  <[messageId := now + idempotencyTTL]> store.

(** Where a request stands. *)
Inductive Pc :=
| AtCheck            (* about to run checkIdempotency *)
| AtSet              (* found no marker, about to run setIdempotency *)
| AtProcess          (* answered "received", about to handle the message *)
| Duplicate          (* answered "duplicate" *)
| Processed.         (* the message was handled *)

Record Request := mkRequest {
  reqMessageId : option str;
  pc : Pc
}.

(** A request as it arrives: without a message id the check is skipped. *)
Definition arrive (messageId : option str) : Request :=
  mkRequest messageId
    (match messageId with
     | Some i => if falsy i then AtProcess else AtCheck
     | None => AtProcess
     end).

Record Sys := mkSys {
  store : gmap str Z;
  now : Z;
  requests : list Request;
  handled : list (option str)   (* ids of the messages handled, in order *)
}.

Definition idOf (r : Request) : str := default [] (reqMessageId r).

(** The request at index [i] runs up to its next await. *)
Definition stepRequest (i : nat) (s : Sys) : Sys :=
  match requests s !! i with
  | None => s
  | Some r =>
      match pc r with
      | AtCheck =>
          let isDuplicate := checkIdempotency (idOf r) (now s) (store s) in
          mkSys (store s) (now s)
                (<[i := mkRequest (reqMessageId r)
                          (if isDuplicate then Duplicate else AtSet)]> (requests s))
                (handled s)
      | AtSet =>
          mkSys (setIdempotency (idOf r) (now s) (store s)) (now s)
                (<[i := mkRequest (reqMessageId r) AtProcess]> (requests s))
                (handled s)
      | AtProcess =>
          mkSys (store s) (now s)
                (<[i := mkRequest (reqMessageId r) Processed]> (requests s))
                (handled s ++ [reqMessageId r])
      | Duplicate | Processed => s
      end
  end.

Inductive Action :=
| Run (i : nat)          (* request [i] runs to its next await *)
| Elapse (seconds : Z).  (* time passes *)

Definition act (a : Action) (s : Sys) : Sys :=
  match a with
  | Run i => stepRequest i s
  | Elapse d => mkSys (store s) (now s + d) (requests s) (handled s)
  end.

Definition run (schedule : list Action) (s : Sys) : Sys :=
  fold_left (fun s a => act a s) schedule s.

(** How often the message [messageId] was handled. *)
Definition timesHandled (messageId : str) (s : Sys) : nat :=
  length (List.filter (fun h => match h with
                                | Some i => str_eqb i messageId
                                | None => false
                                end) (handled s)).

(** Two deliveries of one event, nothing done yet. *)
Definition twoDeliveries (messageId : str) (store0 : gmap str Z) (t0 : Z) : Sys :=
  mkSys store0 t0 [arrive (Some messageId); arrive (Some messageId)] [].

(** The first delivery runs to its end, then the second. *)
Definition oneAfterTheOther : list Action :=
  [Run 0; Run 0; Run 0; Run 1; Run 1; Run 1]%nat.

(** Both deliveries run their check before either sets the marker. *)
Definition interleaved : list Action :=
  [Run 0; Run 1; Run 0; Run 1; Run 0; Run 1]%nat.

End Webhook.

(** ** Vocabulary of the statements *)

Import CrisisDetection.

(** Whether a phrase of a list occurs in a message, read without regard
    to case, as the parser reads it. *)
Definition mentions (message : str) (phrases : list str) : Prop :=
  exists word, In word phrases /\ includes (toLowerCase message) word = true.

(** The floor set by the keyword layer, and the result when nothing
    else is known. *)
Definition deterministicFloor (message : str) : str :=
  if containsCrisisKeyword message then lit "high" else lit "low".

Definition deterministicResult (message : str) : CrisisResult :=
  if containsCrisisKeyword message
  then mkResult true (lit "high") true (Some highText) false HNull
  else initialResult.

(** The greater of two levels under low < medium < high < critical. *)
Definition maxLevel (a b : str) : str :=
  if (riskOrder a <? riskOrder b)%nat then b else a.

(** What the injected assessment returns when [detectCrisisWith] calls it. *)
Definition assessed (assess : M (option Assessment)) (phoneNumber message : str)
    (w : World) : Res (option Assessment) :=
  fst (assess (set_trace (fun t => t ++ [EvDetectCrisis phoneNumber message]) w)).

(** The result once layer 2 has run. *)
Definition merged (message : str) (out : Res (option Assessment)) : CrisisResult :=
  match out with
  | Ok (Some a) => mergeAssessment (keywordLayer message initialResult) a
  | _ => keywordLayer message initialResult
  end.

Definition withResponse (r : CrisisResult) : CrisisResult :=
  if isCrisis r
  then mkResult (isCrisis r) (riskLevel r) (keywordMatch r)
                (getCrisisResponse (riskLevel r)) (shouldFollowUp r) (followUpHours r)
  else r.

(** When the client is missing, the request fails, the reply does not
    parse or carries no level, [assessWithLLM] yields [null]. *)
Definition unusable (E : Env) (message : str) (w : World) : Prop :=
  hasClient E = false \/
  assessReply E (calls w) message = AssessApiError \/
  assessReply E (calls w) message = AssessUnparsable \/
  (exists a, assessReply E (calls w) message = AssessParsed a /\ level a = []).

(** A concrete environment and store, for running the services. *)
Module Demo.

Definition phone : str := lit "15551234567".

(** Everything works; the risk assessment is the one given. *)
Definition env (assessment : AssessReply) : Env :=
  mkEnv true true
        (fun _ _ => assessment)
        (fun _ _ _ => CompleteText (Some (lit "That sounds like a lot. Tell me more?")))
        (fun _ _ _ => CompleteText (Some (lit "Good morning! How did you sleep?")))
        (fun _ _ => Some (lit "neutral"))
        (fun _ _ _ => PostOk)
        (fun _ => 120%nat)
        (fun _ => 0%nat)
        0.

Definition member (stage count : nat) : User :=
  mkUser None (Some stage) (Some (mkStats 0 0 count 0 0)).

(** A store that holds one profile, at a given stage and message count. *)
Definition world (stage count : nat) : World :=
  set_clock (fun _ => 1762160400000)
    (set_users (fun m => <[phone := member stage count]> m) emptyWorld).

Definition text (message : string) : MessageHandler.WebhookData :=
  MessageHandler.mkWebhook (Some (lit "evt-1")) (Some (lit "+1 (555) 123-4567"))
                           (Some (lit message)).

Definition critical : AssessReply :=
  AssessParsed (mkAssessment (lit "critical") (lit "explicit intent") (HNum 2)).

Definition low : AssessReply :=
  AssessParsed (mkAssessment (lit "low") (lit "idiom") HNull).

End Demo.

(** The events a run adds to the trace, and the messages it delivers. *)
Definition eventsOf {A} (m : M A) (w : World) : list Event :=
  drop (length (trace w)) (trace (snd (m w))).

Definition sentBy {A} (m : M A) (w : World) : list (str * str) :=
  drop (length (outbox w)) (outbox (snd (m w))).

(** A computation keeps a relation between the world before and after. *)
Definition preserves {A} (R : relation World) (m : M A) : Prop :=
  forall w, R w (snd (m w)).

(** A computation that cannot throw. *)
Definition safe {A} (m : M A) : Prop :=
  forall w, exists a, fst (m w) = Ok a.

(** Time does not run backwards. *)
Definition clockAdvances : relation World := fun w w' => clock w <= clock w'.

(** The events added to the trace all satisfy [P]. *)
Definition emitsOnly (P : Event -> Prop) : relation World :=
  fun w w' => exists evs, trace w' = trace w ++ evs /\ Forall P evs.

(** An advancement, if the event is one, stores the stage [n]. *)
Definition advancesTo (n : nat) (e : Event) : Prop :=
  match e with
  | EvAdvanceStage _ m => m = n
  | _ => True
  end.

Definition isAdvance (e : Event) : bool :=
  match e with EvAdvanceStage _ _ => true | _ => false end.

(** How many times [advanceStage] ran. *)
Definition advancements (evs : list Event) : nat := length (List.filter isAdvance evs).

(** The stage of an identity, as [getCurrentStage] reads it. *)
Definition stageAt (phoneNumber : str) (w : World) : nat :=
  Onboarding.stageOf (users w !! phoneNumber).

(** The stage of [phoneNumber] stays or becomes [next]; other profiles
    are untouched. *)
Definition stageStep (phoneNumber : str) (next : nat) : relation World :=
  fun w w' =>
    (stageAt phoneNumber w' = stageAt phoneNumber w \/ stageAt phoneNumber w' = next) /\
    forall p, p <> phoneNumber -> users w' !! p = users w !! p.

(** No identity's stage goes down. *)
Definition stagesGrow : relation World :=
  fun w w' => forall p, (stageAt p w <= stageAt p w')%nat.

(** The two commands that erase an identity. *)
Definition isErase (message : str) : bool :=
  let lowerMessage := trim (toLowerCase message) in
  str_eqb lowerMessage (lit "forget me") || str_eqb lowerMessage (lit "delete my data").

(** An inbound event that is not an erasure command. *)
Definition keepsData (webhookData : MessageHandler.WebhookData) : Prop :=
  match MessageHandler.wcontent webhookData with
  | Some message => isErase message = false
  | None => True
  end.

(** What a journal entry may touch: the crisis log and every stage stay
    as they are, and the only calls traced are saves of [content] for
    [phoneNumber]. *)
Definition journalFrame (phoneNumber content : str) : relation World :=
  fun w w' =>
    crisis w' = crisis w /\
    (forall p, stageAt p w' = stageAt p w) /\
    emitsOnly (fun e => e = EvSaveJournal phoneNumber content) w w'.

Definition journalKept : relation World := fun w w' => journal w' = journal w.

(** The messages delivered all satisfy [Q]. *)
Definition sendsOnly (Q : str * str -> Prop) : relation World :=
  fun w w' => exists ms, outbox w' = outbox w ++ ms /\ Forall Q ms.

(** Not a call that produces or extends a normal reply. *)
Definition noReply (e : Event) : Prop :=
  match e with
  | EvGenerateResponse _ _ | EvProcessOnboarding _ _ | EvAdvanceStage _ _ => False
  | _ => True
  end.

(** Not the return of a critical assessment. *)
Definition notCritical (e : Event) : Prop :=
  match e with
  | EvRisk _ l => l <> lit "critical"
  | _ => True
  end.

Definition isCritical (e : Event) : Prop :=
  exists p, e = EvRisk p (lit "critical").

(** The crisis response for level critical, or the apology the handler
    sends when something threw. *)
Definition crisisOrApology (m : str * str) : Prop :=
  m.2 = criticalText \/ m.2 = MessageHandler.momentText.

(** Nothing traced, nothing delivered. *)
Definition silent : relation World :=
  fun w w' => trace w' = trace w /\ outbox w' = outbox w.

(** What the risk assessment does when it returns level [lvl]. *)
Definition assessedAs (lvl : str) (e : Event) : Prop :=
  match e with
  | EvRisk _ l => l = lvl
  | EvGenerateResponse _ _ | EvProcessOnboarding _ _ | EvAdvanceStage _ _ => False
  | _ => True
  end.

Definition detected (lvl : str) : relation World :=
  fun w w' => emitsOnly (assessedAs lvl) w w' /\ outbox w' = outbox w.

(** The two ways a handled message can end: without a critical
    assessment, or with only the crisis response going out. *)
Definition uncritical : relation World := emitsOnly notCritical.

Definition shortCircuit : relation World :=
  fun w w' => emitsOnly noReply w w' /\ sendsOnly crisisOrApology w w'.

Definition handledSafely : relation World :=
  fun w w' => uncritical w w' \/ shortCircuit w w'.

(** The demo store at 09:00 UTC on 3 November 2025, with a check-in due
    at that time. *)
Definition dueSchedule : Schedule := mkSchedule (Some 1762160400000) None [].

Definition scheduledWorld : World :=
  set_schedules (fun m => <[Demo.phone := dueSchedule]> m) (Demo.world 4 12).

(** ** Further functions of the cited files *)

(** utils/helpers.js: [containsKeyword], [maskPhoneNumber], [daysBetween] *)
Definition containsKeyword (text : str) (keywords : list str) : bool :=
  if falsy text then false
  else
    let lowerText := toLowerCase text in
    existsb (fun keyword => includes lowerText (toLowerCase keyword)) keywords.

(** [phone.slice(-4)] *)
Definition lastFour (phone : str) : str := drop (length phone - 4) phone.

Definition maskPhoneNumber (phone : option str) : str :=
  match phone with
  | None => lit "****"
  | Some p =>
      if falsy p || (length p <? 4)%nat then lit "****"
      else lit "****" ++ lastFour p
  end.

(** services/loopMessage.js: [formatPhoneNumber] *)
Definition formatPhoneNumber (phone : str) : str :=
  let cleaned := filter (fun c => Is_true (isDigit c)) phone in
  let cleaned' := if (length cleaned =? 10)%nat then lit "1" ++ cleaned else cleaned in
  lit "+" ++ cleaned'.

(** A text without its white space. *)
Definition nonSpace (s : str) : str := List.filter (fun c => negb (isSpace c)) s.

(** Nothing traced and no schedule touched. *)
Definition untracedAndUnscheduled : relation World :=
  fun w w' => trace w' = trace w /\ schedules w' = schedules w.

(** What a tick of the scheduler fires for one schedule: the morning
    check-in, the journal prompt and the follow-ups that are due. *)
Definition firings (phoneNumber : str) (schedule : Schedule) (now : Z) : list Event :=
  (if ProactiveMessaging.due (nextCheckIn schedule) now
   then [EvProactive phoneNumber (lit "morning")] else []) ++
  (if ProactiveMessaging.due (nextJournalPrompt schedule) now
   then [EvJournalPrompt phoneNumber] else []) ++
  map (fun f => EvProactive phoneNumber (fuType f))
      (List.filter (ProactiveMessaging.followUpDue now) (followUps schedule)).

(** No step of the risk assessment. *)
Definition notAssessed (e : Event) : Prop :=
  match e with
  | EvDetectCrisis _ _ | EvAssessLLM _ | EvRisk _ _ => False
  | _ => True
  end.

(** The identity is unknown, or known with no message counted yet. *)
Definition firstContact (phoneNumber : str) (w : World) : Prop :=
  match users w !! phoneNumber with
  | None => True
  | Some u => exists st, stats u = Some st /\ messageCount st = 0%nat
  end.

(** No entry is added to the crisis log or changed in it. *)
Definition crisisLogShrinks : relation World :=
  fun w w' => forall k, crisis w' !! k = None \/ crisis w' !! k = crisis w !! k.

Definition unassessed : relation World :=
  fun w w' => emitsOnly notAssessed w w' /\ crisisLogShrinks w w'.

(** services/conversationEngine.js: [buildMessages].  The roles stored
    in a history are 'user' and 'assistant'. *)
Module Prompt.

Definition role_eqb (a b : Role) : bool :=
  match a, b with
  | RoleUser, RoleUser | RoleAssistant, RoleAssistant => true
  | _, _ => false
  end.

(** [{ role, content }] *)
Definition ChatMessage : Type := Role * str.

(** One round of the loop that fills [cleaned]; the state is
    [(lastRole, cleaned)], with [None] for [null]. *)
Definition pushIfNew (st : option Role * list ChatMessage) (msg : ChatMessage)
    : option Role * list ChatMessage :=
  let same := match fst st with
              | Some lastRole => role_eqb (fst msg) lastRole
              | None => false
              end in
  if negb same then (Some (fst msg), snd st ++ [msg]) else st.

(** [if (messages.length > 0 && messages[0].role !== 'user') messages.shift()] *)
Definition shiftUnlessUser (messages : list ChatMessage) : list ChatMessage :=
  match messages with
  | first :: rest => if negb (role_eqb (fst first) RoleUser) then rest else messages
  | [] => messages
  end.

Definition buildMessages (history : list Msg) (currentMessage : str)
    : list ChatMessage :=
  let messages :=
    map (fun msg => (role msg, content msg)) history ++ [(RoleUser, currentMessage)] in
  (* Ensure messages start with user role *)
  let messages' := shiftUnlessUser messages in
  (* Ensure alternating roles *)
  snd (fold_left pushIfNew messages' (None, [])).

End Prompt.

(** No two neighbours have the same role. *)
Fixpoint alternating (l : list Prompt.ChatMessage) : bool :=
  match l with
  | a :: (b :: _) as rest => negb (Prompt.role_eqb (fst a) (fst b)) && alternating rest
  | _ => true
  end.

(** ** The leader lock

    services/redis.js ([acquireLock], [releaseLock], [extendLock]) and
    services/proactiveMessaging.js ([acquireLeaderLock],
    [releaseLeaderLock]).  The lock is one key of the store; a key that
    was set with an expiry is gone once the expiry has passed.  Times
    are in seconds. *)

Module Leader.

(** The value under [proactive:leader:lock] and when it expires. *)
Record Lock := mkLock {
  lockValue : str;
  lockExpiry : Z
}.

(** [GET]: the value, unless the key is missing or has expired. *)
Definition get (now : Z) (store : option Lock) : option str :=
  match store with
  | Some l => if now <? lockExpiry l then Some (lockValue l) else None
  | None => None
  end.

(** [SET key value EX ttl NX], and whether it answered OK. *)
Definition acquireLock (value : str) (ttlSeconds : Z) (now : Z) (store : option Lock)
    : bool * option Lock :=
  match get now store with
  | Some _ => (false, store)
  | None => (true, Some (mkLock value (now + ttlSeconds)))
  end.

Definition releaseLock (expectedValue : str) (now : Z) (store : option Lock)
    : bool * option Lock :=
  match get now store with
  | Some currentValue =>
      if str_eqb currentValue expectedValue then (true, None) else (false, store)
  | None => (false, store)
  end.

(** [EXPIRE key ttl] *)
Definition extendLock (ttlSeconds : Z) (now : Z) (store : option Lock)
    : bool * option Lock :=
  match get now store with
  | Some currentValue => (true, Some (mkLock currentValue (now + ttlSeconds)))
  | None => (false, store)
  end.

Definition lockTTL : Z := 300.

(** The fields of the scheduler that take part. *)
Record Process := mkProcess {
  processId : str;
  isLeader : bool
}.

Definition acquireLeaderLock (p : Process) (now : Z) (store : option Lock)
    : Process * option Lock :=
  let (lockAcquired, store') := acquireLock (processId p) lockTTL now store in
  (mkProcess (processId p) lockAcquired, store').

Definition releaseLeaderLock (p : Process) (now : Z) (store : option Lock)
    : Process * option Lock :=
  if isLeader p then
    let (released, store') := releaseLock (processId p) now store in
    (mkProcess (processId p) false, store')
  else (p, store).

End Leader.

(** The first delivery runs to its end; the second arrives [seconds]
    later and runs to its end. *)
Definition redelivered (seconds : Z) : list Webhook.Action :=
  [Webhook.Run 0; Webhook.Run 0; Webhook.Run 0; Webhook.Elapse seconds;
   Webhook.Run 1; Webhook.Run 1; Webhook.Run 1]%nat.

(** ** The background update at its awaits

    [updateUserStats] does not await the continuation it starts, and
    the [updateUser] at the end of that continuation is a GET, an await
    and a SET.  So the continuation runs in two steps, and whatever
    else runs may come before, between or after them.  Here the steps
    of the updates are interleaved with the handling of whole
    messages. *)

Module Background.

(** An update between the two steps: the key, the profile its GET
    returned, and the [updates] object it was called with. *)
Record Pending := mkPending {
  pPhone : str;
  pExisting : option User;
  pUpdates : UserPatch
}.

(** From the resolution of [detectEmotionalState] to the await inside
    [updateUser]; [None] when the continuation threw before and its
    [catch] logged it. *)
Definition reads (E : Env) (d : Deferred) : M (option Pending) :=
  tryCatch
    (emotion <- ConversationEngine.detectEmotionalState E (dMessage d) ;;
     now <- dateNow ;;
     match stats (dUser d) with
     | Some st =>
         let updates :=
           mkPatch None None
             (Some (mkStats (joinedAt st) now (messageCount st + 1)
                            (journalCount st) (streakDays st))) in
         existing <- Redis.getUser (dPhone d) ;;
         ret (Some (mkPending (dPhone d) existing updates))
     | None => throw TypeError
     end)
    (fun _ => ret None).

(** The rest of [updateUser]: [setUser(phoneNumber, { ...existing, ...updates })]. *)
Definition writes (p : Pending) : M unit :=
  Redis.setUser (pPhone p) (Redis.spread (pExisting p) (pUpdates p)).

(** The store and clock, and the updates that have read and not yet
    written; the updates that have not read yet are in [background]. *)
Record Process := mkProcess {
  world : World;
  reading : list Pending
}.

Inductive Step :=
| Deliver (webhookData : MessageHandler.WebhookData)  (* a message is handled to its end *)
| Reads (i : nat)       (* the [i]th update started runs up to its GET *)
| Writes (j : nat).     (* the [j]th update that has read runs its SET *)

Definition step (E : Env) (a : Step) (s : Process) : Process :=
  match a with
  | Deliver webhookData =>
      mkProcess (snd (MessageHandler.handleMessage E webhookData (world s))) (reading s)
  | Reads i =>
      match background (world s) !! i with
      | None => s
      | Some d =>
          let r := reads E d (set_background (delete i) (world s)) in
          mkProcess (snd r)
                    (reading s ++ match fst r with
                                  | Ok (Some p) => [p]
                                  | _ => []
                                  end)
      end
  | Writes j =>
      match reading s !! j with
      | None => s
      | Some p => mkProcess (snd (writes p (world s))) (delete j (reading s))
      end
  end.

Definition runSteps (E : Env) (schedule : list Step) (s : Process) : Process :=
  fold_left (fun s a => step E a s) schedule s.

(** No message is an erasure command, and no message is handled while
    an update is between its read and its write. *)
Fixpoint calm (E : Env) (schedule : list Step) (s : Process) : Prop :=
  match schedule with
  | [] => True
  | a :: rest =>
      match a with
      | Deliver webhookData => keepsData webhookData /\ reading s = []
      | Reads _ | Writes _ => True
      end /\
      calm E rest (step E a s)
  end.

(** Every update that has read holds the stage the store holds now,
    and sets no stage of its own. *)
Definition current (s : Process) : Prop :=
  Forall (fun p => p_stage (pUpdates p) = None /\
                   Onboarding.stageOf (pExisting p) = stageAt (pPhone p) (world s))
         (reading s).

End Background.

(** ** Properties *)

(** *** Strings *)

Lemma str_eqb_eq (a b : str) : str_eqb a b = true <-> a = b.
Proof.
  revert b; induction a as [|c a IH]; intros [|d b]; simpl; try (split; congruence).
  rewrite andb_true_iff, Ascii.eqb_eq, IH. split.
  - intros [-> ->]; reflexivity.
  - intros [= -> ->]; auto.
Qed.

Lemma str_eqb_refl (a : str) : str_eqb a a = true.
Proof. apply str_eqb_eq; reflexivity. Qed.

Lemma startsWith_spec (s p : str) :
  startsWith s p = true <-> exists r, s = p ++ r.
Proof.
  revert s; induction p as [|c p IH]; intros s; simpl.
  - split; eauto.
  - destruct s as [|d s].
    + split; [discriminate | intros [r Hr]; discriminate].
    + rewrite andb_true_iff, Ascii.eqb_eq, IH. split.
      * intros [-> [r ->]]; eauto.
      * intros [r [= -> ->]]; eauto.
Qed.

Lemma includes_spec (s w : str) :
  includes s w = true <-> exists pre post, s = pre ++ w ++ post.
Proof.
  induction s as [|c s IH]; simpl.
  - rewrite orb_false_r, startsWith_spec. split.
    + intros [r ->]. exists [], r. reflexivity.
    + intros [pre [post H]]. destruct pre; simpl in H.
      * eauto.
      * discriminate.
  - rewrite orb_true_iff, startsWith_spec, IH. split.
    + intros [[r ->] | [pre [post ->]]].
      * exists [], r; reflexivity.
      * exists (c :: pre), post; reflexivity.
    + intros [[|d pre] [post H]]; simpl in H.
      * left; eauto.
      * right. injection H as -> ->. eauto.
Qed.

Lemma lowerChar_idem (c : ascii) : lowerChar (lowerChar c) = lowerChar c.
Proof. destruct c as [[] [] [] [] [] [] [] []]; reflexivity. Qed.

Lemma toLowerCase_app (a b : str) :
  toLowerCase (a ++ b) = toLowerCase a ++ toLowerCase b.
Proof. apply map_app. Qed.

Lemma toLowerCase_idem (s : str) : toLowerCase (toLowerCase s) = toLowerCase s.
Proof.
  unfold toLowerCase. rewrite map_map. apply map_ext. intros; apply lowerChar_idem.
Qed.

(** A phrase written in lower case that occurs in a message occurs in
    the lower-cased message too. *)
Lemma includes_toLowerCase (s w : str) :
  toLowerCase w = w -> includes s w = true -> includes (toLowerCase s) w = true.
Proof.
  intros Hw. rewrite !includes_spec. intros [pre [post ->]].
  exists (toLowerCase pre), (toLowerCase post).
  rewrite !toLowerCase_app, Hw. reflexivity.
Qed.

Lemma existsb_In_true {A} (f : A -> bool) (l : list A) (x : A) :
  In x l -> f x = true -> existsb f l = true.
Proof. intros Hin Hx. apply existsb_exists. eauto. Qed.

Lemma existsb_all_false {A} (f : A -> bool) (l : list A) :
  (forall x, In x l -> f x = false) -> existsb f l = false.
Proof.
  intros H. destruct (existsb f l) eqn:Hex; [|reflexivity].
  apply existsb_exists in Hex as [x [Hin Hx]]. rewrite (H x Hin) in Hx. discriminate.
Qed.

(** The string functions on small inputs. *)
Example trim_demo :
  trim (lit "  hi there " ++ [ascii_of_nat 10]) = lit "hi there".
Proof. reflexivity. Qed.

Example lastIndexOf_demo :
  lastIndexOf (lit "a b c") (lit " ") 2 = 1 /\
  lastIndexOf (lit "a b c") (lit " ") 3 = 3 /\
  lastIndexOf (lit "a b c") (lit " ") 0 = -1 /\
  lastIndexOf (lit "one. two. three") (lit ". ") 15 = 8.
Proof. repeat split; reflexivity. Qed.

Example extractName_demo :
  Onboarding.extractName (lit "I'm sam") = Some (lit "Sam") /\
  Onboarding.extractName (lit "call me ALEX please") = Some (lit "Alex") /\
  Onboarding.extractName (lit "Robin!") = Some (lit "Robin") /\
  Onboarding.extractName (lit "hello") = None /\
  Onboarding.extractName (lit "not sure I want to say") = None.
Proof. repeat split; vm_compute; reflexivity. Qed.

(** *** Check-in preference *)

Lemma positiveWords_lower (word : str) :
  In word Onboarding.positiveWords -> toLowerCase word = word.
Proof.
  unfold Onboarding.positiveWords. simpl.
  intros H. repeat (destruct H as [<- | H]; [reflexivity|]). destruct H.
Qed.

(** C10 (as amended).  For a non-empty message, positive phrases take
    precedence in [parseCheckInPreference]: a message in which one of
    the positive phrases occurs (as written, or without regard to case)
    is an opt-in whatever else it contains, and a message in which
    neither a positive nor a negative phrase occurs (read without regard
    to case, as the parser lower-cases the message) is an opt-in too. *)
Theorem parseCheckInPreference_positive_first (message : str) :
  message <> [] ->
  ((mentions message Onboarding.positiveWords \/
    (exists word, In word Onboarding.positiveWords /\ includes message word = true)) ->
   Onboarding.parseCheckInPreference message = true) /\
  (~ mentions message Onboarding.positiveWords ->
   ~ mentions message Onboarding.negativeWords ->
   Onboarding.parseCheckInPreference message = true).
Proof.
  intros Hne. unfold Onboarding.parseCheckInPreference.
  destruct message as [|c message]; [congruence|]. cbn [falsy]. cbv zeta.
  set (lower := toLowerCase (c :: message)).
  split.
  - intros H.
    assert (Hm : mentions (c :: message) Onboarding.positiveWords).
    { destruct H as [H | [word [Hin Hinc]]]; [exact H|].
      exists word. split; [exact Hin|].
      apply includes_toLowerCase; [apply positiveWords_lower; exact Hin | exact Hinc]. }
    destruct Hm as [word [Hin Hinc]].
    rewrite (existsb_In_true (fun word => includes lower word) _ word Hin Hinc).
    reflexivity.
  - intros Hpos Hneg.
    destruct (existsb _ Onboarding.positiveWords) eqn:Hp; [reflexivity|].
    rewrite existsb_all_false; [reflexivity|].
    intros word Hin.
    destruct (includes lower word) eqn:Hinc; [|reflexivity].
    exfalso. apply Hneg. exists word. auto.
Qed.

Lemma parseCheckInPreference_positive_first_witness :
  lit "no, wait - yes please" <> [] /\
  Onboarding.parseCheckInPreference (lit "no, wait - yes please") = true.
Proof.
  assert (Hne : lit "no, wait - yes please" <> []) by (vm_compute; discriminate).
  split; [exact Hne|].
  apply (proj1 (parseCheckInPreference_positive_first _ Hne)).
  right. exists (lit "yes"). split; [vm_compute; auto | vm_compute; reflexivity].
Defined.

(** C10, as stated, fails at the empty message: no phrase occurs in it,
    and it is read as an opt-out by the guard on falsy messages. *)
Lemma parseCheckInPreference_empty_opts_out :
  ~ mentions [] Onboarding.positiveWords /\
  ~ mentions [] Onboarding.negativeWords /\
  Onboarding.parseCheckInPreference [] = false.
Proof.
  split; [|split]; [| |reflexivity];
    intros [word [Hin Hinc]]; simpl in Hin;
    repeat (destruct Hin as [<- | Hin]; [vm_compute in Hinc; discriminate|]);
    destruct Hin.
Qed.

(** *** Risk assessment *)

Lemma llmLayer_result assess result w :
  llmLayer assess result w =
  (Ok (match fst (assess w) with
       | Ok (Some a) => mergeAssessment result a
       | _ => result
       end), snd (assess w)).
Proof.
  unfold llmLayer, tryCatch, bind, ret.
  destruct (assess w) as [[[a|]|e] w1]; reflexivity.
Qed.

Lemma logCrisisEvent_ok phoneNumber message result w :
  exists w', logCrisisEvent phoneNumber message result w = (Ok tt, w').
Proof. eexists; reflexivity. Qed.

Lemma scheduleFollowUp_ok phoneNumber hours lvl w :
  exists w', scheduleFollowUp phoneNumber hours lvl w = (Ok tt, w').
Proof. eexists; reflexivity. Qed.

Lemma conclude_result phoneNumber message result2 w :
  fst (conclude phoneNumber message result2 w) = Ok (withResponse result2).
Proof.
  unfold conclude, withResponse.
  destruct (isCrisis result2); [|reflexivity].
  cbv zeta. unfold bind.
  match goal with |- context [logCrisisEvent ?p ?m ?r ?x] =>
    destruct (logCrisisEvent_ok p m r x) as [w2 ->] end.
  match goal with |- context [if ?c then _ else _] => destruct c end.
  - match goal with |- context [scheduleFollowUp ?p ?h ?l ?x] =>
      destruct (scheduleFollowUp_ok p h l x) as [w3 ->] end.
    reflexivity.
  - reflexivity.
Qed.

Lemma detectCrisisWith_run assess phoneNumber message w :
  detectCrisisWith assess phoneNumber message w =
  conclude phoneNumber message (merged message (assessed assess phoneNumber message w))
           (snd (assess (set_trace (fun t => t ++ [EvDetectCrisis phoneNumber message]) w))).
Proof.
  unfold detectCrisisWith, assessed, merged, bind at 1, emit, modify.
  cbv zeta. unfold bind at 1. rewrite llmLayer_result.
  destruct (fst (assess _)) as [[a|]|e]; reflexivity.
Qed.

Lemma detectCrisisWith_result assess phoneNumber message w :
  exists w',
    detectCrisisWith assess phoneNumber message w =
    (Ok (withResponse (merged message (assessed assess phoneNumber message w))), w').
Proof.
  rewrite detectCrisisWith_run.
  match goal with |- context [conclude ?p ?m ?r ?x] =>
    pose proof (conclude_result p m r x) as Hres;
    destruct (conclude p m r x) as [res w'] end.
  cbn [fst] in Hres. subst res. eauto.
Qed.

Lemma riskLevel_withResponse r : riskLevel (withResponse r) = riskLevel r.
Proof. unfold withResponse. destruct (isCrisis r); reflexivity. Qed.

Lemma riskLevel_keywordLayer message :
  riskLevel (keywordLayer message initialResult) = deterministicFloor message.
Proof.
  unfold keywordLayer, deterministicFloor.
  destruct (containsCrisisKeyword message); reflexivity.
Qed.

Lemma riskLevel_mergeAssessment r a :
  riskLevel (mergeAssessment r a) = maxLevel (riskLevel r) (level a).
Proof. reflexivity. Qed.

Lemma riskOrder_maxLevel a b :
  riskOrder (maxLevel a b) = Nat.max (riskOrder a) (riskOrder b).
Proof.
  unfold maxLevel. destruct (riskOrder a <? riskOrder b)%nat eqn:H.
  - apply Nat.ltb_lt in H. lia.
  - apply Nat.ltb_ge in H. lia.
Qed.

Lemma withResponse_keywordLayer message :
  withResponse (keywordLayer message initialResult) = deterministicResult message.
Proof.
  unfold keywordLayer, deterministicResult.
  destruct (containsCrisisKeyword message); reflexivity.
Qed.

Lemma assessWithLLM_unusable E phoneNumber message history w :
  unusable E message w ->
  assessed (assessWithLLM E message history) phoneNumber message w = Ok None.
Proof.
  unfold unusable, assessed, assessWithLLM.
  destruct (hasClient E); cbn [negb].
  - intros [H | H]; [discriminate|].
    unfold bind, external, gets, modify, emit, ret. cbn.
    destruct H as [-> | [-> | [a [-> Ha]]]]; try reflexivity.
    rewrite Ha. reflexivity.
  - reflexivity.
Qed.

(** What [assessWithLLM] hands to [detectCrisis]: the parsed reply when
    a client is configured, the request succeeds and the reply parses
    and carries a level, and [null] in every other case. *)
Lemma assessWithLLM_assessed E phoneNumber message history w :
  assessed (assessWithLLM E message history) phoneNumber message w =
  Ok (if hasClient E then
        match assessReply E (calls w) message with
        | AssessParsed a => if falsy (level a) then None else Some a
        | _ => None
        end
      else None).
Proof.
  unfold assessed, assessWithLLM.
  destruct (hasClient E); cbn [negb]; [|reflexivity].
  unfold bind, external, gets, modify, emit, ret. cbn.
  destruct (assessReply E (calls w) message) as [| |a]; try reflexivity.
  destruct (falsy (level a)); reflexivity.
Qed.

(** C1.  The level [detectCrisis] returns is the greater, under
    low < medium < high < critical, of the keyword floor and the level
    of the external assessment, so the external level only ever raises
    it; and when the external assessment fails, throws, yields nothing
    or is unusable, the result is the one the keyword layer alone
    gives.  The first part is about [detectCrisis] with the external
    assessment it calls, for every reply that can come back; the
    second about the same code around any way of obtaining the
    assessment, one that throws included. *)
Theorem detectCrisis_level_is_max E phoneNumber message history w :
  (exists r w',
     detectCrisis E phoneNumber message history w = (Ok r, w') /\
     if hasClient E then
       match assessReply E (calls w) message with
       | AssessParsed a =>
           if falsy (level a) then r = deterministicResult message
           else
             riskLevel r = maxLevel (deterministicFloor message) (level a) /\
             riskOrder (riskLevel r) =
               Nat.max (riskOrder (deterministicFloor message)) (riskOrder (level a)) /\
             (riskOrder (deterministicFloor message) <= riskOrder (riskLevel r))%nat
       | AssessApiError | AssessUnparsable => r = deterministicResult message
       end
     else r = deterministicResult message) /\
  (forall assess,
     exists r w',
       detectCrisisWith assess phoneNumber message w = (Ok r, w') /\
       match assessed assess phoneNumber message w with
       | Ok (Some a) =>
           riskLevel r = maxLevel (deterministicFloor message) (level a) /\
           riskOrder (riskLevel r) =
             Nat.max (riskOrder (deterministicFloor message)) (riskOrder (level a)) /\
           (riskOrder (deterministicFloor message) <= riskOrder (riskLevel r))%nat
       | Ok None | Raise _ => r = deterministicResult message
       end) /\
  (unusable E message w ->
   exists w', detectCrisis E phoneNumber message history w =
              (Ok (deterministicResult message), w')).
Proof.
  assert (Hwith : forall assess,
            exists r w',
              detectCrisisWith assess phoneNumber message w = (Ok r, w') /\
              match assessed assess phoneNumber message w with
              | Ok (Some a) =>
                  riskLevel r = maxLevel (deterministicFloor message) (level a) /\
                  riskOrder (riskLevel r) =
                    Nat.max (riskOrder (deterministicFloor message)) (riskOrder (level a)) /\
                  (riskOrder (deterministicFloor message) <= riskOrder (riskLevel r))%nat
              | Ok None | Raise _ => r = deterministicResult message
              end).
  { intros assess.
    destruct (detectCrisisWith_result assess phoneNumber message w) as [w' Hrun].
    eexists _, w'. split; [exact Hrun|].
    unfold merged. destruct (assessed assess phoneNumber message w) as [[a|]|e].
    + rewrite riskLevel_withResponse, riskLevel_mergeAssessment, riskLevel_keywordLayer.
      rewrite riskOrder_maxLevel. repeat split; lia.
    + apply withResponse_keywordLayer.
    + apply withResponse_keywordLayer. }
  split; [|split; [exact Hwith|]].
  - destruct (Hwith (assessWithLLM E message history)) as (r & w' & Hrun & Hres).
    exists r, w'. split; [exact Hrun|].
    rewrite assessWithLLM_assessed in Hres.
    destruct (hasClient E); [|exact Hres].
    destruct (assessReply E (calls w) message) as [| |a]; try exact Hres.
    destruct (falsy (level a)); exact Hres.
  - intros Hun. unfold detectCrisis.
    destruct (detectCrisisWith_result (assessWithLLM E message history)
                phoneNumber message w) as [w' Hrun].
    exists w'. rewrite Hrun.
    rewrite (assessWithLLM_unusable E phoneNumber message history w Hun).
    unfold merged. rewrite withResponse_keywordLayer. reflexivity.
Qed.

(** The external assessment raises the level of a message without a
    keyword to critical, does not lower the floor of a message with
    one, and an outage leaves the floor. *)
Lemma detectCrisis_level_is_max_witness :
  (exists r w',
     detectCrisis (Demo.env Demo.critical) Demo.phone (lit "I killed it at work today") []
       (Demo.world 4 12) = (Ok r, w') /\
     riskLevel r = lit "critical") /\
  (exists r w',
     detectCrisis (Demo.env Demo.low) Demo.phone (lit "I want to kill myself") []
       (Demo.world 4 12) = (Ok r, w') /\
     riskLevel r = lit "high") /\
  (exists w',
     detectCrisis (Demo.env AssessApiError) Demo.phone (lit "I want to kill myself") []
       (Demo.world 4 12) =
     (Ok (mkResult true (lit "high") true (Some highText) false HNull), w')).
Proof.
  split; [|split].
  - destruct (proj1 (detectCrisis_level_is_max (Demo.env Demo.critical) Demo.phone
                       (lit "I killed it at work today") [] (Demo.world 4 12)))
      as (r & w' & Hrun & Hlevel & _).
    exists r, w'. split; [exact Hrun | exact Hlevel].
  - destruct (proj1 (detectCrisis_level_is_max (Demo.env Demo.low) Demo.phone
                       (lit "I want to kill myself") [] (Demo.world 4 12)))
      as (r & w' & Hrun & Hlevel & _).
    exists r, w'. split; [exact Hrun | exact Hlevel].
  - apply (proj2 (proj2 (detectCrisis_level_is_max (Demo.env AssessApiError) Demo.phone
                           (lit "I want to kill myself") [] (Demo.world 4 12)))).
    right; left; reflexivity.
Defined.




(** *** Outbound splitting *)

Import MessageHandler.

Lemma dropSpaces_length (s : str) : (length (dropSpaces s) <= length s)%nat.
Proof.
  induction s as [|c s IH]; simpl; [lia|].
  destruct (isSpace c); simpl; lia.
Qed.

Lemma trim_length (s : str) : (length (trim s) <= length s)%nat.
Proof.
  unfold trim, trimEnd, trimStart. rewrite length_rev.
  etransitivity; [apply dropSpaces_length|].
  rewrite length_rev. apply dropSpaces_length.
Qed.

(** The loop ends: every round takes at least one character off
    [remaining], so it never runs out of the rounds [splitMessage]
    allows it. *)
Lemma splitLoop_total fuel remaining maxLen messages :
  (length remaining < fuel)%nat ->
  is_Some (splitLoop fuel remaining maxLen messages).
Proof.
  revert remaining messages.
  induction fuel as [|fuel IH]; intros remaining messages Hlt; [lia|].
  simpl. destruct (0 <? length remaining)%nat eqn:Hpos; [|eexists; reflexivity].
  destruct (length remaining <=? maxLen)%nat; [eexists; reflexivity|].
  apply IH. apply Nat.ltb_lt in Hpos.
  match goal with |- (length (trim ?x) < _)%nat => pose proof (trim_length x) as H1 end.
  unfold substringFrom in *. rewrite length_drop in H1. lia.
Qed.

Lemma splitMessage_total text maxLen :
  (maxLen < length text)%nat ->
  exists messages,
    splitLoop (S (length text)) text maxLen [] = Some messages /\
    splitMessage text maxLen = messages.
Proof.
  intros Hlong.
  destruct (splitLoop_total (S (length text)) text maxLen []) as [messages Hsome]; [lia|].
  exists messages. split; [exact Hsome|].
  unfold splitMessage. rewrite Hsome.
  destruct (length text <=? maxLen)%nat eqn:Hle; [apply Nat.leb_le in Hle; lia|].
  reflexivity.
Qed.

(** C8 fails on the code.  A text of 1601 characters with no place to
    break is cut at index [maxLength], and [substring(0, maxLength + 1)]
    takes one character more than the limit: the text comes back as one
    segment of 1601 characters.  The same happens at a sentence end that
    sits exactly at the limit. *)
Theorem splitMessage_segment_over_limit :
  splitMessage (repeat "a"%char 1601) maxLength = [repeat "a"%char 1601] /\
  length (repeat "a"%char 1601) = 1601%nat /\
  maxLength = 1600%nat /\
  splitMessage (repeat "a"%char 1600 ++ lit ". b") maxLength =
    [repeat "a"%char 1600 ++ lit "."; lit "b"].
Proof. repeat split; vm_compute; reflexivity. Qed.

(** *** Relations kept by sequential code *)

Section Preservation.

Context (R : relation World) `{!PreOrder R}.

Lemma preserves_ret {A} (a : A) : preserves R (ret a).
Proof. intros w. reflexivity. Qed.

Lemma preserves_throw {A} (e : Exn) : preserves R (@throw A e).
Proof. intros w. reflexivity. Qed.

Lemma preserves_gets {A} (f : World -> A) : preserves R (gets f).
Proof. intros w. reflexivity. Qed.

Lemma preserves_modify (f : World -> World) :
  (forall w, R w (f w)) -> preserves R (modify f).
Proof. intros H w. apply H. Qed.

Lemma preserves_bind {A B} (m : M A) (k : A -> M B) :
  preserves R m -> (forall a, preserves R (k a)) -> preserves R (bind m k).
Proof.
  intros Hm Hk w. unfold bind. specialize (Hm w).
  destruct (m w) as [[a|e] w1]; cbn [snd] in *.
  - etransitivity; [exact Hm | apply Hk].
  - exact Hm.
Qed.

Lemma preserves_tryCatch {A} (m : M A) (h : Exn -> M A) :
  preserves R m -> (forall e, preserves R (h e)) -> preserves R (tryCatch m h).
Proof.
  intros Hm Hh w. unfold tryCatch. specialize (Hm w).
  destruct (m w) as [[a|e] w1]; cbn [snd] in *.
  - exact Hm.
  - etransitivity; [exact Hm | apply Hh].
Qed.

Lemma preserves_forEach {A} (xs : list A) (body : A -> M unit) :
  (forall x, preserves R (body x)) -> preserves R (forEach xs body).
Proof.
  intros Hb. induction xs as [|x xs IH]; simpl.
  - apply preserves_ret.
  - apply preserves_bind; [apply Hb | intros _; exact IH].
Qed.

Lemma preserves_withRetry {A} (operation : M A) (left attempt : nat) (e : Exn) :
  preserves R operation ->
  (forall n, preserves R (sleep (1000 * 2 ^ Z.of_nat n))) ->
  preserves R (withRetry operation left attempt e).
Proof.
  intros Hop Hsleep. revert attempt e.
  induction left as [|left IH]; intros attempt e; simpl.
  - apply preserves_throw.
  - apply preserves_tryCatch; [exact Hop|]. intros e'.
    apply preserves_bind; [|intros _; apply IH].
    destruct (0 <? left)%nat; [apply Hsleep | apply preserves_ret].
Qed.

End Preservation.

Ltac head_of t :=
  lazymatch t with
  | ?f _ => head_of f
  | _ => t
  end.

(** One step through the structure of a computation; [leaf] closes the
    goals that are left about a single update of the world. *)
Ltac preserves_step leaf :=
  lazymatch goal with
  | |- preserves ?R (ret _) => apply (preserves_ret R)
  | |- preserves ?R (throw _) => apply (preserves_throw R)
  | |- preserves ?R (gets _) => apply (preserves_gets R)
  | |- preserves ?R (bind _ _) => apply (preserves_bind R); [|intros ?]
  | |- preserves ?R (tryCatch _ _) => apply (preserves_tryCatch R); [|intros ?]
  | |- preserves ?R (forEach _ _) => apply (preserves_forEach R); intros ?
  | |- preserves ?R (withRetry _ _ _ _) => apply (preserves_withRetry R); [|intros ?]
  | |- preserves ?R (modify _) => apply (preserves_modify R); intros ?; leaf
  | |- preserves _ (if ?c then _ else _) => destruct c
  | |- preserves _ (match ?x with _ => _ end) =>
      first [ progress cbv beta iota | destruct x ]
  | |- preserves _ ?m => let h := head_of m in unfold h
  end.

(** [known] settles the computations that need a lemma of their own. *)
Ltac preserves_with known leaf :=
  repeat first [ known | preserves_step leaf ].

#[local] Instance clockAdvances_preorder : PreOrder clockAdvances.
Proof. split; unfold clockAdvances; [intros w; lia | intros a b c; lia]. Qed.

Ltac clock_leaf :=
  unfold clockAdvances; cbn -[Z.pow Z.mul Z.add];
  lazymatch goal with
  | |- context [2 ^ ?k] => pose proof (Z.pow_nonneg 2 k ltac:(lia))
  | _ => idtac
  end; lia.

Lemma sendMessage_clock E phoneNumber text :
  preserves clockAdvances (sendMessage E phoneNumber text).
Proof.
  preserves_with fail clock_leaf.
Qed.

(** *** Computations that do not throw *)

Lemma safe_ret {A} (a : A) : safe (ret a).
Proof. intros w. eexists; reflexivity. Qed.




Lemma safe_tryCatch {A} (m : M A) (h : Exn -> M A) :
  (forall e, safe (h e)) -> safe (tryCatch m h).
Proof.
  intros Hh w. unfold tryCatch. destruct (m w) as [[a|e] w1].
  - eexists; reflexivity.
  - apply Hh.
Qed.



(** *** The scheduler *)

Import ProactiveMessaging.










(** *** Onboarding *)

Import Onboarding.

#[local] Instance emitsOnly_preorder P : PreOrder (emitsOnly P).
Proof.
  split.
  - intros w. exists []. split; [symmetry; apply app_nil_r | constructor].
  - intros a b c [e1 [H1 F1]] [e2 [H2 F2]]. exists (e1 ++ e2). split.
    + rewrite H2, H1, app_assoc. reflexivity.
    + apply Forall_app; auto.
Qed.

Lemma emitsOnly_eventsOf {A} P (m : M A) w :
  emitsOnly P w (snd (m w)) -> Forall P (eventsOf m w).
Proof.
  intros [evs [Ht HF]]. unfold eventsOf. rewrite Ht.
  rewrite drop_app_length. exact HF.
Qed.

Ltac emits_leaf :=
  unfold emitsOnly; cbn;
  first [ exists []; split; [symmetry; apply app_nil_r | constructor]
        | eexists [_]; split; [reflexivity | repeat constructor; cbn; auto; fail] ].

#[local] Instance stageStep_preorder phoneNumber next : PreOrder (stageStep phoneNumber next).
Proof.
  split.
  - intros w. split; auto.
  - intros a b c [H1 O1] [H2 O2]. split.
    + destruct H2 as [H2|H2]; [|auto]. rewrite H2. exact H1.
    + intros p Hp. rewrite O2, O1; auto.
Qed.

#[local] Instance stagesGrow_preorder : PreOrder stagesGrow.
Proof.
  split.
  - intros w p. lia.
  - intros a b c H1 H2 p. specialize (H1 p). specialize (H2 p). lia.
Qed.

Lemma updateUser_run phoneNumber updates w :
  Redis.updateUser phoneNumber updates w =
  (Ok (Redis.spread (users w !! phoneNumber) updates),
   set_users (fun m => <[phoneNumber := Redis.spread (users w !! phoneNumber) updates]> m) w).
Proof. reflexivity. Qed.

Lemma stageOf_spread existing updates :
  stageOf (Some (Redis.spread existing updates)) =
  match p_stage updates with
  | Some n => n
  | None => stageOf existing
  end.
Proof.
  unfold stageOf, Redis.spread. destruct (p_stage updates); [reflexivity|].
  destruct existing; reflexivity.
Qed.

Lemma stageAt_updateUser phoneNumber updates w p :
  stageAt p (snd (Redis.updateUser phoneNumber updates w)) =
  if decide (p = phoneNumber)
  then match p_stage updates with Some n => n | None => stageAt p w end
  else stageAt p w.
Proof.
  rewrite updateUser_run. unfold stageAt. cbn [snd set_users users].
  destruct (decide (p = phoneNumber)) as [->|Hne].
  - rewrite lookup_insert_eq. apply stageOf_spread.
  - rewrite lookup_insert_ne by congruence. reflexivity.
Qed.

Lemma users_updateUser_other phoneNumber updates w p :
  p <> phoneNumber ->
  users (snd (Redis.updateUser phoneNumber updates w)) !! p = users w !! p.
Proof.
  intros Hne. rewrite updateUser_run. cbn [snd set_users users].
  apply lookup_insert_ne. congruence.
Qed.

Lemma updateUser_stageStep phoneNumber next updates :
  (p_stage updates = None \/ p_stage updates = Some next) ->
  preserves (stageStep phoneNumber next) (Redis.updateUser phoneNumber updates).
Proof.
  intros Hp w. split.
  - rewrite stageAt_updateUser. destruct (decide _) as [_|]; [|congruence].
    destruct Hp as [-> | ->]; auto.
  - intros p Hne. apply users_updateUser_other. exact Hne.
Qed.

Ltac stageStep_leaf :=
  unfold stageStep, stageAt; cbn; split; auto.

Ltac stageStep_known :=
  solve [apply updateUser_stageStep; cbn; auto].

(** Every advancement of one call stores the successor of the stage of
    the profile the call was given. *)
Lemma onboardingSteps_events E phoneNumber message user :
  preserves (emitsOnly (advancesTo (S (default 0%nat (onboardingStage user)))))
            (onboardingSteps E phoneNumber message user).
Proof.
  unfold onboardingSteps. cbv zeta.
  destruct (default 0%nat (onboardingStage user)) as [|[|[|[|n]]]];
    unfold Config.ASK_CHECKIN; cbn [Nat.eqb andb];
    preserves_with fail emits_leaf.
Qed.

Lemma onboardingSteps_stageStep E phoneNumber message user :
  preserves (stageStep phoneNumber (S (default 0%nat (onboardingStage user))))
            (onboardingSteps E phoneNumber message user).
Proof.
  unfold onboardingSteps. cbv zeta.
  destruct (default 0%nat (onboardingStage user)) as [|[|[|[|n]]]];
    unfold Config.ASK_CHECKIN; cbn [Nat.eqb andb];
    preserves_with stageStep_known stageStep_leaf.
Qed.

Lemma processOnboarding_events E phoneNumber message user :
  preserves (emitsOnly (advancesTo (S (stageOf user))))
            (processOnboarding E phoneNumber message user).
Proof.
  unfold processOnboarding.
  apply (preserves_bind _); [preserves_with fail emits_leaf|]. intros _.
  destruct user as [u|]; [apply onboardingSteps_events | apply (preserves_throw _)].
Qed.

Lemma processOnboarding_stageStep E phoneNumber message user :
  preserves (stageStep phoneNumber (S (stageOf user)))
            (processOnboarding E phoneNumber message user).
Proof.
  unfold processOnboarding.
  apply (preserves_bind _); [preserves_with fail stageStep_leaf|]. intros _.
  destruct user as [u|]; [apply onboardingSteps_stageStep | apply (preserves_throw _)].
Qed.

(** With the profile the store holds, the stage stays or moves to its
    successor. *)
Lemma processOnboarding_stored E phoneNumber message w :
  let w' := snd (processOnboarding E phoneNumber message (users w !! phoneNumber) w) in
  (stageAt phoneNumber w' = stageAt phoneNumber w \/
   stageAt phoneNumber w' = S (stageAt phoneNumber w)) /\
  forall p, p <> phoneNumber -> users w' !! p = users w !! p.
Proof.
  exact (processOnboarding_stageStep E phoneNumber message (users w !! phoneNumber) w).
Qed.

Lemma advancesTo_above stage e :
  advancesTo (S stage) e ->
  match e with EvAdvanceStage _ m => (stage <= m)%nat | _ => True end.
Proof. destruct e; cbn; auto. intros ->. lia. Qed.

(** *** The stage across inbound events *)

Ltac stagesGrow_leaf := unfold stagesGrow, stageAt; cbn; intros; lia.

Lemma getOrCreateUser_stagesGrow phoneNumber :
  preserves stagesGrow (Redis.getOrCreateUser phoneNumber).
Proof.
  intros w p. unfold Redis.getOrCreateUser, Redis.getUser, bind, gets.
  destruct (users w !! phoneNumber) as [u|] eqn:Hu; cbn; [lia|].
  unfold stageAt. cbn. destruct (decide (p = phoneNumber)) as [->|Hne].
  - rewrite lookup_insert_eq, Hu. cbn. lia.
  - rewrite lookup_insert_ne by congruence. lia.
Qed.

Lemma updateUser_stagesGrow phoneNumber updates :
  p_stage updates = None ->
  preserves stagesGrow (Redis.updateUser phoneNumber updates).
Proof.
  intros Hp w p. rewrite stageAt_updateUser, Hp.
  destruct (decide _); lia.
Qed.

Lemma processOnboarding_stagesGrow E phoneNumber message {B} (k : OnboardingResult -> M B) :
  (forall r, preserves stagesGrow (k r)) ->
  preserves stagesGrow
    (bind (Redis.getUser phoneNumber)
          (fun refreshed => bind (processOnboarding E phoneNumber message refreshed) k)).
Proof.
  intros Hk w. unfold Redis.getUser, gets. unfold bind at 1.
  pose proof (processOnboarding_stored E phoneNumber message w) as [Hst Hother].
  cbv zeta in Hst, Hother. unfold bind.
  destruct (processOnboarding E phoneNumber message (users w !! phoneNumber) w)
    as [[r|e] w1]; cbn [snd] in *.
  - transitivity w1; [|apply Hk].
    intros p. destruct (decide (p = phoneNumber)) as [->|Hne].
    + destruct Hst as [-> | ->]; lia.
    + unfold stageAt. rewrite Hother by exact Hne. lia.
  - intros p. destruct (decide (p = phoneNumber)) as [->|Hne].
    + destruct Hst as [-> | ->]; lia.
    + unfold stageAt. rewrite Hother by exact Hne. lia.
Qed.

Ltac stagesGrow_known :=
  first [ solve [apply getOrCreateUser_stagesGrow]
        | solve [apply updateUser_stagesGrow; reflexivity]
        | apply processOnboarding_stagesGrow; intros ? ].

Lemma handleCommands_stagesGrow E phoneNumber message :
  isErase message = false ->
  preserves stagesGrow (handleCommands E phoneNumber message).
Proof.
  intros Hkeep. unfold handleCommands. cbv zeta.
  unfold isErase in Hkeep. cbv zeta in Hkeep. rewrite Hkeep.
  preserves_with stagesGrow_known stagesGrow_leaf.
Qed.

Lemma handleMessage_stagesGrow E webhookData :
  keepsData webhookData ->
  preserves stagesGrow (handleMessage E webhookData).
Proof.
  unfold keepsData, handleMessage. intros Hkeep.
  destruct (normalizePhoneNumber _) as [phone|]; [|apply (preserves_ret _)].
  destruct (wcontent webhookData) as [message|]; [|apply (preserves_ret _)].
  destruct (falsy phone || falsy message); [apply (preserves_ret _)|].
  apply (preserves_tryCatch _);
    [|intros e; preserves_with stagesGrow_known stagesGrow_leaf].
  unfold handleBody.
  apply (preserves_bind _); [apply getOrCreateUser_stagesGrow|]. intros user.
  apply (preserves_bind _); [preserves_with stagesGrow_known stagesGrow_leaf|].
  intros count.
  apply (preserves_bind _); [apply handleCommands_stagesGrow; exact Hkeep|].
  intros commandResult.
  preserves_with stagesGrow_known stagesGrow_leaf.
Qed.

(** C6 (as amended).  One call to [processOnboarding] moves the stage
    by at most one step: every advancement it performs stores the
    successor of the stage it started from, so the stage stored at
    return is the entry stage or its successor. *)
Theorem onboarding_moves_one_step E phoneNumber message user w :
  users w !! phoneNumber = user ->
  Forall (advancesTo (S (stageOf user)))
         (eventsOf (processOnboarding E phoneNumber message user) w) /\
  (stageAt phoneNumber (snd (processOnboarding E phoneNumber message user w)) = stageOf user \/
   stageAt phoneNumber (snd (processOnboarding E phoneNumber message user w)) =
     S (stageOf user)).
Proof.
  intros <-. split.
  - apply emitsOnly_eventsOf. apply processOnboarding_events.
  - apply (processOnboarding_stored E phoneNumber message w).
Qed.

Lemma onboarding_moves_one_step_witness :
  users (Demo.world 3 10) !! Demo.phone = Some (Demo.member 3 10) /\
  stageAt Demo.phone
    (snd (processOnboarding (Demo.env Demo.low) Demo.phone (lit "yes please")
            (Some (Demo.member 3 10)) (Demo.world 3 10))) = Config.COMPLETE.
Proof.
  assert (Hu : users (Demo.world 3 10) !! Demo.phone = Some (Demo.member 3 10))
    by (vm_compute; reflexivity).
  split; [exact Hu|].
  destruct (proj2 (onboarding_moves_one_step (Demo.env Demo.low) Demo.phone
                     (lit "yes please") _ _ Hu)) as [H|H].
  - vm_compute in H. discriminate H.
  - rewrite H. reflexivity.
Defined.

(** C6, as stated, fails: in ASK_CHECKIN, with ten messages counted and
    a message that reads as a check-in answer, the threshold block and
    the preference block both run and [advanceStage] is called twice. *)
Lemma onboarding_two_advancements_in_one_call :
  eventsOf (processOnboarding (Demo.env Demo.low) Demo.phone (lit "yes please")
              (Some (Demo.member 3 10))) (Demo.world 3 10) =
    [ EvProcessOnboarding Demo.phone (lit "yes please");
      EvAdvanceStage Demo.phone Config.COMPLETE;
      EvAdvanceStage Demo.phone Config.COMPLETE ] /\
  ~ (advancements
       (eventsOf (processOnboarding (Demo.env Demo.low) Demo.phone (lit "yes please")
                    (Some (Demo.member 3 10))) (Demo.world 3 10)) <= 1)%nat.
Proof.
  split; [vm_compute; reflexivity|].
  vm_compute. lia.
Qed.

(** *** Journal entries *)

Import Journaling.






#[local] Instance journalFrame_preorder phoneNumber content :
  PreOrder (journalFrame phoneNumber content).
Proof.
  split.
  - intros w. repeat split; reflexivity.
  - intros a b c (C1 & S1 & E1) (C2 & S2 & E2). repeat split.
    + congruence.
    + intros p. rewrite S2. apply S1.
    + etransitivity; eassumption.
Qed.

#[local] Instance journalKept_preorder : PreOrder journalKept.
Proof. split; unfold journalKept; [intros w | intros a b c]; congruence. Qed.


Ltac journalKept_leaf := unfold journalKept; cbn; reflexivity.





(** The entry is appended to the bucket of the day, whatever happens to
    the statistics afterwards. *)
Lemma saveJournalEntry_stores E phoneNumber message prompted w :
  exists day,
    journal (snd (saveJournalEntry E phoneNumber message prompted w))
      !! (phoneNumber, Redis.isoDate (clock w)) = Some day /\
    last (jdEntries day) =
      Some (mkJournalItem (extractJournalContent message) prompted (clock w)).
Proof.
  unfold saveJournalEntry. cbv zeta.
  lazymatch goal with
  | |- context [tryCatch (bind ?a (fun _ => bind ?c ?k)) ?h] => set (K := k)
  end.
  lazymatch goal with
  | |- context [tryCatch ?m ?h] => set (H := h)
  end.
  assert (HK : forall a, preserves journalKept (K a)).
  { intros a. subst K. cbv beta.
    preserves_with fail journalKept_leaf. }
  cbv beta iota delta [tryCatch bind emit modify Redis.addJournalEntry dateNow gets].
  cbn [clock set_trace].
  match goal with
  | |- context [K tt ?x] => set (w2 := x); specialize (HK tt w2)
  end.
  assert (Hin : exists day,
             journal w2 !! (phoneNumber, Redis.isoDate (clock w)) = Some day /\
             last (jdEntries day) =
               Some (mkJournalItem (extractJournalContent message) prompted (clock w))).
  { subst w2. cbn [journal set_journal set_trace]. rewrite lookup_insert_eq.
    eexists. split; [reflexivity|]. cbn [jdEntries]. apply last_snoc. }
  unfold journalKept in HK.
  destruct (K tt w2) as [[a|e] w3]; cbn [snd] in *.
  - rewrite HK. exact Hin.
  - subst H. cbn. rewrite HK. exact Hin.
Qed.



(** *** The critical short circuit *)

#[local] Instance sendsOnly_preorder Q : PreOrder (sendsOnly Q).
Proof.
  split.
  - intros w. exists []. split; [symmetry; apply app_nil_r | constructor].
  - intros a b c [e1 [H1 F1]] [e2 [H2 F2]]. exists (e1 ++ e2). split.
    + rewrite H2, H1, app_assoc. reflexivity.
    + apply Forall_app; auto.
Qed.

Lemma sendsOnly_sentBy {A} Q (m : M A) w :
  sendsOnly Q w (snd (m w)) -> Forall Q (sentBy m w).
Proof.
  intros [ms [Ho HF]]. unfold sentBy. rewrite Ho.
  rewrite drop_app_length. exact HF.
Qed.

#[local] Instance silent_preorder : PreOrder silent.
Proof.
  split.
  - intros w. split; reflexivity.
  - intros a b c [T1 O1] [T2 O2]. split; congruence.
Qed.

#[local] Instance detected_preorder lvl : PreOrder (detected lvl).
Proof.
  split.
  - intros w. split; reflexivity.
  - intros a b c [E1 O1] [E2 O2]. split; [etransitivity; eassumption | congruence].
Qed.

#[local] Instance shortCircuit_preorder : PreOrder shortCircuit.
Proof.
  split.
  - intros w. split; reflexivity.
  - intros a b c [E1 O1] [E2 O2]. split; etransitivity; eassumption.
Qed.

Ltac silent_leaf := unfold silent; cbn; auto.
Ltac detected_leaf := unfold detected; split; [emits_leaf | cbn; reflexivity].
Ltac uncritical_leaf := unfold uncritical; emits_leaf.

Lemma silent_then w w1 w2 :
  silent w w1 ->
  (uncritical w1 w2 \/ shortCircuit w1 w2) -> handledSafely w w2.
Proof.
  intros [Ht Ho] [[evs [He HF]] | [[evs [He HF]] [ms [Hm HQ]]]].
  - left. exists evs. rewrite <- Ht. auto.
  - right. split; [exists evs | exists ms]; rewrite <- ?Ht, <- ?Ho; auto.
Qed.

(** A silent step in front of a continuation that is handled safely. *)
Lemma bind_silent {A B} (m : M A) (k : A -> M B) :
  preserves silent m ->
  (forall a w1, handledSafely w1 (snd (k a w1))) ->
  forall w, handledSafely w (snd (bind m k w)).
Proof.
  intros Hm Hk w. unfold bind. specialize (Hm w).
  destruct (m w) as [[a|e] w1]; cbn [snd] in *.
  - apply (silent_then w w1); [exact Hm | apply Hk].
  - apply (silent_then w w1); [exact Hm|]. left. reflexivity.
Qed.

Lemma assessedAs_critical e : assessedAs (lit "critical") e -> noReply e.
Proof. destruct e; cbn; auto. Qed.

Lemma assessedAs_other lvl e :
  lvl <> lit "critical" -> assessedAs lvl e -> notCritical e.
Proof. intros Hl. destruct e; cbn; auto. intros ->. exact Hl. Qed.

Lemma conclude_detected phoneNumber message result2 :
  preserves (detected (riskLevel result2)) (conclude phoneNumber message result2).
Proof. preserves_with fail detected_leaf. Qed.

Lemma assessWithLLM_detected E message history lvl :
  preserves (detected lvl) (assessWithLLM E message history).
Proof. preserves_with fail detected_leaf. Qed.

Lemma critical_has_response r2 :
  riskLevel r2 = lit "critical" ->
  isCrisis r2 = true ->
  crisisResponse (withResponse r2) = Some criticalText.
Proof.
  intros Hl Hc. unfold withResponse. rewrite Hc. cbn [crisisResponse]. rewrite Hl.
  reflexivity.
Qed.

Lemma merged_critical_isCrisis message out :
  riskLevel (merged message out) = lit "critical" ->
  isCrisis (merged message out) = true.
Proof.
  unfold merged. destruct out as [[a|]|e].
  - cbn [mergeAssessment riskLevel isCrisis]. intros ->. reflexivity.
  - rewrite riskLevel_keywordLayer. unfold deterministicFloor.
    destruct (containsCrisisKeyword message); discriminate.
  - rewrite riskLevel_keywordLayer. unfold deterministicFloor.
    destruct (containsCrisisKeyword message); discriminate.
Qed.

(** What [detectCrisis] leaves behind: it returns, it traces its own
    calls and the level it returns, it delivers nothing, and a critical
    result is a crisis that carries the critical response. *)
Lemma detectCrisis_post E phoneNumber message history w :
  exists r w',
    detectCrisis E phoneNumber message history w = (Ok r, w') /\
    detected (riskLevel r) w w' /\
    (riskLevel r = lit "critical" ->
     isCrisis r = true /\ crisisResponse r = Some criticalText).
Proof.
  unfold detectCrisis. rewrite detectCrisisWith_run.
  set (w0 := set_trace _ w).
  set (r2 := merged message (assessed (assessWithLLM E message history) phoneNumber message w)).
  set (w1 := snd (assessWithLLM E message history w0)).
  pose proof (conclude_result phoneNumber message r2 w1) as Hres.
  pose proof (conclude_detected phoneNumber message r2 w1) as Hdet.
  destruct (conclude phoneNumber message r2 w1) as [res w'].
  cbn [fst snd] in *. subst res.
  exists (withResponse r2), w'. split; [reflexivity|].
  rewrite riskLevel_withResponse. split.
  - transitivity w0; [subst w0; detected_leaf|].
    transitivity w1; [apply assessWithLLM_detected | exact Hdet].
  - intros Hl.
    assert (Hc : isCrisis r2 = true) by (apply merged_critical_isCrisis; exact Hl).
    split; [|apply critical_has_response; assumption].
    unfold withResponse. rewrite Hc. reflexivity.
Qed.

Lemma emitsOnly_impl (P Q : Event -> Prop) w w' :
  (forall e, P e -> Q e) -> emitsOnly P w w' -> emitsOnly Q w w'.
Proof.
  intros HPQ [evs [Ht HF]]. exists evs. split; [exact Ht|].
  eapply Forall_impl; [exact HF | exact HPQ].
Qed.

Lemma detected_shortCircuit w w' :
  detected (lit "critical") w w' -> shortCircuit w w'.
Proof.
  intros [He Ho]. split.
  - eapply emitsOnly_impl; [apply assessedAs_critical | exact He].
  - exists []. rewrite Ho, app_nil_r. split; [reflexivity | constructor].
Qed.

Lemma detected_uncritical lvl w w' :
  lvl <> lit "critical" -> detected lvl w w' -> uncritical w w'.
Proof.
  intros Hl [He _].
  eapply emitsOnly_impl; [intros e; apply assessedAs_other; exact Hl | exact He].
Qed.

Ltac sends_leaf :=
  unfold sendsOnly;
  cbn [outbox set_outbox set_users set_conversations set_journal set_schedules
       set_crisis set_clock set_calls set_background set_trace];
  first [ exists []; split; [symmetry; apply app_nil_r | constructor]
        | eexists [_]; split; [reflexivity | constructor; [assumption | constructor]] ].

Ltac shortCircuit_leaf := unfold shortCircuit; split; [emits_leaf | sends_leaf].

(** A reply that fits in one segment goes out as it is. *)
Lemma sendResponse_shortCircuit E phoneNumber text :
  crisisOrApology (phoneNumber, text) ->
  (length text <= maxLength)%nat ->
  preserves shortCircuit (sendResponse E phoneNumber (Some text)).
Proof.
  intros Hok Hlen. unfold sendResponse.
  destruct (falsy text); [apply (preserves_ret _)|].
  unfold splitMessage. apply Nat.leb_le in Hlen. rewrite Hlen.
  cbn [forEach length Nat.ltb Nat.leb].
  preserves_with fail shortCircuit_leaf.
Qed.

Lemma sendResponse_uncritical E phoneNumber text :
  preserves uncritical (sendResponse E phoneNumber text).
Proof. preserves_with fail uncritical_leaf. Qed.

Lemma criticalText_fits : (length criticalText <= maxLength)%nat.
Proof. vm_compute. lia. Qed.

Lemma momentText_fits : (length momentText <= maxLength)%nat.
Proof. vm_compute. lia. Qed.

Lemma handleCommands_silent E phoneNumber message :
  preserves silent (handleCommands E phoneNumber message).
Proof. preserves_with fail silent_leaf. Qed.

(** The handler's [try] block ends in one of the two ways. *)
Lemma handleBody_handledSafely E phoneNumber message w :
  handledSafely w (snd (handleBody E phoneNumber message w)).
Proof.
  revert w. unfold handleBody.
  apply bind_silent; [preserves_with fail silent_leaf|]. intros user.
  apply bind_silent; [preserves_with fail silent_leaf|]. intros count.
  apply bind_silent; [apply handleCommands_silent|]. intros commandResult.
  destruct commandResult as [commandResponse|].
  { intros w. left. apply sendResponse_uncritical. }
  destruct (Journaling.isJournalEntry message).
  { intros w. left. revert w.
    change (preserves uncritical
              (result <- Journaling.saveJournalEntry E phoneNumber message false ;;
               sendResponse E phoneNumber (Some result.2))).
    preserves_with fail uncritical_leaf. }
  destruct (count =? 0)%nat.
  { intros w. left. revert w.
    change (preserves uncritical
              (sendResponse E phoneNumber (Some getWelcomeMessage) ;;;
               generateAndSendResponse E phoneNumber message ;;; ret tt)).
    preserves_with fail uncritical_leaf. }
  apply bind_silent; [preserves_with fail silent_leaf|]. intros history w.
  destruct (detectCrisis_post E phoneNumber message history w)
    as (r & w1 & Hrun & Hdet & Hcrit).
  unfold bind at 1. rewrite Hrun.
  destruct (isCrisis r && str_eqb (riskLevel r) (lit "critical")) eqn:Hcond.
  - apply andb_true_iff in Hcond as [_ Hl]. apply str_eqb_eq in Hl.
    destruct (Hcrit Hl) as [_ Hresp]. rewrite Hresp. rewrite Hl in Hdet.
    right. transitivity w1; [apply detected_shortCircuit; exact Hdet|].
    apply sendResponse_shortCircuit; [left; reflexivity | apply criticalText_fits].
  - assert (Hl : riskLevel r <> lit "critical").
    { intros Hl. destruct (Hcrit Hl) as [Hc _]. rewrite Hc, Hl in Hcond.
      discriminate Hcond. }
    left. transitivity w1; [eapply detected_uncritical; eassumption|].
    revert w1 Hrun Hdet.
    match goal with |- forall w1, _ -> _ -> uncritical w1 (snd (?m w1)) =>
      intros w1 _ _; revert w1; change (preserves uncritical m) end.
    preserves_with fail uncritical_leaf.
Qed.

Lemma handleMessage_handledSafely E webhookData w :
  handledSafely w (snd (handleMessage E webhookData w)).
Proof.
  unfold handleMessage.
  destruct (normalizePhoneNumber _) as [phone|]; [|left; reflexivity].
  destruct (wcontent webhookData) as [message|]; [|left; reflexivity].
  destruct (falsy phone || falsy message); [left; reflexivity|].
  unfold tryCatch.
  pose proof (handleBody_handledSafely E phone message w) as Hbody.
  destruct (handleBody E phone message w) as [[a|e] w1]; cbn [snd] in *.
  - exact Hbody.
  - destruct Hbody as [Hu | Hs].
    + left. transitivity w1; [exact Hu | apply sendResponse_uncritical].
    + right. transitivity w1; [exact Hs|].
      apply sendResponse_shortCircuit; [right; reflexivity | apply momentText_fits].
Qed.

(** C3.  When handling an inbound text event the risk assessment
    returns level critical, the handler makes no call that generates a
    reply and no onboarding call, and nothing goes out but the crisis
    response for that level (and the handler's apology, should sending
    it throw). *)
Theorem critical_short_circuits E webhookData w :
  Exists isCritical (eventsOf (handleMessage E webhookData) w) ->
  Forall noReply (eventsOf (handleMessage E webhookData) w) /\
  Forall crisisOrApology (sentBy (handleMessage E webhookData) w).
Proof.
  intros Hex.
  destruct (handleMessage_handledSafely E webhookData w) as [Hu | [He Hs]].
  - exfalso. apply emitsOnly_eventsOf in Hu.
    apply Exists_exists in Hex as [e [Hin [p ->]]].
    rewrite Forall_forall in Hu. specialize (Hu _ Hin). cbn in Hu. congruence.
  - split; [apply emitsOnly_eventsOf; exact He | apply sendsOnly_sentBy; exact Hs].
Qed.

Lemma critical_short_circuits_witness :
  Exists isCritical
    (eventsOf (handleMessage (Demo.env Demo.critical)
                 (Demo.text "I have the pills here and tonight I will take them"))
              (Demo.world 4 12)) /\
  sentBy (handleMessage (Demo.env Demo.critical)
            (Demo.text "I have the pills here and tonight I will take them"))
         (Demo.world 4 12) = [(Demo.phone, criticalText)] /\
  Forall noReply
    (eventsOf (handleMessage (Demo.env Demo.critical)
                 (Demo.text "I have the pills here and tonight I will take them"))
              (Demo.world 4 12)).
Proof.
  assert (Hex : Exists isCritical
            (eventsOf (handleMessage (Demo.env Demo.critical)
                         (Demo.text "I have the pills here and tonight I will take them"))
                      (Demo.world 4 12))).
  { apply Exists_exists. exists (EvRisk Demo.phone (lit "critical")). split.
    - vm_compute. repeat constructor.
    - exists Demo.phone. reflexivity. }
  split; [exact Hex|]. split; [vm_compute; reflexivity|].
  exact (proj1 (critical_short_circuits _ _ _ Hex)).
Defined.

(** *** The duplicate check of the webhook *)

Import Webhook.

Lemma run_cons a schedule s : run (a :: schedule) s = run schedule (act a s).
Proof. reflexivity. Qed.

Lemma stepRequest_check i s id :
  requests s !! i = Some (mkRequest id AtCheck) ->
  stepRequest i s =
  mkSys (store s) (now s)
        (<[i := mkRequest id (if checkIdempotency (default [] id) (now s) (store s)
                              then Duplicate else AtSet)]> (requests s))
        (handled s).
Proof. intros H. unfold stepRequest. rewrite H. reflexivity. Qed.

Lemma stepRequest_set i s id :
  requests s !! i = Some (mkRequest id AtSet) ->
  stepRequest i s =
  mkSys (setIdempotency (default [] id) (now s) (store s)) (now s)
        (<[i := mkRequest id AtProcess]> (requests s)) (handled s).
Proof. intros H. unfold stepRequest. rewrite H. reflexivity. Qed.

Lemma stepRequest_process i s id :
  requests s !! i = Some (mkRequest id AtProcess) ->
  stepRequest i s =
  mkSys (store s) (now s) (<[i := mkRequest id Processed]> (requests s))
        (handled s ++ [id]).
Proof. intros H. unfold stepRequest. rewrite H. reflexivity. Qed.

Lemma stepRequest_duplicate i s id :
  requests s !! i = Some (mkRequest id Duplicate) -> stepRequest i s = s.
Proof. intros H. unfold stepRequest. rewrite H. reflexivity. Qed.

(** One action of the schedule, on a system whose requests are known. *)
Ltac deliver :=
  rewrite run_cons; unfold act;
  first [ erewrite stepRequest_check by reflexivity
        | erewrite stepRequest_set by reflexivity
        | erewrite stepRequest_process by reflexivity
        | erewrite stepRequest_duplicate by reflexivity ];
  cbn [store now requests handled default from_option id];
  simpl (<[_ := _]> _).

Lemma checkIdempotency_after_set messageId t store0 :
  checkIdempotency messageId t (setIdempotency messageId t store0) = true.
Proof.
  unfold checkIdempotency, setIdempotency. rewrite lookup_insert_eq.
  apply Z.ltb_lt. unfold idempotencyTTL. lia.
Qed.

(** Delivered one after the other, the second delivery of an event
    finds the marker of the first and is answered as a duplicate. *)
Lemma sequential_deliveries_handled_once (messageId : str) (store0 : gmap str Z) (t0 : Z) :
  messageId <> [] ->
  checkIdempotency messageId t0 store0 = false ->
  timesHandled messageId (run oneAfterTheOther (twoDeliveries messageId store0 t0)) = 1%nat /\
  map pc (requests (run oneAfterTheOther (twoDeliveries messageId store0 t0))) =
    [Processed; Duplicate].
Proof.
  intros Hne Hfresh. destruct messageId as [|c rest]; [congruence|].
  unfold oneAfterTheOther, twoDeliveries, arrive. cbn [falsy].
  deliver. rewrite Hfresh. deliver. deliver. deliver.
  rewrite checkIdempotency_after_set. deliver. deliver.
  unfold run, timesHandled. cbn -[str_eqb]. rewrite str_eqb_refl. split; reflexivity.
Qed.

(** C2 fails on the code.  The claim of an event id is a GET followed
    by a separate SET.  When two deliveries of one event both run their
    GET before either runs its SET, both find no marker, both set it,
    and the event is handled twice. *)
Theorem duplicate_delivery_handled_twice (messageId : str) (store0 : gmap str Z) (t0 : Z) :
  messageId <> [] ->
  checkIdempotency messageId t0 store0 = false ->
  timesHandled messageId (run interleaved (twoDeliveries messageId store0 t0)) = 2%nat /\
  map pc (requests (run interleaved (twoDeliveries messageId store0 t0))) =
    [Processed; Processed].
Proof.
  intros Hne Hfresh. destruct messageId as [|c rest]; [congruence|].
  unfold interleaved, twoDeliveries, arrive. cbn [falsy].
  deliver. rewrite Hfresh. deliver. rewrite Hfresh. deliver. deliver. deliver. deliver.
  unfold run, timesHandled. cbn -[str_eqb]. rewrite !str_eqb_refl. split; reflexivity.
Qed.

Lemma duplicate_delivery_handled_twice_witness :
  lit "evt-1" <> [] /\
  checkIdempotency (lit "evt-1") 1762160400 ∅ = false /\
  handled (run interleaved (twoDeliveries (lit "evt-1") ∅ 1762160400)) =
    [Some (lit "evt-1"); Some (lit "evt-1")] /\
  timesHandled (lit "evt-1") (run interleaved (twoDeliveries (lit "evt-1") ∅ 1762160400))
    = 2%nat.
Proof.
  assert (Hne : lit "evt-1" <> []) by (vm_compute; discriminate).
  assert (Hfresh : checkIdempotency (lit "evt-1") 1762160400 ∅ = false)
    by (vm_compute; reflexivity).
  split; [exact Hne|]. split; [exact Hfresh|]. split; [vm_compute; reflexivity|].
  exact (proj1 (duplicate_delivery_handled_twice _ _ _ Hne Hfresh)).
Defined.

(** ** Further properties of the code *)

(** *** Helpers *)

Lemma filter_digits_all (s : str) :
  forallb isDigit (filter (fun c => Is_true (isDigit c)) s) = true.
Proof.
  unfold str. induction s as [|c s IH]; [reflexivity|].
  rewrite filter_cons. destruct (decide (Is_true (isDigit c))) as [Hc|Hc].
  - cbn [forallb]. rewrite IH. apply Is_true_eq_true in Hc. rewrite Hc. reflexivity.
  - exact IH.
Qed.

Lemma filter_digits_id (s : str) :
  forallb isDigit s = true -> filter (fun c => Is_true (isDigit c)) s = s.
Proof.
  unfold str. induction s as [|c s IH]; [reflexivity|].
  cbn [forallb]. intros H. apply andb_true_iff in H as [Hc Hs].
  rewrite filter_cons. destruct (decide (Is_true (isDigit c))) as [_|Hn].
  - rewrite IH by exact Hs. reflexivity.
  - exfalso. apply Hn. rewrite Hc. exact I.
Qed.

(** X1.  [truncate] keeps a text that fits, and cuts a longer one to
    exactly [maxLength] characters, the last three being dots (for a
    limit of at least three). *)
Theorem truncate_fits (text : str) (maxLen : nat) :
  (3 <= maxLen)%nat ->
  (length (truncate text maxLen) <= maxLen)%nat /\
  ((length text <= maxLen)%nat -> truncate text maxLen = text) /\
  ((maxLen < length text)%nat ->
   truncate text maxLen = take (maxLen - 3) text ++ lit "..." /\
   length (truncate text maxLen) = maxLen).
Proof.
  intros H3. unfold truncate, substring.
  destruct (length text <=? maxLen)%nat eqn:Hle.
  - apply Nat.leb_le in Hle. rewrite orb_true_r.
    split; [exact Hle | split; [reflexivity | lia]].
  - apply Nat.leb_gt in Hle.
    destruct text as [|c text]; [cbn in Hle; lia|]. cbn [falsy orb].
    rewrite Nat.sub_0_r, drop_0.
    assert (Hlen : length (take (maxLen - 3) (c :: text) ++ lit "...") = maxLen).
    { rewrite length_app, length_take. cbn [lit list_ascii_of_string length] in *. lia. }
    split; [lia | split; [lia | auto]].
Qed.

Lemma truncate_fits_witness :
  (3 <= 10)%nat /\
  truncate (lit "a rather long message") 10 = lit "a rathe...".
Proof.
  assert (H3 : (3 <= 10)%nat) by lia.
  split; [exact H3|].
  rewrite (proj1 (proj2 (proj2 (truncate_fits (lit "a rather long message") 10 H3))
                    ltac:(vm_compute; lia))).
  reflexivity.
Defined.

(** X2.  A normalized phone number holds digits only, and normalizing
    it again gives it back unless no digit was left. *)
Theorem normalizePhoneNumber_digits (phone : option str) (p : str) :
  normalizePhoneNumber phone = Some p ->
  forallb isDigit p = true /\
  (p <> [] -> normalizePhoneNumber (Some p) = Some p).
Proof.
  unfold normalizePhoneNumber. destruct phone as [q|]; [|discriminate].
  destruct (falsy q); [discriminate|]. intros [= <-].
  split; [apply filter_digits_all|].
  intros Hne. destruct (filter _ q) as [|c r] eqn:Hf; [congruence|].
  cbn [falsy]. rewrite <- Hf.
  rewrite filter_digits_id by apply filter_digits_all. reflexivity.
Qed.

Lemma normalizePhoneNumber_digits_witness :
  normalizePhoneNumber (Some (lit "+1 (555) 123-4567")) = Some (lit "15551234567") /\
  forallb isDigit (lit "15551234567") = true /\
  normalizePhoneNumber (Some (lit "15551234567")) = Some (lit "15551234567").
Proof.
  assert (H : normalizePhoneNumber (Some (lit "+1 (555) 123-4567"))
              = Some (lit "15551234567")) by (vm_compute; reflexivity).
  split; [exact H|].
  destruct (normalizePhoneNumber_digits _ _ H) as [Hd Hi].
  split; [exact Hd | apply Hi; vm_compute; discriminate].
Defined.

(** X3.  [formatPhoneNumber] yields a plus sign followed by digits only,
    adds the country code 1 to a ten-digit number, and formatting its
    own result changes nothing. *)
Theorem formatPhoneNumber_idempotent (phone : str) :
  (exists digits,
     formatPhoneNumber phone = "+"%char :: digits /\ forallb isDigit digits = true /\
     length digits <> 10%nat) /\
  formatPhoneNumber (formatPhoneNumber phone) = formatPhoneNumber phone.
Proof.
  unfold formatPhoneNumber. cbv zeta.
  set (cleaned := filter (fun c => Is_true (isDigit c)) phone).
  set (digits := if (length cleaned =? 10)%nat then lit "1" ++ cleaned else cleaned).
  assert (Hc : forallb isDigit cleaned = true) by apply filter_digits_all.
  assert (Hd : forallb isDigit digits = true).
  { subst digits. destruct (length cleaned =? 10)%nat; [|exact Hc].
    cbn [lit list_ascii_of_string app forallb]. rewrite Hc. reflexivity. }
  assert (Hl : length digits <> 10%nat).
  { subst digits. destruct (length cleaned =? 10)%nat eqn:H10.
    - apply Nat.eqb_eq in H10. cbn [lit list_ascii_of_string app length]. lia.
    - apply Nat.eqb_neq in H10. exact H10. }
  split; [exists digits; auto|].
  change (lit "+" ++ digits) with ("+"%char :: digits).
  unfold str. rewrite filter_cons. destruct (decide (Is_true (isDigit "+"%char))) as [Hp|_];
    [vm_compute in Hp; destruct Hp|].
  rewrite filter_digits_id by exact Hd.
  apply Nat.eqb_neq in Hl. rewrite Hl. reflexivity.
Qed.

Lemma lowerChar_upperChar (c : ascii) : lowerChar (upperChar c) = lowerChar c.
Proof. destruct c as [[] [] [] [] [] [] [] []]; reflexivity. Qed.

Lemma upperChar_idem (c : ascii) : upperChar (upperChar c) = upperChar c.
Proof. destruct c as [[] [] [] [] [] [] [] []]; reflexivity. Qed.

Lemma toLowerCase_toUpperCase (s : str) : toLowerCase (toUpperCase s) = toLowerCase s.
Proof.
  unfold toLowerCase, toUpperCase. rewrite map_map. apply map_ext.
  intros; apply lowerChar_upperChar.
Qed.

Lemma includes_app (s w pre post : str) :
  includes s w = true -> includes (pre ++ s ++ post) w = true.
Proof.
  rewrite !includes_spec. intros [a [b ->]].
  exists (pre ++ a), (b ++ post). rewrite <- !app_assoc. reflexivity.
Qed.

(** X4.  The keyword check cannot be dodged by case or by surrounding
    text: a message matches exactly when its lower-cased or upper-cased
    form does, a message that matches still matches with any text put
    before and after it, and the check agrees with the generic helper
    [containsKeyword] on the configured list. *)
Theorem containsCrisisKeyword_robust (message : str) :
  containsCrisisKeyword (toLowerCase message) = containsCrisisKeyword message /\
  containsCrisisKeyword (toUpperCase message) = containsCrisisKeyword message /\
  containsCrisisKeyword message = containsKeyword message Config.crisisKeywords /\
  (containsCrisisKeyword message = true ->
   forall pre post, containsCrisisKeyword (pre ++ message ++ post) = true).
Proof.
  unfold containsCrisisKeyword, containsKeyword. cbv zeta.
  split; [|split; [|split]].
  - rewrite toLowerCase_idem. destruct message; reflexivity.
  - rewrite toLowerCase_toUpperCase. destruct message; reflexivity.
  - reflexivity.
  - destruct message as [|c message]; [discriminate|]. cbn [falsy].
    intros Hex pre post.
    apply existsb_exists in Hex as [keyword [Hin Hinc]].
    assert (Hne : falsy (pre ++ (c :: message) ++ post) = false)
      by (destruct pre; reflexivity).
    rewrite Hne. apply existsb_exists. exists keyword. split; [exact Hin|].
    rewrite !toLowerCase_app. apply includes_app. exact Hinc.
Qed.

Lemma containsCrisisKeyword_robust_witness :
  containsCrisisKeyword (lit "honestly I WANT TO DIE, that is all") = true.
Proof.
  apply (proj2 (proj2 (proj2 (containsCrisisKeyword_robust (lit "I WANT TO DIE"))))
           ltac:(vm_compute; reflexivity) (lit "honestly ") (lit ", that is all")).
Defined.

(** *** Names and answers in onboarding *)

Lemma toLowerCase_capitalizeName (name : str) :
  toLowerCase (capitalizeName name) = toLowerCase name.
Proof.
  unfold capitalizeName. rewrite toLowerCase_app, toLowerCase_toUpperCase, toLowerCase_idem.
  rewrite <- toLowerCase_app, take_drop. reflexivity.
Qed.

Lemma isCommonWord_capitalizeName (name : str) :
  isCommonWord (capitalizeName name) = isCommonWord name.
Proof. unfold isCommonWord. rewrite toLowerCase_capitalizeName. reflexivity. Qed.

Lemma capitalizeName_idem (name : str) :
  capitalizeName (capitalizeName name) = capitalizeName name.
Proof.
  destruct name as [|c name]; [reflexivity|].
  unfold capitalizeName. cbn [take drop toUpperCase toLowerCase map app firstn skipn].
  rewrite upperChar_idem. f_equal.
  change (map lowerChar (map lowerChar name)) with (toLowerCase (toLowerCase name)).
  apply toLowerCase_idem.
Qed.

Lemma validName_spec (m : option str) (n : str) :
  validName m = Some n ->
  exists name, n = capitalizeName name /\ isCommonWord name = false.
Proof.
  unfold validName. destruct m as [name|]; [|discriminate].
  destruct (2 <=? length name)%nat; [|discriminate].
  destruct (isCommonWord name) eqn:Hc; [discriminate|].
  cbn [negb andb]. intros [= <-]. eauto.
Qed.

(** X5.  A name [extractName] returns is never one of the stoplist
    words, in any case, and it is capitalized: its first letter is
    upper case and the rest lower case. *)
Theorem extractName_not_common (message name : str) :
  extractName message = Some name ->
  isCommonWord name = false /\ capitalizeName name = name.
Proof.
  unfold extractName. destruct (falsy message); [discriminate|]. cbv zeta.
  assert (Hok : forall raw, isCommonWord raw = false ->
            isCommonWord (capitalizeName raw) = false /\
            capitalizeName (capitalizeName raw) = capitalizeName raw).
  { intros raw Hraw. rewrite isCommonWord_capitalizeName. split; [exact Hraw|].
    apply capitalizeName_idem. }
  destruct (validName (matchIntro _)) as [n|] eqn:H1.
  { intros [= <-]. apply validName_spec in H1 as [raw [-> Hraw]]. auto. }
  destruct (validName (matchBare _)) as [n|] eqn:H2.
  { intros [= <-]. apply validName_spec in H2 as [raw [-> Hraw]]. auto. }
  destruct (_ && _); [|discriminate].
  match goal with |- context [isCommonWord ?x] => destruct (isCommonWord x) eqn:Hc end;
    [discriminate|].
  cbn [negb]. intros [= <-]. auto.
Qed.

Lemma extractName_not_common_witness :
  extractName (lit "my name is OKAYAMA") = Some (lit "Okayama") /\
  isCommonWord (lit "Okayama") = false /\
  capitalizeName (lit "Okayama") = lit "Okayama".
Proof.
  assert (H : extractName (lit "my name is OKAYAMA") = Some (lit "Okayama"))
    by (vm_compute; reflexivity).
  split; [exact H | exact (extractName_not_common _ _ H)].
Defined.

(** X6.  For a message that [isCheckInResponse] accepts, the default
    of [parseCheckInPreference] never decides: the answer is an opt-in
    exactly when a positive phrase occurs in the lower-cased message,
    and otherwise a negative phrase occurs. *)
Theorem checkIn_answer_decided (message : str) :
  isCheckInResponse message = true ->
  parseCheckInPreference message =
    existsb (fun word => includes (toLowerCase message) word) positiveWords /\
  (parseCheckInPreference message = false -> mentions message negativeWords).
Proof.
  unfold isCheckInResponse, parseCheckInPreference.
  destruct (falsy message); [discriminate|]. cbv zeta.
  set (lower := toLowerCase message). intros Hresp.
  destruct (existsb (fun word => includes lower word) positiveWords) eqn:Hpos.
  { split; [reflexivity | discriminate]. }
  assert (Hnot : forall word, In word positiveWords -> includes lower word = false).
  { intros word Hin. destruct (includes lower word) eqn:Hinc; [|reflexivity].
    rewrite (existsb_In_true (fun word => includes lower word) _ word Hin Hinc) in Hpos.
    discriminate. }
  assert (Hneg : exists word, In word negativeWords /\ includes lower word = true).
  { destruct (includes lower (lit "no")) eqn:Hno;
      [exists (lit "no"); split; [cbn; auto | exact Hno]|].
    destruct (includes lower (lit "don't")) eqn:Hdont;
      [exists (lit "don't"); split; [cbn; auto | exact Hdont]|].
    rewrite (Hnot (lit "yes")), (Hnot (lit "sure")), (Hnot (lit "okay")),
      (Hnot (lit "please")) in Hresp by (cbn; auto 10).
    discriminate Hresp. }
  destruct Hneg as [word [Hin Hinc]].
  rewrite (existsb_In_true (fun word => includes lower word) _ word Hin Hinc).
  split; [reflexivity|]. intros _. exists word. auto.
Qed.

Lemma checkIn_answer_decided_witness :
  isCheckInResponse (lit "I don't think so") = true /\
  parseCheckInPreference (lit "I don't think so") = false.
Proof.
  assert (H : isCheckInResponse (lit "I don't think so") = true)
    by (vm_compute; reflexivity).
  split; [exact H|].
  rewrite (proj1 (checkIn_answer_decided _ H)). vm_compute. reflexivity.
Defined.

(** *** More on outbound splitting *)

Lemma lastIndexOfFrom_bounds (s w : str) (i pos : nat) (best : Z) :
  -1 <= best <= Z.of_nat pos ->
  -1 <= lastIndexOfFrom s w i pos best <= Z.of_nat pos.
Proof.
  revert i best. induction s as [|c s IH]; intros i best Hb; cbn [lastIndexOfFrom].
  - destruct ((i <=? pos)%nat && startsWith [] w) eqn:Hc; [|exact Hb].
    apply andb_true_iff in Hc as [Hi _]. apply Nat.leb_le in Hi. lia.
  - apply IH. destruct ((i <=? pos)%nat && startsWith (c :: s) w) eqn:Hc; [|exact Hb].
    apply andb_true_iff in Hc as [Hi _]. apply Nat.leb_le in Hi. lia.
Qed.

Lemma lastIndexOf_bounds (s w : str) (pos : nat) :
  -1 <= lastIndexOf s w pos <= Z.of_nat pos.
Proof. apply lastIndexOfFrom_bounds. lia. Qed.

(** The break point lies in the text at or before the limit. *)
Lemma findBreakPoint_bounds (remaining : str) (maxLen : nat) :
  0 <= findBreakPoint remaining maxLen <= Z.of_nat maxLen.
Proof.
  unfold findBreakPoint. cbv zeta.
  pose proof (lastIndexOf_bounds remaining (newline ++ newline) maxLen) as H1.
  pose proof (lastIndexOf_bounds remaining newline maxLen) as H2.
  pose proof (lastIndexOf_bounds remaining (lit ". ") maxLen) as H3.
  pose proof (lastIndexOf_bounds remaining (lit " ") maxLen) as H4.
  repeat match goal with
         | |- context [if tooEarly ?b ?m then _ else _] => destruct (tooEarly b m)
         end;
    match goal with
    | |- context [if ?b =? -1 then _ else _] => destruct (Z.eqb_spec b (-1))
    end; lia.
Qed.

Lemma splitLoop_segments (P : str -> Prop) fuel remaining maxLen messages out :
  (forall s : str, (length s <= maxLen)%nat -> P s) ->
  (forall r : str, P (trim (substring r 0 (Z.to_nat (findBreakPoint r maxLen) + 1)))) ->
  Forall P messages ->
  splitLoop fuel remaining maxLen messages = Some out ->
  Forall P out.
Proof.
  intros Hshort Hcut. revert remaining messages.
  induction fuel as [|fuel IH]; intros remaining messages Hm; [discriminate|].
  cbn [splitLoop]. destruct (0 <? length remaining)%nat; [|intros [= <-]; exact Hm].
  destruct (length remaining <=? maxLen)%nat eqn:Hle.
  - intros [= <-]. apply Forall_app. split; [exact Hm|].
    constructor; [|constructor]. apply Hshort. apply Nat.leb_le. exact Hle.
  - apply IH. apply Forall_app. split; [exact Hm|]. constructor; [apply Hcut | constructor].
Qed.

(** X7.  No segment [splitMessage] returns for a text longer than the
    limit is longer than the limit plus one: the cut takes the
    character at the break point along. *)
Theorem splitMessage_segment_bound (text : str) (maxLen : nat) :
  (maxLen < length text)%nat ->
  Forall (fun segment : str => (length segment <= maxLen + 1)%nat)
         (splitMessage text maxLen).
Proof.
  intros Hlong.
  destruct (splitMessage_total text maxLen Hlong) as [messages [Hloop <-]].
  eapply splitLoop_segments; [| | constructor | exact Hloop].
  - intros s Hs. cbv beta. lia.
  - intros r. cbv beta.
    pose proof (findBreakPoint_bounds r maxLen) as Hbp.
    etransitivity; [apply trim_length|].
    unfold substring. rewrite length_take. lia.
Qed.

Lemma splitMessage_segment_bound_witness :
  Forall (fun segment : str => (length segment <= 8 + 1)%nat)
         (splitMessage (lit "one two three four five six seven") 8) /\
  splitMessage (lit "one two three four five six seven") 8 =
    [lit "one two"; lit "three"; lit "four"; lit "five six"; lit "seven"].
Proof.
  split; [|vm_compute; reflexivity].
  apply splitMessage_segment_bound. vm_compute. lia.
Defined.

Lemma nonSpace_app (a b : str) : nonSpace (a ++ b) = nonSpace a ++ nonSpace b.
Proof. apply List.filter_app. Qed.

Lemma nonSpace_dropSpaces (s : str) : nonSpace (dropSpaces s) = nonSpace s.
Proof.
  induction s as [|c s IH]; [reflexivity|].
  cbn [dropSpaces]. destruct (isSpace c) eqn:Hc; [|reflexivity].
  rewrite IH. unfold nonSpace. cbn [List.filter]. rewrite Hc. reflexivity.
Qed.

Lemma nonSpace_rev (s : str) : nonSpace (rev s) = rev (nonSpace s).
Proof. apply List.filter_rev. Qed.

Lemma nonSpace_trim (s : str) : nonSpace (trim s) = nonSpace s.
Proof.
  unfold trim, trimEnd, trimStart.
  rewrite nonSpace_rev, nonSpace_dropSpaces, nonSpace_rev, rev_involutive.
  apply nonSpace_dropSpaces.
Qed.

Lemma splitLoop_nonSpace fuel remaining maxLen messages out :
  splitLoop fuel remaining maxLen messages = Some out ->
  nonSpace (concat out) = nonSpace (concat messages ++ remaining).
Proof.
  revert remaining messages.
  induction fuel as [|fuel IH]; intros remaining messages; [discriminate|].
  cbn [splitLoop]. destruct (0 <? length remaining)%nat eqn:Hpos.
  - destruct (length remaining <=? maxLen)%nat.
    + intros [= <-]. rewrite concat_app. cbn [concat]. rewrite app_nil_r. reflexivity.
    + intros Hrun. rewrite (IH _ _ Hrun).
      rewrite concat_app. cbn [concat]. rewrite app_nil_r.
      rewrite !nonSpace_app, !nonSpace_trim. rewrite <- app_assoc. f_equal.
      rewrite <- nonSpace_app. f_equal.
      unfold substring, substringFrom. rewrite Nat.sub_0_r, drop_0. apply take_drop.
  - apply Nat.ltb_ge in Hpos. intros [= <-].
    destruct remaining; [rewrite app_nil_r; reflexivity | cbn in Hpos; lia].
Qed.

(** X8.  Splitting drops nothing but white space: the segments, put
    together and stripped of white space, are the text stripped of
    white space, in the same order. *)
Theorem splitMessage_keeps_text (text : str) (maxLen : nat) :
  nonSpace (concat (splitMessage text maxLen)) = nonSpace text.
Proof.
  destruct (Nat.le_gt_cases (length text) maxLen) as [Hle | Hlong].
  - unfold splitMessage. apply Nat.leb_le in Hle. rewrite Hle.
    cbn [concat]. rewrite app_nil_r. reflexivity.
  - destruct (splitMessage_total text maxLen Hlong) as [messages [Hloop <-]].
    apply (splitLoop_nonSpace _ _ _ _ _ Hloop).
Qed.

(** *** The store *)

Lemma lastN_length {A} (n : nat) (l : list A) :
  length (Redis.lastN n l) = Nat.min n (length l).
Proof. unfold Redis.lastN. rewrite length_drop. lia. Qed.

Lemma lastN_suffix {A} (n : nat) (l : list A) :
  exists dropped, l = dropped ++ Redis.lastN n l.
Proof.
  unfold Redis.lastN. exists (take (length l - n) l). symmetry. apply take_drop.
Qed.

Lemma lastN_last {A} (n : nat) (l : list A) (x : A) :
  (0 < n)%nat -> last (Redis.lastN n (l ++ [x])) = Some x.
Proof.
  intros Hn. unfold Redis.lastN. rewrite length_app. cbn [length].
  rewrite drop_app_le by lia. apply last_snoc.
Qed.

(** X9.  After [addMessage] the history of the identity holds at most
    50 messages, the new one last; what it held before is kept in
    order except for entries dropped at the old end; other identities
    are untouched; and [getConversationHistory] returns the newest
    entries, at most [limit] of them for a limit above zero and the
    whole history for a limit of zero. *)
Theorem addMessage_window phoneNumber r c t w :
  let m := mkMsg r c t (clock w) in
  let w' := snd (Redis.addMessage phoneNumber r c t w) in
  let old := default [] (conversations w !! phoneNumber) in
  let new := default [] (conversations w' !! phoneNumber) in
  (length new <= Redis.maxMessages)%nat /\
  last new = Some m /\
  (exists dropped, old ++ [m] = dropped ++ new) /\
  (forall p, p <> phoneNumber -> conversations w' !! p = conversations w !! p) /\
  (forall limit,
     exists older got,
       fst (Redis.getConversationHistory phoneNumber limit w') = Ok got /\
       new = older ++ got /\
       ((0 < limit)%nat -> got = Redis.lastN limit new /\ (length got <= limit)%nat) /\
       (limit = 0%nat -> got = new)) /\
  fst (Redis.getConversationHistory phoneNumber 1 w') = Ok [m].
Proof.
  cbv zeta. unfold Redis.addMessage, Redis.getConversationHistory, bind, dateNow, gets, modify.
  cbn [fst snd conversations set_conversations].
  rewrite lookup_insert_eq. cbn [default from_option id].
  set (old := default [] (conversations w !! phoneNumber)).
  set (m := mkMsg r c t (clock w)).
  set (new := if (Redis.maxMessages <? length (old ++ [m]))%nat
              then Redis.lastN Redis.maxMessages (old ++ [m]) else old ++ [m]).
  assert (Hlast : last new = Some m).
  { subst new. destruct (_ <? _)%nat; [apply lastN_last; unfold Redis.maxMessages; lia|].
    apply last_snoc. }
  split; [|split; [exact Hlast | split; [|split; [|split]]]].
  - subst new. destruct (Redis.maxMessages <? length (old ++ [m]))%nat eqn:Hlt.
    + rewrite lastN_length. lia.
    + apply Nat.ltb_ge in Hlt. exact Hlt.
  - subst new. destruct (_ <? _)%nat; [apply lastN_suffix | exists []; reflexivity].
  - intros p Hp. apply lookup_insert_ne. congruence.
  - intros limit. unfold Redis.lRangeLast. destruct limit as [|limit].
    + exists [], new. cbn [Nat.eqb].
      split; [reflexivity|]. split; [reflexivity|]. split; [lia | reflexivity].
    + destruct (lastN_suffix (S limit) new) as [older Ho].
      exists older, (Redis.lastN (S limit) new). cbn [Nat.eqb].
      split; [reflexivity|]. split; [exact Ho|].
      split; [intros _; split; [reflexivity | rewrite lastN_length; lia] | discriminate].
  - f_equal. unfold Redis.lRangeLast. cbn [Nat.eqb]. unfold Redis.lastN.
    destruct new as [|x new'] using rev_ind; [discriminate Hlast|].
    rewrite last_snoc in Hlast. injection Hlast as ->.
    rewrite length_app. cbn [length]. rewrite drop_app_le by lia.
    replace (length new' + 1 - 1)%nat with (length new') by lia.
    rewrite drop_all. reflexivity.
Qed.

(** Sixty messages in a row leave the fifty newest. *)
Example addMessage_sixty :
  let w := snd (forEach (seq 0 60) (fun i =>
                  Redis.addMessage Demo.phone RoleUser (repeat "m"%char i) TPlain)
                  (Demo.world 4 12)) in
  map (fun m => length (content m)) (default [] (conversations w !! Demo.phone))
  = seq 10 50.
Proof. vm_compute. reflexivity. Qed.

Lemma keysMatch_refl (phoneNumber : str) : Redis.keysMatch phoneNumber phoneNumber = true.
Proof.
  unfold Redis.keysMatch. apply startsWith_spec. exists []. symmetry. apply app_nil_r.
Qed.

(** Among identities made of digits the patterns match the keys of
    the identity itself only. *)
Lemma keysMatch_digits (phoneNumber identity : str) :
  forallb isDigit phoneNumber = true -> forallb isDigit identity = true ->
  identity <> phoneNumber -> Redis.keysMatch phoneNumber identity = false.
Proof.
  unfold Redis.keysMatch. change (lit ":") with [":"%char]. revert identity.
  induction phoneNumber as [|a p IH]; intros [|b q] Hp Hq Hne; try congruence.
  - cbn [forallb] in Hq. apply andb_true_iff in Hq as [Hb _].
    cbn [app startsWith].
    destruct (Ascii.eqb_spec ":"%char b) as [<-|]; [discriminate Hb | reflexivity].
  - cbn [forallb] in Hp. apply andb_true_iff in Hp as [Ha _].
    cbn [app startsWith].
    destruct (Ascii.eqb_spec a ":"%char) as [->|]; [discriminate Ha | reflexivity].
  - cbn [forallb] in Hp, Hq.
    apply andb_true_iff in Hp as [_ Hp]. apply andb_true_iff in Hq as [_ Hq].
    cbn [app startsWith]. destruct (Ascii.eqb_spec a b) as [->|]; [|reflexivity].
    cbn [andb]. apply IH; [exact Hp | exact Hq | congruence].
Qed.

(** X10.  For a phone number made of digits, [deleteUserData] leaves no
    profile, history, schedule, journal bucket or crisis log entry of
    the identity, and changes no record of any other identity made of
    digits.  The journal and crisis keys are found by pattern: those
    of an identity whose name begins with the phone number and a
    colon are deleted along, its profile, history and schedule are
    not. *)
Theorem deleteUserData_erases phoneNumber w :
  forallb isDigit phoneNumber = true ->
  let w' := snd (Redis.deleteUserData phoneNumber w) in
  (users w' !! phoneNumber = None /\
   conversations w' !! phoneNumber = None /\
   schedules w' !! phoneNumber = None /\
   (forall d, journal w' !! (phoneNumber, d) = None) /\
   (forall t, crisis w' !! (phoneNumber, t) = None)) /\
  (forall p, p <> phoneNumber ->
     (users w' !! p = users w !! p /\
      conversations w' !! p = conversations w !! p /\
      schedules w' !! p = schedules w !! p) /\
     (forallb isDigit p = true ->
      (forall d, journal w' !! (p, d) = journal w !! (p, d)) /\
      (forall t, crisis w' !! (p, t) = crisis w !! (p, t))) /\
     (forall rest, p = phoneNumber ++ lit ":" ++ rest ->
      (forall d, journal w' !! (p, d) = None) /\
      (forall t, crisis w' !! (p, t) = None))).
Proof.
  intros Hdigits. cbv zeta. unfold Redis.deleteUserData, modify.
  cbn [snd users conversations schedules journal crisis set_users set_conversations
       set_schedules set_journal set_crisis].
  assert (Hgone : forall {A} (m : gmap (str * Z) A) (p : str) (k : Z),
            Redis.keysMatch phoneNumber p = true ->
            filter (fun kv : str * Z * A => Redis.keysMatch phoneNumber kv.1.1 = false) m
              !! (p, k) = None).
  { intros A m p k Hm. apply map_lookup_filter_None. right. intros x _ Hf.
    cbn [fst] in Hf. congruence. }
  assert (Hkept : forall {A} (m : gmap (str * Z) A) (p : str) (k : Z),
            Redis.keysMatch phoneNumber p = false ->
            filter (fun kv : str * Z * A => Redis.keysMatch phoneNumber kv.1.1 = false) m
              !! (p, k) = m !! (p, k)).
  { intros A m p k Hm. destruct (m !! (p, k)) as [x|] eqn:Hx.
    - apply map_lookup_filter_Some. split; [exact Hx | exact Hm].
    - apply map_lookup_filter_None. left. exact Hx. }
  split.
  - rewrite !lookup_delete_eq. repeat split; try reflexivity.
    + intros d. apply Hgone, keysMatch_refl.
    + intros t. apply Hgone, keysMatch_refl.
  - intros p Hp. rewrite !lookup_delete_ne by congruence.
    split; [auto|]. split.
    + intros Hq. pose proof (keysMatch_digits phoneNumber p Hdigits Hq Hp) as Hm.
      split; intros k; apply Hkept; exact Hm.
    + intros rest ->.
      assert (Hm : Redis.keysMatch phoneNumber (phoneNumber ++ lit ":" ++ rest) = true).
      { unfold Redis.keysMatch. apply startsWith_spec. exists (rest ++ lit ":").
        rewrite <- !app_assoc. reflexivity. }
      split; intros k; apply Hgone; exact Hm.
Qed.

Lemma deleteUserData_erases_witness :
  let bucket := mkJournalDay [] 0 in
  let w := set_journal (fun m => <[(lit "1", 20395) := bucket]>
                                   (<[(lit "12", 20395) := bucket]>
                                      (<[(lit "1:2", 20395) := bucket]> m))) emptyWorld in
  let w' := snd (Redis.deleteUserData (lit "1") w) in
  journal w' !! (lit "1", 20395) = None /\
  journal w' !! (lit "12", 20395) = Some bucket /\
  journal w' !! (lit "1:2", 20395) = None.
Proof.
  cbv zeta.
  match goal with |- context [Redis.deleteUserData _ ?w] =>
    destruct (deleteUserData_erases (lit "1") w eq_refl) as [[_ [_ [_ [H1 _]]]] H]
  end.
  cbv zeta in H. split; [apply H1|]. split.
  - destruct (H (lit "12") ltac:(discriminate)) as [_ [H12 _]].
    destruct (H12 eq_refl) as [Hj _]. rewrite Hj. reflexivity.
  - destruct (H (lit "1:2") ltac:(discriminate)) as [_ [_ H2]].
    destruct (H2 (lit "2") eq_refl) as [Hj _]. apply Hj.
Defined.

(** [maskPhoneNumber] shows nothing of a number shorter than four
    characters, and of a longer one only its last four: two numbers
    with the same last four characters are masked alike. *)
Theorem maskPhoneNumber_last_four (hidden tail : str) :
  length tail = 4%nat ->
  maskPhoneNumber (Some (hidden ++ tail)) = lit "****" ++ tail /\
  (forall other, maskPhoneNumber (Some (other ++ tail)) =
                 maskPhoneNumber (Some (hidden ++ tail))) /\
  (forall short : str, (length short < 4)%nat ->
                       maskPhoneNumber (Some short) = lit "****").
Proof.
  intros Ht.
  assert (Hmask : forall h, maskPhoneNumber (Some (h ++ tail)) = lit "****" ++ tail).
  { intros h. unfold maskPhoneNumber, lastFour.
    assert (Hlen : length (h ++ tail) = (length h + 4)%nat)
      by (rewrite length_app; lia).
    destruct (length (h ++ tail) <? 4)%nat eqn:Hlt; [apply Nat.ltb_lt in Hlt; lia|].
    assert (Hf : falsy (h ++ tail) = false)
      by (destruct (h ++ tail); [cbn in Hlen; lia | reflexivity]).
    rewrite Hf, Hlen. cbn [orb].
    replace (length h + 4 - 4)%nat with (length h) by lia.
    rewrite drop_app_length. reflexivity. }
  split; [apply Hmask | split].
  - intros other. rewrite !Hmask. reflexivity.
  - intros short Hs. unfold maskPhoneNumber.
    apply Nat.ltb_lt in Hs. rewrite Hs, orb_true_r. reflexivity.
Qed.

Lemma maskPhoneNumber_last_four_witness :
  maskPhoneNumber (Some (lit "15551234567")) = lit "****4567" /\
  maskPhoneNumber (Some (lit "4567")) = maskPhoneNumber (Some (lit "15551234567")).
Proof.
  destruct (maskPhoneNumber_last_four (lit "1555123") (lit "4567") eq_refl) as [H1 [H2 _]].
  split; [exact H1 | exact (H2 [])].
Defined.

(** *** The gateway *)

(** One attempt: what it returns, and what it leaves behind. *)
Lemma postOnce_run E phoneNumber text w :
  let w1 := set_clock (fun t => t + Z.of_nat (latency E (calls w))) (set_calls S w) in
  postOnce E phoneNumber text w =
  match gatewayPost E (calls w) phoneNumber text with
  | PostOk => (Ok SendSuccess, set_outbox (fun o => o ++ [(phoneNumber, text)]) w1)
  | Post400 => (Ok (SendFailure (lit "invalid_request")), w1)
  | PostAuth => (Ok (SendFailure (lit "auth_error")), w1)
  | Post429 => (Raise RateLimitExceeded, w1)
  | PostFailed => (Raise RequestFailed, w1)
  end.
Proof.
  cbv zeta. unfold postOnce, external, bind, gets, modify, ret, throw.
  destruct (gatewayPost E (calls w) phoneNumber text); reflexivity.
Qed.

(** X11.  [sendMessage] posts at most three times and delivers at most
    once: the text is in the outbox exactly when success is reported,
    a rejected request (400, 401, 403) is not retried, and without an
    API key nothing is posted at all. *)
Theorem sendMessage_outcome E phoneNumber text w :
  let r := sendMessage E phoneNumber text w in
  (calls w <= calls (snd r) <= calls w + 3)%nat /\
  match fst r with
  | Ok SendSuccess => outbox (snd r) = outbox w ++ [(phoneNumber, text)]
  | Ok (SendFailure _) => outbox (snd r) = outbox w
  | Raise _ => outbox (snd r) = outbox w /\ calls (snd r) = (calls w + 3)%nat
  end /\
  (hasGatewayKey E = true ->
   match gatewayPost E (calls w) phoneNumber text with
   | Post429 | PostFailed => True
   | _ => calls (snd r) = S (calls w)
   end) /\
  (hasGatewayKey E = false -> r = (Ok (SendFailure (lit "no_api_key")), w)).
Proof.
  cbv zeta. unfold sendMessage.
  destruct (hasGatewayKey E); cbn [negb]; [|cbn; repeat split; lia].
  split; [|split; [|split; [intros _|discriminate]]];
    cbn [withRetry]; unfold tryCatch, bind, sleep, modify, ret, throw;
    repeat (rewrite postOnce_run; cbv zeta;
            match goal with
            | |- context [match gatewayPost ?E ?n ?p ?t with _ => _ end] =>
                destruct (gatewayPost E n p t)
            end; cbn -[postOnce Z.add Z.mul Z.pow]);
    repeat split; try reflexivity; lia.
Qed.

Lemma sendMessage_outcome_witness :
  calls (snd (sendMessage (Demo.env Demo.low) Demo.phone (lit "hello") (Demo.world 4 12)))
  = 1%nat.
Proof.
  exact (proj1 (proj2 (proj2 (sendMessage_outcome (Demo.env Demo.low) Demo.phone
                                (lit "hello") (Demo.world 4 12)))) eq_refl).
Defined.

(** X12.  When every attempt fails with a rate limit or a server error,
    [sendMessage] gives up after the third: it throws the error of the
    last attempt, has waited one second and then two between the
    attempts and not after the last, and has delivered nothing. *)
Theorem sendMessage_gives_up E phoneNumber text w :
  hasGatewayKey E = true ->
  (forall n, gatewayPost E n phoneNumber text = Post429 \/
             gatewayPost E n phoneNumber text = PostFailed) ->
  let r := sendMessage E phoneNumber text w in
  let c := calls w in
  fst r = Raise (match gatewayPost E (S (S c)) phoneNumber text with
                 | Post429 => RateLimitExceeded
                 | _ => RequestFailed
                 end) /\
  calls (snd r) = S (S (S c)) /\
  clock (snd r) = clock w + Z.of_nat (latency E c) + 1000
                          + Z.of_nat (latency E (S c)) + 2000
                          + Z.of_nat (latency E (S (S c))) /\
  outbox (snd r) = outbox w.
Proof.
  intros Hkey Hfail. cbv zeta. unfold sendMessage. rewrite Hkey. cbn [negb withRetry].
  unfold tryCatch, bind, sleep, modify, ret, throw.
  destruct (Hfail (calls w)) as [H0 | H0], (Hfail (S (calls w))) as [H1 | H1],
    (Hfail (S (S (calls w)))) as [H2 | H2];
    repeat (rewrite postOnce_run; cbv zeta; cbn -[postOnce Z.add Z.mul Z.pow];
            rewrite ?H0, ?H1, ?H2; cbn -[postOnce Z.add Z.mul Z.pow]);
    repeat split; try reflexivity; change (2 ^ Z.of_nat 0) with 1;
    change (2 ^ Z.of_nat 1) with 2; lia.
Qed.

Lemma sendMessage_gives_up_witness :
  let E := mkEnv true true (fun _ _ => AssessApiError) (fun _ _ _ => CompleteText None)
                 (fun _ _ _ => CompleteText None) (fun _ _ => None)
                 (fun _ _ _ => Post429) (fun _ => 120%nat) (fun _ => 0%nat) 0 in
  fst (sendMessage E Demo.phone (lit "hello") (Demo.world 4 12)) = Raise RateLimitExceeded /\
  clock (snd (sendMessage E Demo.phone (lit "hello") (Demo.world 4 12)))
    = clock (Demo.world 4 12) + 3360.
Proof.
  cbv zeta.
  match goal with |- context [sendMessage ?E _ _ _] =>
    destruct (sendMessage_gives_up E Demo.phone (lit "hello") (Demo.world 4 12)
                eq_refl (fun n => or_introl eq_refl)) as [H1 [_ [H2 _]]]
  end.
  split; [exact H1 | rewrite H2; reflexivity].
Defined.

Lemma sendMessage_accepted E phoneNumber text w :
  hasGatewayKey E = true ->
  gatewayPost E (calls w) phoneNumber text = PostOk ->
  sendMessage E phoneNumber text w =
  (Ok SendSuccess,
   set_outbox (fun o => o ++ [(phoneNumber, text)])
     (set_clock (fun t => t + Z.of_nat (latency E (calls w))) (set_calls S w))).
Proof.
  intros Hkey Hok. unfold sendMessage. rewrite Hkey. cbn [negb withRetry].
  unfold tryCatch. rewrite postOnce_run, Hok. reflexivity.
Qed.

Lemma forEach_delivers E phoneNumber (pause : bool) (messages : list str) w :
  hasGatewayKey E = true ->
  (forall n segment, gatewayPost E n phoneNumber segment = PostOk) ->
  let r := forEach messages (fun msg =>
             result <- sendMessage E phoneNumber msg ;;
             if pause then sleep 500 else ret tt) w in
  fst r = Ok tt /\
  outbox (snd r) = outbox w ++ map (fun segment => (phoneNumber, segment)) messages.
Proof.
  intros Hkey Hok. revert w.
  induction messages as [|msg messages IH]; intros w; cbn [forEach map].
  - cbn. rewrite app_nil_r. auto.
  - cbv zeta in *. unfold bind in *.
    rewrite (sendMessage_accepted E phoneNumber msg w Hkey (Hok _ _)).
    destruct pause; cbn [sleep modify ret];
      match goal with |- context [forEach messages ?body ?x] =>
        destruct (IH x) as [Hres Hout]; rewrite Hres, Hout
      end; (split; [reflexivity|]); cbn [outbox set_outbox set_clock set_calls];
      rewrite <- app_assoc; reflexivity.
Qed.

(** X13.  With a gateway that accepts every request, [sendResponse]
    delivers exactly the segments [splitMessage] yields for the limit
    of 1600 characters, to the recipient and in order; nothing is sent
    for an empty or missing text. *)
Theorem sendResponse_delivers_segments E phoneNumber (text : str) w :
  hasGatewayKey E = true ->
  (forall n segment, gatewayPost E n phoneNumber segment = PostOk) ->
  fst (sendResponse E phoneNumber (Some text) w) = Ok tt /\
  sentBy (sendResponse E phoneNumber (Some text)) w =
    (if falsy text then []
     else map (fun segment => (phoneNumber, segment)) (splitMessage text maxLength)) /\
  sentBy (sendResponse E phoneNumber None) w = [].
Proof.
  intros Hkey Hok. unfold sentBy, sendResponse.
  destruct (falsy text).
  - cbn [ret fst snd]. rewrite drop_all. auto.
  - cbv zeta.
    destruct (forEach_delivers E phoneNumber (1 <? length (splitMessage text maxLength))%nat
                (splitMessage text maxLength) w Hkey Hok) as [Hres Hout].
    cbv zeta in Hres, Hout. rewrite Hres, Hout. rewrite drop_app_length.
    cbn [ret snd]. rewrite drop_all. auto.
Qed.

Lemma sendResponse_delivers_segments_witness :
  sentBy (sendResponse (Demo.env Demo.low) Demo.phone (Some (lit "hello there")))
         (Demo.world 4 12)
  = [(Demo.phone, lit "hello there")].
Proof.
  destruct (sendResponse_delivers_segments (Demo.env Demo.low) Demo.phone
              (lit "hello there") (Demo.world 4 12) eq_refl (fun _ _ => eq_refl))
    as [_ [H _]].
  rewrite H. reflexivity.
Defined.

(** *** More on the risk assessment *)




Lemma truncate_length_le (text : str) (maxLen : nat) :
  (3 <= maxLen)%nat -> (length (truncate text maxLen) <= maxLen)%nat.
Proof.
  intros H3. unfold truncate, substring.
  destruct (length text <=? maxLen)%nat eqn:Hle.
  - apply Nat.leb_le in Hle. rewrite orb_true_r. exact Hle.
  - apply Nat.leb_gt in Hle.
    destruct text as [|c text]; [cbn in Hle; lia|]. cbn [falsy orb].
    rewrite length_app, length_take. cbn [lit list_ascii_of_string length]. lia.
Qed.

(** What [conclude] leaves in the store. *)
Lemma conclude_run phoneNumber message result2 w :
  let r := withResponse result2 in
  let logged :=
    if isCrisis result2
    then set_crisis (fun m =>
           <[(phoneNumber, clock w) :=
               mkCrisisEntry (truncate message 500) (riskLevel result2)
                             (keywordMatch result2) (clock w) false]> m) w
    else w in
  let old := default (mkSchedule None None []) (schedules w !! phoneNumber) in
  let scheduled :=
    if isCrisis result2 && shouldFollowUp result2 && hoursTruthy (followUpHours result2)
    then set_schedules (fun m =>
           <[phoneNumber :=
               mkSchedule (nextCheckIn old) (nextJournalPrompt old)
                 (followUps old ++
                    [mkFollowUp (lit "distress-follow-up")
                       (clock w + hoursValue (followUpHours result2) * 60 * 60 * 1000)
                       (riskLevel result2) (clock w)])]> m) logged
    else logged in
  conclude phoneNumber message result2 w =
  (Ok r, set_trace (fun t => t ++ [EvRisk phoneNumber (riskLevel result2)]) scheduled).
Proof.
  cbv zeta. unfold conclude, withResponse.
  destruct (isCrisis result2); [|reflexivity].
  cbv zeta. cbn [shouldFollowUp followUpHours riskLevel keywordMatch andb].
  destruct (shouldFollowUp result2 && hoursTruthy (followUpHours result2)); reflexivity.
Qed.

(** X15.  What a risk assessment writes: a crisis is logged under the
    identity and the time, with at most 500 characters of the message,
    the level returned and the handled flag off, and nothing is logged
    otherwise; a follow-up is added only for a crisis whose assessment
    names a number of hours other than zero, at that many hours from
    now and behind the follow-ups already scheduled, with the check-in
    and prompt times kept; so a result of the keyword layer alone
    never schedules one. *)
Theorem detectCrisis_records assess phoneNumber message w :
  let w1 := snd (assess (set_trace (fun t => t ++ [EvDetectCrisis phoneNumber message]) w)) in
  let old := default (mkSchedule None None []) (schedules w1 !! phoneNumber) in
  exists r w',
    detectCrisisWith assess phoneNumber message w = (Ok r, w') /\
    clock w' = clock w1 /\ users w' = users w1 /\
    crisis w' =
      (if isCrisis r
       then <[(phoneNumber, clock w1) :=
                mkCrisisEntry (truncate message 500) (riskLevel r) (keywordMatch r)
                              (clock w1) false]> (crisis w1)
       else crisis w1) /\
    (length (truncate message 500) <= 500)%nat /\
    schedules w' =
      (if isCrisis r && shouldFollowUp r && hoursTruthy (followUpHours r)
       then <[phoneNumber :=
                mkSchedule (nextCheckIn old) (nextJournalPrompt old)
                  (followUps old ++
                     [mkFollowUp (lit "distress-follow-up")
                        (clock w1 + hoursValue (followUpHours r) * 3600000)
                        (riskLevel r) (clock w1)])]> (schedules w1)
       else schedules w1) /\
    match assessed assess phoneNumber message w with
    | Ok (Some a) => True
    | _ => schedules w' = schedules w1
    end.
Proof.
  cbv zeta. rewrite detectCrisisWith_run, conclude_run. cbv zeta.
  set (w1 := snd (assess _)).
  set (r2 := merged message (assessed assess phoneNumber message w)).
  assert (Hsame : isCrisis (withResponse r2) = isCrisis r2 /\
                  riskLevel (withResponse r2) = riskLevel r2 /\
                  keywordMatch (withResponse r2) = keywordMatch r2 /\
                  shouldFollowUp (withResponse r2) = shouldFollowUp r2 /\
                  followUpHours (withResponse r2) = followUpHours r2).
  { unfold withResponse. destruct (isCrisis r2) eqn:Hc; cbn; auto. }
  destruct Hsame as [Hc [Hl [Hk [Hs Hh]]]].
  eexists _, _. split; [reflexivity|]. rewrite Hc, Hl, Hk, Hs, Hh.
  assert (Hnone : shouldFollowUp (keywordLayer message initialResult) = false).
  { unfold keywordLayer. destruct (containsCrisisKeyword message); reflexivity. }
  split; [|split; [|split; [|split; [|split]]]].
  - destruct (isCrisis r2); cbn [andb];
      [destruct (shouldFollowUp r2 && hoursTruthy (followUpHours r2))|]; reflexivity.
  - destruct (isCrisis r2); cbn [andb];
      [destruct (shouldFollowUp r2 && hoursTruthy (followUpHours r2))|]; reflexivity.
  - destruct (isCrisis r2); cbn [andb];
      [destruct (shouldFollowUp r2 && hoursTruthy (followUpHours r2))|]; reflexivity.
  - apply (truncate_length_le message 500). lia.
  - destruct (isCrisis r2); cbn [andb];
      [destruct (shouldFollowUp r2 && hoursTruthy (followUpHours r2))|];
      cbn; try reflexivity.
    replace (hoursValue (followUpHours r2) * 60 * 60 * 1000)
      with (hoursValue (followUpHours r2) * 3600000) by lia.
    reflexivity.
  - subst r2. unfold merged.
    destruct (assessed assess phoneNumber message w) as [[a|]|e]; [exact I| |];
      rewrite Hnone, andb_false_r; cbn [andb];
      destruct (isCrisis (keywordLayer message initialResult)); reflexivity.
Qed.

(** *** Check-in times *)

(** The next time it is [h] o'clock, local time: later than [now], at
    most a day later, and on the hour. *)
Lemma next_occurrence E (now h : Z) :
  0 <= h < 24 ->
  let next := LocalDate.setHours E now h in
  let t := if next <=? now then LocalDate.nextDay next else next in
  now < t <= now + LocalDate.msPerDay /\
  LocalDate.timeOfDay E t = h * LocalDate.msPerHour.
Proof.
  intros Hh. cbv zeta.
  unfold LocalDate.setHours, LocalDate.startOfDay, LocalDate.nextDay,
    LocalDate.timeOfDay, LocalDate.msPerDay, LocalDate.msPerHour.
  change (24 * (60 * 60 * 1000)) with 86400000.
  change (60 * 60 * 1000) with 3600000.
  set (x := now + tzOffset E).
  pose proof (Z.div_mod x 86400000 ltac:(lia)) as Hdm.
  pose proof (Z.mod_pos_bound x 86400000 ltac:(lia)) as Hb.
  set (d := x / 86400000) in *.
  assert (Hmod : forall k, (h * 3600000 + k * 86400000) mod 86400000 = h * 3600000).
  { intros k. rewrite Z.mod_add by lia. apply Z.mod_small. lia. }
  destruct (Z.leb_spec (d * 86400000 - tzOffset E + h * 3600000) now) as [Hle | Hgt].
  - split; [lia|].
    replace (d * 86400000 - tzOffset E + h * 3600000 + 86400000 + tzOffset E)
      with (h * 3600000 + (d + 1) * 86400000) by lia.
    apply Hmod.
  - split; [lia|].
    replace (d * 86400000 - tzOffset E + h * 3600000 + tzOffset E)
      with (h * 3600000 + d * 86400000) by lia.
    apply Hmod.
Qed.

(** X16.  [getNext9AM] and [getNext8PM] return the next time it is
    09:00, respectively 20:00, in the server's zone: strictly later
    than now and at most 24 hours later; they change nothing. *)
Theorem getNext_is_next_occurrence E w :
  (exists t, getNext9AM E w = (Ok t, w) /\
             clock w < t <= clock w + LocalDate.msPerDay /\
             LocalDate.timeOfDay E t = 9 * LocalDate.msPerHour) /\
  (exists t, getNext8PM E w = (Ok t, w) /\
             clock w < t <= clock w + LocalDate.msPerDay /\
             LocalDate.timeOfDay E t = 20 * LocalDate.msPerHour).
Proof.
  split; eexists; (split; [reflexivity|]).
  - apply (next_occurrence E (clock w) 9). lia.
  - apply (next_occurrence E (clock w) 20). lia.
Qed.

Example getNext9AM_demo :
  fst (getNext9AM (Demo.env Demo.low) (Demo.world 4 12)) = Ok 1762246800000 /\
  fst (getNext8PM (Demo.env Demo.low) (Demo.world 4 12)) = Ok 1762200000000.
Proof. vm_compute. auto. Qed.

(** *** Steps of onboarding *)

Import Config.

Lemma pick_member E (choices : list str) w :
  choices <> [] ->
  exists choice, In choice choices /\
    pick E choices w = (Ok choice, set_calls S w).
Proof.
  intros Hne. unfold pick, bind, gets, modify, ret.
  eexists. split; [|reflexivity].
  apply nth_In. destruct choices; [congruence|].
  apply Nat.mod_upper_bound. cbn. lia.
Qed.

(** X17.  Once onboarding is complete nothing moves any more: for a
    profile at stage 4 or beyond, [processOnboarding] returns no
    prompt, reports no advancement and the same stage, and leaves the
    store as it is. *)
Theorem onboarding_complete_is_terminal E phoneNumber message user w :
  (COMPLETE <= default 0%nat (onboardingStage user))%nat ->
  let r := processOnboarding E phoneNumber message (Some user) w in
  fst r = Ok (mkOnboarding None false (default 0%nat (onboardingStage user))) /\
  users (snd r) = users w /\ schedules (snd r) = schedules w /\
  outbox (snd r) = outbox w /\
  eventsOf (processOnboarding E phoneNumber message (Some user)) w
    = [EvProcessOnboarding phoneNumber message].
Proof.
  unfold COMPLETE. intros Hst. cbv zeta.
  unfold eventsOf, processOnboarding, onboardingSteps. cbv zeta.
  destruct (default 0%nat (onboardingStage user)) as [|[|[|[|stage]]]]; try lia.
  cbn. rewrite drop_app_length. auto.
Qed.

Lemma onboarding_complete_is_terminal_witness :
  fst (processOnboarding (Demo.env Demo.low) Demo.phone (lit "yes please")
         (Some (Demo.member 4 12)) (Demo.world 4 12))
  = Ok (mkOnboarding None false 4).
Proof.
  apply (onboarding_complete_is_terminal (Demo.env Demo.low) Demo.phone (lit "yes please")
           (Demo.member 4 12) (Demo.world 4 12)).
  cbn. unfold COMPLETE. lia.
Defined.

(** Reading the fields of a world that was built by the setters. *)
Ltac world_simpl :=
  cbn [fst snd users conversations journal schedules crisis clock calls outbox
       background trace set_users set_conversations set_journal set_schedules
       set_crisis set_clock set_calls set_outbox set_background set_trace].

(** X18.  At stage ASK_NAME a message that yields a name stores it in
    the profile, moves the profile to ASK_REASON with its statistics
    kept, and answers with an acknowledgment that contains the name;
    a message that yields none changes nothing. *)
Theorem onboarding_learns_name E phoneNumber message user w :
  onboardingStage user = Some ASK_NAME ->
  let r := processOnboarding E phoneNumber message (Some user) w in
  match extractName message with
  | Some (c :: n) =>
      exists ack,
        fst r = Ok (mkOnboarding (Some ack) true ASK_REASON) /\
        includes ack (c :: n) = true /\
        users (snd r) !! phoneNumber =
          Some (mkUser (Some (c :: n)) (Some ASK_REASON)
                       (users w !! phoneNumber ≫= stats)) /\
        (forall p, p <> phoneNumber -> users (snd r) !! p = users w !! p)
  | _ =>
      fst r = Ok (mkOnboarding None false ASK_NAME) /\ users (snd r) = users w
  end.
Proof.
  unfold ASK_NAME, ASK_REASON. intros Hst. cbv zeta.
  remember (processOnboarding E phoneNumber message (Some user) w) as r eqn:Hr.
  unfold processOnboarding, onboardingSteps in Hr. rewrite Hst in Hr. cbv zeta in Hr.
  cbn [default from_option id stageSwitch] in Hr.
  destruct (extractName message) as [[|c n]|]; try (subst r; cbn; auto; fail).
  cbn [falsy] in Hr. unfold getNameAcknowledgment in Hr.
  set (choices := [lit "Nice to meet you, " ++ (c :: n) ++ lit "! 💫";
                   (c :: n) ++ lit " - I love that! Great to meet you.";
                   lit "Thanks for sharing, " ++ (c :: n) ++ lit "! I'll remember that."])
    in Hr.
  assert (Hinc : forall ack, In ack choices -> includes ack (c :: n) = true).
  { intros ack [<- | [<- | [<- | []]]]; apply includes_spec.
    - eexists _, _. reflexivity.
    - exists [], (lit " - I love that! Great to meet you."). reflexivity.
    - eexists _, _. reflexivity. }
  cbv beta iota zeta delta
    [bind advanceStage emit modify ret getCurrentStage Redis.getUser gets
     Redis.updateUser Redis.setUser fst snd Nat.eqb ASK_CHECKIN andb] in Hr.
  match type of Hr with context [pick E choices ?x] =>
    destruct (pick_member E choices x ltac:(discriminate)) as [ack [Hin Hpick]];
      rewrite Hpick in Hr
  end.
  cbv beta iota zeta in Hr. world_simpl. subst r. world_simpl.
  exists ack. rewrite !lookup_insert_eq.
  split; [reflexivity|]. split; [apply Hinc; exact Hin|].
  split.
  - destruct (users w !! phoneNumber) as [u|]; reflexivity.
  - intros p Hp. rewrite !lookup_insert_ne by congruence. reflexivity.
Qed.

Lemma onboarding_learns_name_witness :
  exists ack,
    fst (processOnboarding (Demo.env Demo.low) Demo.phone (lit "I'm Sam")
           (Some (Demo.member 1 3)) (Demo.world 1 3))
    = Ok (mkOnboarding (Some ack) true ASK_REASON) /\
    includes ack (lit "Sam") = true.
Proof.
  assert (He : extractName (lit "I'm Sam") = Some (lit "Sam")) by (vm_compute; reflexivity).
  pose proof (onboarding_learns_name (Demo.env Demo.low) Demo.phone (lit "I'm Sam")
                (Demo.member 1 3) (Demo.world 1 3) eq_refl) as H.
  cbv zeta in H. rewrite He in H. destruct H as [ack [H1 [H2 _]]].
  exists ack. split; [exact H1 | exact H2].
Defined.

(** X19.  At stage ASK_CHECKIN an answer to the check-in question ends
    onboarding whatever the message count.  An opt-in replaces the
    schedule of the identity by one with the next 09:00 as check-in,
    the next 20:00 as journal prompt and no follow-ups, so follow-ups
    that were pending are gone; an opt-out leaves the schedules as
    they are.  The reply says which of the two was understood. *)
Theorem onboarding_checkin_answer E phoneNumber message user st w :
  onboardingStage user = Some ASK_CHECKIN ->
  stats user = Some st ->
  isCheckInResponse message = true ->
  let r := processOnboarding E phoneNumber message (Some user) w in
  let wants := parseCheckInPreference message in
  fst r = Ok (mkOnboarding (Some (if wants then checkInYes else checkInNo)) true COMPLETE) /\
  stageAt phoneNumber (snd r) = COMPLETE /\
  if wants
  then exists t9 t20,
         schedules (snd r) = <[phoneNumber := mkSchedule (Some t9) (Some t20) []]> (schedules w) /\
         clock w < t9 <= clock w + LocalDate.msPerDay /\
         LocalDate.timeOfDay E t9 = 9 * LocalDate.msPerHour /\
         clock w < t20 <= clock w + LocalDate.msPerDay /\
         LocalDate.timeOfDay E t20 = 20 * LocalDate.msPerHour
  else schedules (snd r) = schedules w.
Proof.
  unfold ASK_CHECKIN, COMPLETE. intros Hst Hstats Hresp. cbv zeta.
  remember (processOnboarding E phoneNumber message (Some user) w) as r eqn:Hr.
  unfold processOnboarding, onboardingSteps in Hr. rewrite Hst in Hr. cbv zeta in Hr.
  cbn [default from_option id stageSwitch] in Hr.
  unfold readMessageCount in Hr. rewrite Hstats, Hresp in Hr.
  unfold setupCheckIns, getNext9AM, getNext8PM in Hr.
  cbv beta iota zeta delta
    [bind tryCatch advanceStage emit modify ret getCurrentStage Redis.getUser gets
     Redis.updateUser Redis.setUser Redis.setSchedule dateNow fst snd Nat.eqb
     ASK_CHECKIN COMPLETE andb] in Hr.
  unfold stageAt.
  destruct (next_occurrence E (clock w) 9 ltac:(lia)) as [H9 H9'].
  destruct (next_occurrence E (clock w) 20 ltac:(lia)) as [H20 H20'].
  cbv zeta in H9, H9', H20, H20'.
  destruct (10 <=? messageCount st)%nat; destruct (parseCheckInPreference message);
    cbv beta iota zeta in Hr; world_simpl; subst r; world_simpl;
    rewrite ?lookup_insert_eq; (split; [reflexivity|]); (split; [reflexivity|]);
    try reflexivity;
    eexists _, _; (split; [reflexivity|]); auto.
Qed.

Lemma onboarding_checkin_answer_witness :
  fst (processOnboarding (Demo.env Demo.low) Demo.phone (lit "no thanks")
         (Some (Demo.member 3 4)) (Demo.world 3 4))
  = Ok (mkOnboarding (Some checkInNo) true COMPLETE).
Proof.
  exact (proj1 (onboarding_checkin_answer (Demo.env Demo.low) Demo.phone (lit "no thanks")
                  (Demo.member 3 4) (mkStats 0 0 4 0 0) (Demo.world 3 4)
                  eq_refl eq_refl eq_refl)).
Defined.

(** *** Follow-ups in the scheduler *)

#[local] Instance untracedAndUnscheduled_preorder : PreOrder untracedAndUnscheduled.
Proof.
  split.
  - intros w. split; reflexivity.
  - intros a b c [H1 H2] [H3 H4]. split; congruence.
Qed.

Ltac untraced_leaf := unfold untracedAndUnscheduled; cbn; auto.

Lemma sendProactiveMessage_run E phoneNumber triggerType w :
  exists w1,
    sendProactiveMessage E phoneNumber triggerType w = (Ok tt, w1) /\
    trace w1 = trace w ++ [EvProactive phoneNumber triggerType] /\
    schedules w1 = schedules w.
Proof.
  unfold sendProactiveMessage, emit, modify. unfold bind at 1.
  match goal with |- context [tryCatch ?m ?h ?x] =>
    assert (Hk : preserves untracedAndUnscheduled (tryCatch m h))
      by (preserves_with fail untraced_leaf);
    specialize (Hk x);
    assert (Hs : exists a, fst (tryCatch m h x) = Ok a)
      by (apply safe_tryCatch; intros _; apply safe_ret);
    destruct (tryCatch m h x) as [res w1]
  end.
  destruct Hs as [[] Hs]. cbn [fst snd] in *. subst res.
  exists w1. split; [reflexivity|]. destruct Hk as [Ht Hsch]. cbn in Ht, Hsch. auto.
Qed.

Lemma sendJournalPrompt_run E phoneNumber w :
  exists w1,
    sendJournalPrompt E phoneNumber w = (Ok tt, w1) /\
    trace w1 = trace w ++ [EvJournalPrompt phoneNumber] /\
    schedules w1 = schedules w.
Proof.
  unfold sendJournalPrompt, emit, modify. unfold bind at 1.
  match goal with |- context [tryCatch ?m ?h ?x] =>
    assert (Hk : preserves untracedAndUnscheduled (tryCatch m h))
      by (preserves_with fail untraced_leaf);
    specialize (Hk x);
    assert (Hs : exists a, fst (tryCatch m h x) = Ok a)
      by (apply safe_tryCatch; intros _; apply safe_ret);
    destruct (tryCatch m h x) as [res w1]
  end.
  destruct Hs as [[] Hs]. cbn [fst snd] in *. subst res.
  exists w1. split; [reflexivity|]. destruct Hk as [Ht Hsch]. cbn in Ht, Hsch. auto.
Qed.

Lemma morningCheckIn_run E phoneNumber schedule now w :
  exists r w1,
    morningCheckIn E phoneNumber schedule now w = (Ok r, w1) /\
    snd r = due (nextCheckIn schedule) now /\
    trace w1 = trace w ++ (if due (nextCheckIn schedule) now
                           then [EvProactive phoneNumber (lit "morning")] else []) /\
    schedules w1 = schedules w.
Proof.
  unfold morningCheckIn. destruct (due (nextCheckIn schedule) now).
  - destruct (sendProactiveMessage_run E phoneNumber (lit "morning") w)
      as [w1 [Hrun [Ht Hs]]].
    unfold bind at 1. rewrite Hrun. eexists _, w1. split; [reflexivity|]. auto.
  - eexists _, w. split; [reflexivity|]. rewrite app_nil_r. auto.
Qed.

Lemma eveningPrompt_run E phoneNumber schedule now w :
  exists r w1,
    eveningPrompt E phoneNumber schedule now w = (Ok r, w1) /\
    snd r = due (nextJournalPrompt schedule) now /\
    trace w1 = trace w ++ (if due (nextJournalPrompt schedule) now
                           then [EvJournalPrompt phoneNumber] else []) /\
    schedules w1 = schedules w.
Proof.
  unfold eveningPrompt. destruct (due (nextJournalPrompt schedule) now).
  - destruct (sendJournalPrompt_run E phoneNumber w) as [w1 [Hrun [Ht Hs]]].
    unfold bind at 1. rewrite Hrun. eexists _, w1. split; [reflexivity|]. auto.
  - eexists _, w. split; [reflexivity|]. rewrite app_nil_r. auto.
Qed.

Lemma followUps_run E phoneNumber (processed : list FollowUp) w :
  exists w1,
    forEach processed (fun followUp =>
      sendProactiveMessage E phoneNumber (fuType followUp)) w = (Ok tt, w1) /\
    trace w1 = trace w ++ map (fun f => EvProactive phoneNumber (fuType f)) processed /\
    schedules w1 = schedules w.
Proof.
  revert w. induction processed as [|f processed IH]; intros w; cbn [forEach map].
  - exists w. rewrite app_nil_r. auto.
  - destruct (sendProactiveMessage_run E phoneNumber (fuType f) w) as [w1 [Hrun [Ht Hs]]].
    destruct (IH w1) as [w2 [Hrun2 [Ht2 Hs2]]].
    exists w2. unfold bind. rewrite Hrun, Hrun2. split; [reflexivity|].
    rewrite Ht2, Ht, Hs2, Hs, <- app_assoc. auto.
Qed.

Lemma filter_none_due {A} (f : A -> bool) (l : list A) :
  List.filter f l = [] -> List.filter (fun x => negb (f x)) l = l.
Proof.
  induction l as [|x l IH]; [reflexivity|]. cbn [List.filter].
  destruct (f x); [discriminate|]. cbn [negb]. intros H. rewrite IH by exact H. reflexivity.
Qed.

(** X20.  A tick of the scheduler over one schedule never throws and
    fires exactly what is due, in this order: the morning check-in,
    the journal prompt, then each due follow-up once.  The follow-ups
    it keeps are those not yet due, in their order; the schedules of
    other identities are not touched, and when nothing is due no
    schedule is written at all. *)
Theorem processUserSchedule_fires_due E phoneNumber now schedule w :
  schedules w !! phoneNumber = Some schedule ->
  exists w' schedule',
    processUserSchedule E phoneNumber now w = (Ok tt, w') /\
    eventsOf (processUserSchedule E phoneNumber now) w = firings phoneNumber schedule now /\
    schedules w' !! phoneNumber = Some schedule' /\
    followUps schedule' =
      List.filter (fun f => negb (followUpDue now f)) (followUps schedule) /\
    (forall p, p <> phoneNumber -> schedules w' !! p = schedules w !! p) /\
    (firings phoneNumber schedule now = [] -> schedules w' = schedules w).
Proof.
  intros Hs. unfold eventsOf.
  remember (processUserSchedule E phoneNumber now w) as run eqn:Hrun.
  unfold processUserSchedule, bind at 1, Redis.getSchedule, gets in Hrun.
  rewrite Hs in Hrun.
  destruct (morningCheckIn_run E phoneNumber schedule now w)
    as [checkIn [w1 [Hrun1 [Hup1 [Ht1 Hs1]]]]].
  unfold bind at 1 in Hrun. rewrite Hrun1 in Hrun.
  destruct (eveningPrompt_run E phoneNumber schedule now w1)
    as [prompt [w2 [Hrun2 [Hup2 [Ht2 Hs2]]]]].
  unfold bind at 1 in Hrun. rewrite Hrun2 in Hrun. cbv zeta in Hrun.
  destruct (followUps_run E phoneNumber
              (List.filter (followUpDue now) (followUps schedule)) w2)
    as [w3 [Hrun3 [Ht3 Hs3]]].
  unfold bind at 1 in Hrun. rewrite Hrun3 in Hrun.
  assert (Htrace : trace w3 = trace w ++ firings phoneNumber schedule now).
  { rewrite Ht3, Ht2, Ht1. unfold firings. rewrite <- !app_assoc. reflexivity. }
  assert (Hsched : schedules w3 = schedules w) by congruence.
  rewrite Hup1, Hup2 in Hrun. cbv beta iota zeta in Hrun.
  destruct (due (nextCheckIn schedule) now || due (nextJournalPrompt schedule) now
            || (0 <? length (List.filter (followUpDue now) (followUps schedule)))%nat)
    eqn:Hupd.
  - unfold Redis.setSchedule, modify in Hrun. cbv beta iota in Hrun. subst run.
    eexists _, _. split; [reflexivity|]. world_simpl.
    rewrite Htrace, drop_app_length, Hsched.
    split; [reflexivity|]. split; [apply lookup_insert_eq|].
    split; [|split].
    + cbn [followUps].
      destruct (List.filter (followUpDue now) (followUps schedule)) eqn:Hdue;
        [|reflexivity].
      cbn [length Nat.ltb Nat.leb]. symmetry. apply filter_none_due. exact Hdue.
    + intros p Hp. apply lookup_insert_ne. congruence.
    + unfold firings. intros Hnone.
      apply orb_true_iff in Hupd as [Hupd | Hupd];
        [apply orb_true_iff in Hupd as [Hupd | Hupd]|]; rewrite ?Hupd in Hnone.
      * discriminate Hnone.
      * destruct (due (nextCheckIn schedule) now); discriminate Hnone.
      * destruct (due (nextCheckIn schedule) now); [discriminate Hnone|].
        destruct (due (nextJournalPrompt schedule) now); [discriminate Hnone|].
        destruct (List.filter (followUpDue now) (followUps schedule));
          [discriminate Hupd | discriminate Hnone].
  - unfold ret in Hrun. subst run. exists w3, schedule. split; [reflexivity|]. cbn [snd].
    rewrite Htrace, drop_app_length, Hsched.
    split; [reflexivity|]. split; [exact Hs|].
    apply orb_false_iff in Hupd as [_ Hupd].
    split; [|split; [reflexivity | reflexivity]].
    symmetry. apply filter_none_due.
    destruct (List.filter (followUpDue now) (followUps schedule)); [reflexivity|].
    discriminate Hupd.
Qed.

Lemma processUserSchedule_fires_due_witness :
  eventsOf (processUserSchedule (Demo.env Demo.low) Demo.phone 1762160400000) scheduledWorld
  = [EvProactive Demo.phone (lit "morning")].
Proof.
  destruct (processUserSchedule_fires_due (Demo.env Demo.low) Demo.phone 1762160400000
              dueSchedule scheduledWorld eq_refl) as [w' [schedule' [_ [H _]]]].
  rewrite H. reflexivity.
Defined.

(** X21.  Without a schedule a tick does nothing for the identity, and
    the command "stop" leaves a schedule for which every later tick
    does nothing: after it nothing is sent, traced or written by
    [processUserSchedule], at any time. *)
Theorem stop_silences_scheduler E phoneNumber message w :
  (let lowerMessage := trim (toLowerCase message) in
   lowerMessage = lit "stop" \/ lowerMessage = lit "stop check-ins" \/
   lowerMessage = lit "unsubscribe") ->
  let r := handleCommands E phoneNumber message w in
  fst r = Ok (Some stoppedText) /\
  schedules (snd r) !! phoneNumber = Some (mkSchedule None None []) /\
  (forall now w',
     schedules w' !! phoneNumber = schedules (snd r) !! phoneNumber \/
     schedules w' !! phoneNumber = None ->
     processUserSchedule E phoneNumber now w' = (Ok tt, w')).
Proof.
  cbv zeta. intros Hcmd.
  assert (Hrun : handleCommands E phoneNumber message w =
                 (Ok (Some stoppedText),
                  set_schedules (fun m => <[phoneNumber := mkSchedule None None []]> m) w)).
  { unfold handleCommands. cbv zeta.
    destruct Hcmd as [-> | [-> | ->]]; reflexivity. }
  rewrite Hrun. world_simpl. rewrite lookup_insert_eq.
  split; [reflexivity|]. split; [reflexivity|].
  intros now w' [Hs | Hs]; unfold processUserSchedule, bind at 1, Redis.getSchedule, gets;
    rewrite Hs; reflexivity.
Qed.

Lemma stop_silences_scheduler_witness :
  processUserSchedule (Demo.env Demo.low) Demo.phone 1762160400000
    (snd (handleCommands (Demo.env Demo.low) Demo.phone (lit " STOP ") scheduledWorld))
  = (Ok tt, snd (handleCommands (Demo.env Demo.low) Demo.phone (lit " STOP ") scheduledWorld)).
Proof.
  apply (proj2 (proj2 (stop_silences_scheduler (Demo.env Demo.low) Demo.phone (lit " STOP ")
                         scheduledWorld (or_introl eq_refl)))).
  left. reflexivity.
Defined.

(** *** The first message of an identity *)

#[local] Instance unassessed_preorder : PreOrder unassessed.
Proof.
  split.
  - intros w. split; [reflexivity | intros k; right; reflexivity].
  - intros a b c [E1 C1] [E2 C2]. split; [etransitivity; eassumption|].
    intros k. destruct (C2 k) as [H | H]; [left; exact H|].
    rewrite H. apply C1.
Qed.

Lemma lookup_filter_shrinks {K A} `{Countable K} (P : K * A -> Prop)
    `{!forall x, Decision (P x)} (m : gmap K A) (k : K) :
  filter P m !! k = None \/ filter P m !! k = m !! k.
Proof.
  destruct (filter P m !! k) as [x|] eqn:Hx; [right | left; reflexivity].
  apply map_lookup_filter_Some in Hx as [Hx _]. congruence.
Qed.

Ltac unassessed_leaf :=
  unfold unassessed; split;
  [ emits_leaf
  | unfold crisisLogShrinks; world_simpl; intros ?;
    first [ right; reflexivity | apply lookup_filter_shrinks ] ].

Lemma getOrCreateUser_first phoneNumber w :
  firstContact phoneNumber w ->
  exists u st w0,
    Redis.getOrCreateUser phoneNumber w = (Ok u, w0) /\
    stats u = Some st /\ messageCount st = 0%nat /\
    trace w0 = trace w /\ crisis w0 = crisis w.
Proof.
  unfold firstContact, Redis.getOrCreateUser, Redis.getUser, bind, gets.
  destruct (users w !! phoneNumber) as [u|].
  - intros [st [Hst Hc]]. exists u, st, w. auto 10.
  - intros _. unfold Redis.createUser, bind, dateNow, gets, Redis.setUser, modify, ret.
    eexists _, _, _. split; [reflexivity|]. cbn. auto 10.
Qed.

Lemma handleBody_first_contact E phoneNumber message w :
  firstContact phoneNumber w ->
  unassessed w (snd (handleBody E phoneNumber message w)).
Proof.
  intros Hfirst.
  destruct (getOrCreateUser_first phoneNumber w Hfirst)
    as (u & st & w0 & Hrun & Hst & Hc & Ht & Hcr).
  unfold handleBody, bind at 1. rewrite Hrun.
  transitivity w0.
  { split; [exists []; rewrite app_nil_r; split; [exact Ht | constructor]|].
    intros k. right. rewrite Hcr. reflexivity. }
  unfold bind at 1, readMessageCount. rewrite Hst, Hc. unfold ret at 1.
  cbv beta iota. cbn [Nat.eqb].
  match goal with |- unassessed w0 (snd (?m w0)) =>
    enough (Hp : preserves unassessed m) by apply Hp
  end.
  preserves_with fail unassessed_leaf.
Qed.

(** X22.  The first message of an identity is never risk-assessed:
    when the profile is missing or has no message counted, handling
    the message makes no call to [detectCrisis] and none to the
    external assessment, and adds nothing to the crisis log, whatever
    the message says. *)
Theorem first_message_is_not_assessed E webhookData phone message w :
  normalizePhoneNumber (phoneNumber webhookData) = Some phone ->
  wcontent webhookData = Some message ->
  firstContact phone w ->
  Forall notAssessed (eventsOf (handleMessage E webhookData) w) /\
  crisisLogShrinks w (snd (handleMessage E webhookData w)).
Proof.
  intros Hphone Hmsg Hfirst.
  enough (Hun : unassessed w (snd (handleMessage E webhookData w))).
  { destruct Hun as [He Hc]. split; [apply emitsOnly_eventsOf; exact He | exact Hc]. }
  unfold handleMessage. rewrite Hphone, Hmsg.
  destruct (falsy phone || falsy message); [reflexivity|].
  unfold tryCatch.
  pose proof (handleBody_first_contact E phone message w Hfirst) as Hbody.
  destruct (handleBody E phone message w) as [[a|e] w1]; cbn [snd] in *; [exact Hbody|].
  transitivity w1; [exact Hbody|].
  match goal with |- unassessed w1 (snd (?m w1)) =>
    enough (Hp : preserves unassessed m) by apply Hp
  end.
  preserves_with fail unassessed_leaf.
Qed.

Lemma first_message_is_not_assessed_witness :
  containsCrisisKeyword (lit "I want to kill myself") = true /\
  eventsOf (handleMessage (Demo.env Demo.critical) (Demo.text "I want to kill myself"))
           emptyWorld
    = [EvGenerateResponse Demo.phone (lit "I want to kill myself")] /\
  Forall notAssessed
    (eventsOf (handleMessage (Demo.env Demo.critical) (Demo.text "I want to kill myself"))
              emptyWorld).
Proof.
  split; [vm_compute; reflexivity|]. split; [vm_compute; reflexivity|].
  apply (first_message_is_not_assessed (Demo.env Demo.critical)
           (Demo.text "I want to kill myself") Demo.phone (lit "I want to kill myself")
           emptyWorld); [vm_compute; reflexivity | reflexivity | exact I].
Defined.

(** *** Replies *)

Lemma fallbacks_nonempty (r : str) : In r (ConversationEngine.throttled :: fallbacks) -> r <> [].
Proof.
  intros [<- | [<- | [<- | [<- | [<- | []]]]]]; discriminate.
Qed.

Lemma getFallbackResponse_run E w :
  exists r, getFallbackResponse E w = (Ok r, set_calls S w) /\
            In r (ConversationEngine.throttled :: fallbacks).
Proof.
  destruct (pick_member E fallbacks w ltac:(discriminate)) as [r [Hin Hrun]].
  exists r. split; [exact Hrun | right; exact Hin].
Qed.

(** The [catch] block of [generateResponse]. *)
Lemma generateResponse_catch E (error : Exn) w :
  exists r w',
    match error with
    | ApiError 429 => ret ConversationEngine.throttled
    | _ => getFallbackResponse E
    end w = (Ok r, w') /\
    In r (ConversationEngine.throttled :: fallbacks) /\
    conversations w' = conversations w.
Proof.
  destruct (getFallbackResponse_run E w) as [r [Hrun Hin]].
  assert (Hfb : exists r w', getFallbackResponse E w = (Ok r, w') /\
                  In r (ConversationEngine.throttled :: fallbacks) /\
                  conversations w' = conversations w)
    by (exists r, (set_calls S w); auto).
  assert (Hth : exists r w', ret ConversationEngine.throttled w = (Ok r, w') /\
                  In r (ConversationEngine.throttled :: fallbacks) /\
                  conversations w' = conversations w)
    by (exists ConversationEngine.throttled, w; cbn; auto).
  destruct error as [| | |status]; try exact Hfb.
  destruct status as [|p|p]; try exact Hfb.
  do 9 (destruct p as [p|p|]; try exact Hfb). exact Hth.
Qed.

Lemma trimmed_snoc {A} (l : list A) (x : A) :
  (length l <= Redis.maxMessages)%nat ->
  (if (Redis.maxMessages <? length (l ++ [x]))%nat
   then Redis.lastN Redis.maxMessages (l ++ [x]) else l ++ [x])
  = drop (length l - 49) l ++ [x].
Proof.
  unfold Redis.maxMessages, Redis.lastN. intros Hl. rewrite length_app. cbn [length].
  destruct (50 <? length l + 1)%nat eqn:Hlt.
  - apply Nat.ltb_lt in Hlt. rewrite drop_app_le by lia. f_equal. f_equal. lia.
  - apply Nat.ltb_ge in Hlt. replace (length l - 49)%nat with 0%nat by lia.
    rewrite drop_0. reflexivity.
Qed.

Lemma trimmed_length {A} (l : list A) (x : A) :
  (length (if (Redis.maxMessages <? length (l ++ [x]))%nat
           then Redis.lastN Redis.maxMessages (l ++ [x]) else l ++ [x])
   <= Redis.maxMessages)%nat.
Proof.
  destruct (Redis.maxMessages <? length (l ++ [x]))%nat eqn:Hlt.
  - rewrite lastN_length. lia.
  - apply Nat.ltb_ge in Hlt. exact Hlt.
Qed.

Lemma trimmed_keeps_last {A} (l : list A) (x : A) :
  exists kept,
    (if (Redis.maxMessages <? length (l ++ [x]))%nat
     then Redis.lastN Redis.maxMessages (l ++ [x]) else l ++ [x]) = kept ++ [x].
Proof.
  destruct (Redis.maxMessages <? length (l ++ [x]))%nat eqn:Hlt; [|eauto].
  unfold Redis.lastN. rewrite length_app. cbn [length].
  rewrite drop_app_le by (unfold Redis.maxMessages; lia). eauto.
Qed.

(** Two messages stored in a row are the last two of the history. *)
Lemma addMessage_twice phoneNumber r1 c1 t1 r2 c2 t2 w :
  exists kept,
    conversations (snd (Redis.addMessage phoneNumber r2 c2 t2
                          (snd (Redis.addMessage phoneNumber r1 c1 t1 w)))) !! phoneNumber
    = Some (kept ++ [mkMsg r1 c1 t1 (clock w); mkMsg r2 c2 t2 (clock w)]).
Proof.
  unfold Redis.addMessage, bind, dateNow, gets, modify. world_simpl.
  rewrite !lookup_insert_eq. cbn [default from_option id].
  set (old := default [] (conversations w !! phoneNumber)).
  set (m1 := mkMsg r1 c1 t1 (clock w)). set (m2 := mkMsg r2 c2 t2 (clock w)).
  pose proof (trimmed_length old m1) as Hlen.
  destruct (trimmed_keeps_last old m1) as [kept1 Hk].
  rewrite Hk in *. rewrite trimmed_snoc by exact Hlen.
  rewrite length_app in *. cbn [length] in *.
  rewrite drop_app_le by lia. rewrite <- app_assoc. eauto.
Qed.

(** X23.  [generateResponse] never throws and never returns an empty
    reply: it is the text of the completion when there is one, the
    throttle notice or one of the four fallback lines otherwise.  A
    reply obtained from a completion is stored as the last entry of
    the history, right behind the message it answers; when the request
    fails or no client is configured the history stays as it was. *)
Theorem generateResponse_always_replies E phoneNumber userMessage w :
  exists reply w',
    ConversationEngine.generateResponse E phoneNumber userMessage w = (Ok reply, w') /\
    reply <> [] /\
    (hasClient E = false \/
     (exists status, completeReply E (calls w) phoneNumber userMessage = CompleteError status) ->
     In reply (ConversationEngine.throttled :: fallbacks) /\
     conversations w' = conversations w) /\
    (hasClient E = true ->
     forall text, completeReply E (calls w) phoneNumber userMessage = CompleteText text ->
       (match text with
        | Some (c :: t) => reply = c :: t
        | _ => In reply fallbacks
        end) /\
       exists kept at1 at2,
         conversations w' !! phoneNumber =
           Some (kept ++ [mkMsg RoleUser userMessage TPlain at1;
                          mkMsg RoleAssistant reply TPlain at2])).
Proof.
  unfold ConversationEngine.generateResponse, emit, modify. unfold bind at 1.
  set (w0 := set_trace _ w).
  destruct (hasClient E) eqn:Hclient; cbn [negb].
  2:{ destruct (getFallbackResponse_run E w0) as [r [Hrun Hin]].
      exists r, (set_calls S w0). split; [exact Hrun|].
      split; [apply fallbacks_nonempty; exact Hin|].
      split; [intros _; split; [exact Hin | reflexivity] | discriminate]. }
  unfold tryCatch.
  assert (Huser : exists u w1, Redis.getOrCreateUser phoneNumber w0 = (Ok u, w1) /\
            calls w1 = calls w /\ conversations w1 = conversations w).
  { unfold Redis.getOrCreateUser, Redis.getUser, Redis.createUser, bind, gets, dateNow,
      Redis.setUser, modify, ret.
    destruct (users w0 !! phoneNumber); eexists _, _; (split; [reflexivity|]); auto. }
  destruct Huser as (u & w1 & Hu & Hcalls & Hconv).
  unfold bind at 1. rewrite Hu.
  unfold bind at 1, Redis.getConversationHistory, gets.
  unfold bind at 1, external, bind at 1, gets, bind at 1, modify. unfold ret at 1.
  rewrite Hcalls.
  set (w2 := set_clock _ (set_calls S w1)).
  assert (Hconv2 : conversations w2 = conversations w) by exact Hconv.
  destruct (completeReply E (calls w) phoneNumber userMessage) as [status | text] eqn:Hreply.
  - unfold throw.
    destruct (generateResponse_catch E (ApiError status) w2) as (r & w' & Hrun & Hin & Hc).
    exists r, w'. split; [exact Hrun|].
    split; [apply fallbacks_nonempty; exact Hin|].
    split; [intros _; split; [exact Hin | congruence]|].
    intros _ text Ht. discriminate Ht.
  - assert (Hstore : forall (reply : str) wr,
              conversations wr = conversations w2 ->
              exists w',
                (Redis.addMessage phoneNumber RoleUser userMessage TPlain ;;;
                 Redis.addMessage phoneNumber RoleAssistant reply TPlain ;;;
                 ConversationEngine.updateUserStats phoneNumber userMessage ;;;
                 ret reply) wr = (Ok reply, w') /\
                exists kept at1 at2,
                  conversations w' !! phoneNumber =
                    Some (kept ++ [mkMsg RoleUser userMessage TPlain at1;
                                   mkMsg RoleAssistant reply TPlain at2])).
    { intros reply wr _.
      destruct (addMessage_twice phoneNumber RoleUser userMessage TPlain
                  RoleAssistant reply TPlain wr) as [kept Hk].
      unfold ConversationEngine.updateUserStats, tryCatch, Redis.getUser.
      unfold Redis.addMessage, bind, dateNow, gets, modify, ret in *.
      world_simpl.
      cbn [fst snd conversations clock set_conversations set_background] in Hk.
      destruct (users wr !! phoneNumber); eexists; (split; [reflexivity|]);
        world_simpl; eauto. }
    assert (Hfb : forall wr, conversations wr = conversations w2 ->
              exists r w',
                (assistantMessage <- getFallbackResponse E ;;
                 Redis.addMessage phoneNumber RoleUser userMessage TPlain ;;;
                 Redis.addMessage phoneNumber RoleAssistant assistantMessage TPlain ;;;
                 ConversationEngine.updateUserStats phoneNumber userMessage ;;;
                 ret assistantMessage) wr = (Ok r, w') /\
                In r fallbacks /\
                exists kept at1 at2,
                  conversations w' !! phoneNumber =
                    Some (kept ++ [mkMsg RoleUser userMessage TPlain at1;
                                   mkMsg RoleAssistant r TPlain at2])).
    { intros wr Hwr.
      destruct (pick_member E fallbacks wr ltac:(discriminate)) as [r [Hin Hrun]].
      destruct (Hstore r (set_calls S wr) Hwr) as [w' [Hrun' Hk]].
      exists r, w'. unfold bind at 1. unfold getFallbackResponse. rewrite Hrun.
      split; [exact Hrun' | split; [exact Hin | exact Hk]]. }
    assert (Hnone : forall r, In r fallbacks -> r <> [])
      by (intros r Hin; apply fallbacks_nonempty; right; exact Hin).
    destruct text as [[|c t]|].
    + destruct (Hfb w2 eq_refl) as (r & w' & Hrun & Hin & Hk).
      exists r, w'. cbn [falsy]. rewrite Hrun.
      split; [reflexivity|]. split; [apply Hnone; exact Hin|].
      split; [intros [H | [status H]]; discriminate H|].
      intros _ text [= <-]. split; [exact Hin | exact Hk].
    + destruct (Hstore (c :: t) w2 eq_refl) as (w' & Hrun & Hk).
      exists (c :: t), w'. cbn [falsy]. unfold bind at 1, ret at 1. rewrite Hrun.
      split; [reflexivity|]. split; [discriminate|].
      split; [intros [H | [status H]]; discriminate H|].
      intros _ text [= <-]. split; [reflexivity | exact Hk].
    + destruct (Hfb w2 eq_refl) as (r & w' & Hrun & Hin & Hk).
      exists r, w'. rewrite Hrun.
      split; [reflexivity|]. split; [apply Hnone; exact Hin|].
      split; [intros [H | [status H]]; discriminate H|].
      intros _ text [= <-]. split; [exact Hin | exact Hk].
Qed.

Lemma generateResponse_always_replies_witness :
  fst (ConversationEngine.generateResponse (Demo.env Demo.low) Demo.phone (lit "hello")
         (Demo.world 4 12))
  = Ok (lit "That sounds like a lot. Tell me more?").
Proof.
  destruct (generateResponse_always_replies (Demo.env Demo.low) Demo.phone (lit "hello")
              (Demo.world 4 12)) as (reply & w' & Hrun & _ & _ & H).
  rewrite Hrun. destruct (H eq_refl _ eq_refl) as [Hr _].
  cbn [fst]. rewrite Hr. reflexivity.
Defined.

(** *** Journal statistics *)

Ltac world_simpl_in H :=
  cbn [fst snd users conversations journal schedules crisis clock calls outbox
       background trace set_users set_conversations set_journal set_schedules
       set_crisis set_clock set_calls set_outbox set_background set_trace] in H.

(** X24.  Saving a journal entry adds one to the journal count of the
    profile and changes nothing else in it, and answers with one of
    the acknowledgments; an identity without a profile gets the
    acknowledgment too.  For a profile without statistics the answer
    says that saving failed, although the entry is in the journal. *)
Theorem saveJournalEntry_counts E phoneNumber message prompted w :
  let r := saveJournalEntry E phoneNumber message prompted w in
  (exists day,
     journal (snd r) !! (phoneNumber, Redis.isoDate (clock w)) = Some day /\
     last (jdEntries day) =
       Some (mkJournalItem (extractJournalContent message) prompted (clock w))) /\
  (forall p, p <> phoneNumber -> users (snd r) !! p = users w !! p) /\
  match users w !! phoneNumber with
  | Some u =>
      match stats u with
      | Some st =>
          (exists ack, fst r = Ok (true, ack) /\ In ack acknowledgments) /\
          users (snd r) !! phoneNumber =
            Some (mkUser (name u) (onboardingStage u)
                    (Some (mkStats (joinedAt st) (lastActive st) (messageCount st)
                                   (journalCount st + 1) (streakDays st))))
      | None =>
          fst r = Ok (false, saveFailed) /\ users (snd r) = users w
      end
  | None =>
      (exists ack, fst r = Ok (true, ack) /\ In ack acknowledgments) /\
      users (snd r) = users w
  end.
Proof.
  cbv zeta. split; [apply saveJournalEntry_stores|].
  remember (saveJournalEntry E phoneNumber message prompted w) as r eqn:Hr.
  unfold saveJournalEntry in Hr. cbv zeta in Hr.
  cbv beta iota zeta delta
    [tryCatch bind emit modify ret throw gets dateNow Redis.addJournalEntry Redis.getUser
     Redis.updateUser Redis.setUser] in Hr.
  cbn [users set_journal set_trace] in Hr.
  destruct (users w !! phoneNumber) as [u|] eqn:Hu; [destruct (stats u) as [st|] eqn:Hst|].
  - cbv beta iota in Hr. world_simpl_in Hr. rewrite Hu in Hr.
    match type of Hr with context [pick E acknowledgments ?x] =>
      destruct (pick_member E acknowledgments x ltac:(discriminate)) as [ack [Hin Hpick]];
        rewrite Hpick in Hr
    end.
    cbv beta iota in Hr. subst r. world_simpl.
    split; [intros p Hp; rewrite lookup_insert_ne by congruence; reflexivity|].
    split; [exists ack; auto|]. rewrite lookup_insert_eq. reflexivity.
  - cbv beta iota in Hr. subst r. world_simpl.
    split; [reflexivity | split; reflexivity].
  - cbv beta iota in Hr.
    match type of Hr with context [pick E acknowledgments ?x] =>
      destruct (pick_member E acknowledgments x ltac:(discriminate)) as [ack [Hin Hpick]];
        rewrite Hpick in Hr
    end.
    cbv beta iota in Hr. subst r. world_simpl.
    split; [reflexivity|]. split; [exists ack; auto | reflexivity].
Qed.

(** *** The background update, step by step *)

Lemma reads_run E d w :
  let w1 := if hasClient E
            then set_clock (fun t => t + Z.of_nat (latency E (calls w))) (set_calls S w)
            else w in
  Background.reads E d w =
  (Ok (match stats (dUser d) with
       | Some st =>
           Some (Background.mkPending (dPhone d) (users w !! dPhone d)
                   (mkPatch None None
                      (Some (mkStats (joinedAt st) (clock w1) (messageCount st + 1)
                                     (journalCount st) (streakDays st)))))
       | None => None
       end), w1).
Proof.
  unfold Background.reads, ConversationEngine.detectEmotionalState.
  destruct (hasClient E), (stats (dUser d)); cbn [negb];
    cbv beta iota zeta delta
      [tryCatch bind external modify ret throw gets dateNow Redis.getUser];
    world_simpl; reflexivity.
Qed.

Lemma reads_users E d w : users (snd (Background.reads E d w)) = users w.
Proof. rewrite reads_run. cbn [snd]. destruct (hasClient E); reflexivity. Qed.

Lemma reads_clock E d w : clock w <= clock (snd (Background.reads E d w)).
Proof.
  rewrite reads_run. cbn [snd]. destruct (hasClient E); world_simpl; lia.
Qed.

Lemma writes_run p w :
  Background.writes p w =
  (Ok tt,
   set_users (fun m => <[Background.pPhone p :=
                           Redis.spread (Background.pExisting p) (Background.pUpdates p)]> m) w).
Proof. reflexivity. Qed.

(** X25.  The statistics update that [updateUserStats] leaves running
    reads the profile once and writes it back later.  When the
    snapshot taken as the message arrived holds statistics, the read
    does not throw and changes no profile, and the write, whatever the
    store holds by then, stores the name and the stage that were read
    with the statistics of the snapshot, the message count raised by
    one and the time of last activity set: a name, a stage or a count
    stored between the read and the write is overwritten.  When the
    snapshot holds no statistics the update ends at the read and
    writes nothing. *)
Theorem update_writes_what_it_read E d w :
  (forall st,
     stats (dUser d) = Some st ->
     exists p w1,
       Background.reads E d w = (Ok (Some p), w1) /\
       users w1 = users w /\
       clock w <= clock w1 /\
       forall w2,
         exists w3,
           Background.writes p w2 = (Ok tt, w3) /\
           users w3 !! dPhone d =
             Some (mkUser (users w !! dPhone d ≫= name)
                          (users w !! dPhone d ≫= onboardingStage)
                          (Some (mkStats (joinedAt st) (clock w1) (messageCount st + 1)
                                         (journalCount st) (streakDays st)))) /\
           (forall q, q <> dPhone d -> users w3 !! q = users w2 !! q)) /\
  (stats (dUser d) = None ->
   exists w1, Background.reads E d w = (Ok None, w1) /\ users w1 = users w).
Proof.
  pose proof (reads_run E d w) as Hr. cbv zeta in Hr.
  pose proof (reads_users E d w) as Hu.
  pose proof (reads_clock E d w) as Hc.
  rewrite Hr in Hu, Hc. cbn [snd] in Hu, Hc.
  split.
  - intros st Hst. rewrite Hst in Hr.
    eexists _, _. split; [exact Hr|]. split; [exact Hu|]. split; [exact Hc|].
    intros w2. eexists. split; [apply writes_run|].
    cbn [Background.pPhone Background.pExisting Background.pUpdates].
    world_simpl. split.
    + rewrite lookup_insert_eq. destruct (users w !! dPhone d); reflexivity.
    + intros q Hq. rewrite lookup_insert_ne by congruence. reflexivity.
  - intros Hst. rewrite Hst in Hr. eexists. split; [exact Hr | exact Hu].
Qed.

(** An update reads the profile at ASK_NAME; the profile below has
    moved on to ASK_REASON when the update writes, and the write puts
    it back at ASK_NAME. *)
Lemma update_writes_what_it_read_witness :
  let d := mkDeferred Demo.phone (lit "hi there") (Demo.member 1 2) in
  exists p w1,
    Background.reads (Demo.env Demo.low) d (Demo.world 1 2) = (Ok (Some p), w1) /\
    stageAt Demo.phone (Demo.world 2 3) = Config.ASK_REASON /\
    stageAt Demo.phone (snd (Background.writes p (Demo.world 2 3))) = Config.ASK_NAME.
Proof.
  cbv zeta.
  destruct (proj1 (update_writes_what_it_read (Demo.env Demo.low)
                     (mkDeferred Demo.phone (lit "hi there") (Demo.member 1 2))
                     (Demo.world 1 2)) (mkStats 0 0 2 0 0) eq_refl)
    as (p & w1 & Hrun & _ & _ & Hw).
  exists p, w1. split; [exact Hrun|]. split; [reflexivity|].
  destruct (Hw (Demo.world 2 3)) as (w3 & Hw3 & Hu3 & _).
  rewrite Hw3. cbn [snd]. unfold stageAt. cbn [dPhone] in Hu3. rewrite Hu3.
  reflexivity.
Defined.

(** *** The stage across inbound events and background updates *)

Lemma step_current E a s :
  Background.current s ->
  match a with
  | Background.Deliver webhookData =>
      keepsData webhookData /\ Background.reading s = []
  | _ => True
  end ->
  Background.current (Background.step E a s) /\
  stagesGrow (Background.world s) (Background.world (Background.step E a s)).
Proof.
  intros Hcur Hcalm. destruct a as [webhookData|i|j]; cbn [Background.step].
  - destruct Hcalm as [Hkeep Hnone]. split.
    + unfold Background.current. cbn [Background.reading]. rewrite Hnone. constructor.
    + apply handleMessage_stagesGrow. exact Hkeep.
  - destruct (background (Background.world s) !! i) as [d|];
      [|split; [exact Hcur | reflexivity]].
    cbv zeta.
    assert (Hu : users (snd (Background.reads E d
                               (set_background (delete i) (Background.world s))))
                 = users (Background.world s))
      by (rewrite reads_users; reflexivity).
    split.
    + unfold Background.current. cbn [Background.reading Background.world].
      apply Forall_app. split.
      * eapply Forall_impl; [exact Hcur|]. intros p [H1 H2]. split; [exact H1|].
        rewrite H2. unfold stageAt. rewrite Hu. reflexivity.
      * unfold stageAt. rewrite Hu. rewrite reads_run. cbn [fst].
        destruct (stats (dUser d)); constructor; [|constructor].
        cbn [Background.pUpdates Background.pExisting Background.pPhone p_stage].
        split; reflexivity.
    + intros p. cbn [Background.world]. unfold stageAt. rewrite Hu. lia.
  - destruct (Background.reading s !! j) as [p|] eqn:Hj;
      [|split; [exact Hcur | reflexivity]].
    destruct (Forall_lookup_1 _ _ _ _ Hcur Hj) as [Hp1 Hp2].
    assert (Hsame : forall q,
              stageAt q (snd (Background.writes p (Background.world s))) =
              stageAt q (Background.world s)).
    { intros q. rewrite writes_run. unfold stageAt. world_simpl.
      destruct (decide (q = Background.pPhone p)) as [->|Hne].
      - rewrite lookup_insert_eq, stageOf_spread, Hp1. exact Hp2.
      - rewrite lookup_insert_ne by congruence. reflexivity. }
    split.
    + unfold Background.current. cbn [Background.reading Background.world].
      apply Forall_delete. eapply Forall_impl; [exact Hcur|].
      intros p' [H1 H2]. split; [exact H1|]. rewrite Hsame. exact H2.
    + intros q. cbn [Background.world]. rewrite Hsame. lia.
Qed.

Lemma runSteps_stagesGrow E schedule :
  forall s,
    Background.current s ->
    Background.calm E schedule s ->
    stagesGrow (Background.world s)
               (Background.world (Background.runSteps E schedule s)).
Proof.
  induction schedule as [|a rest IH]; intros s Hcur Hcalm.
  - reflexivity.
  - destruct Hcalm as [Ha Hrest].
    destruct (step_current E a s Hcur Ha) as [Hcur' Hgrow].
    change (Background.runSteps E (a :: rest) s)
      with (Background.runSteps E rest (Background.step E a s)).
    etransitivity; [exact Hgrow | apply IH; assumption].
Qed.

(** C5, as stated, fails, in two ways.  The command that erases an
    identity takes a profile at COMPLETE back to INITIAL.  And without
    any command: the statistics update started by a first message
    reads the profile at ASK_NAME, the next message moves the profile
    on to ASK_REASON, and the update then writes back the profile it
    read, at ASK_NAME. *)
Lemma onboarding_stage_regresses :
  let E := Demo.env Demo.low in
  (stageAt Demo.phone (Demo.world 4 12) = Config.COMPLETE /\
   stageAt Demo.phone (snd (handleMessage E (Demo.text "forget me") (Demo.world 4 12)))
     = Config.INITIAL) /\
  (let s0 := Background.mkProcess (Demo.world 0 2) [] in
   let schedule := [Background.Deliver (Demo.text "hi there"); Background.Reads 0;
                    Background.Deliver (Demo.text "Sam")] in
   stageAt Demo.phone (Background.world (Background.runSteps E schedule s0))
     = Config.ASK_REASON /\
   stageAt Demo.phone
     (Background.world (Background.runSteps E (schedule ++ [Background.Writes 0]) s0))
     = Config.ASK_NAME).
Proof. vm_compute. repeat split. Qed.

(** C5 (as amended).  No call to [processOnboarding] stores a stage
    below the stage of the profile it is given; called with the profile
    the store holds (as the message handler does) it leaves no identity
    at a lower stage; and across the handling of inbound events and
    the steps of the statistics updates they start, in any order in
    which no event is an erasure command and no event is handled while
    an update is between its read and its write, no identity's stage
    goes down. *)
Theorem onboarding_stage_grows_when_calm E w :
  (forall phoneNumber message user,
     Forall (fun e => match e with
                      | EvAdvanceStage _ n => (stageOf user <= n)%nat
                      | _ => True
                      end)
            (eventsOf (processOnboarding E phoneNumber message user) w)) /\
  (forall phoneNumber message user,
     users w !! phoneNumber = user ->
     forall p,
       (stageAt p w <=
        stageAt p (snd (processOnboarding E phoneNumber message user w)))%nat) /\
  (forall schedule,
     Background.calm E schedule (Background.mkProcess w []) ->
     forall p,
       (stageAt p w <=
        stageAt p (Background.world
                     (Background.runSteps E schedule (Background.mkProcess w []))))%nat).
Proof.
  split; [|split].
  - intros phoneNumber message user.
    eapply Forall_impl;
      [apply emitsOnly_eventsOf; apply processOnboarding_events|].
    intros e. apply advancesTo_above.
  - intros phoneNumber message user <- p.
    destruct (processOnboarding_stored E phoneNumber message w) as [Hst Hother].
    destruct (decide (p = phoneNumber)) as [->|Hne].
    + destruct Hst as [-> | ->]; lia.
    + unfold stageAt. rewrite Hother by exact Hne. lia.
  - intros schedule Hcalm.
    apply (runSteps_stagesGrow E schedule (Background.mkProcess w []));
      [constructor | exact Hcalm].
Qed.

(** Two messages, each followed by the two steps of the update it
    started: the profile goes from INITIAL to ASK_REASON. *)
Lemma onboarding_stage_grows_when_calm_witness :
  let E := Demo.env Demo.low in
  let schedule := [Background.Deliver (Demo.text "hi there");
                   Background.Reads 0; Background.Writes 0;
                   Background.Deliver (Demo.text "Sam");
                   Background.Reads 0; Background.Writes 0] in
  Background.calm E schedule (Background.mkProcess (Demo.world 0 2) []) /\
  (stageAt Demo.phone (Demo.world 0 2) <=
   stageAt Demo.phone
     (Background.world
        (Background.runSteps E schedule (Background.mkProcess (Demo.world 0 2) []))))%nat /\
  stageAt Demo.phone
    (Background.world
       (Background.runSteps E schedule (Background.mkProcess (Demo.world 0 2) [])))
    = Config.ASK_REASON.
Proof.
  cbv zeta.
  match goal with |- Background.calm ?E ?schedule ?s /\ _ =>
    assert (Hcalm : Background.calm E schedule s) by (vm_compute; repeat split)
  end.
  split; [exact Hcalm|]. split.
  - exact (proj2 (proj2 (onboarding_stage_grows_when_calm (Demo.env Demo.low)
                           (Demo.world 0 2))) _ Hcalm Demo.phone).
  - vm_compute. reflexivity.
Defined.

(** *** Proactive messages and the history *)

Lemma sendMessage_effects E phoneNumber text w :
  let r := sendMessage E phoneNumber text w in
  conversations (snd r) = conversations w /\
  match fst r with
  | Ok SendSuccess => outbox (snd r) = outbox w ++ [(phoneNumber, text)]
  | _ => outbox (snd r) = outbox w
  end.
Proof.
  cbv zeta. unfold sendMessage.
  destruct (hasGatewayKey E); cbn [negb]; [|cbn; auto].
  cbn [withRetry]; unfold tryCatch, bind, sleep, modify, ret, throw.
  repeat (rewrite postOnce_run; cbv zeta;
          match goal with
          | |- context [match gatewayPost ?E ?n ?p ?t with _ => _ end] =>
              destruct (gatewayPost E n p t)
          end; cbn -[postOnce Z.add Z.mul Z.pow]);
    split; reflexivity.
Qed.

(** X26.  A proactive message is recorded in the history exactly when
    the gateway accepted it: either nothing was delivered and the
    history is untouched, or one message was delivered to the identity
    and the same text is the last entry of its history, marked as
    proactive with the trigger.  Nothing is generated or delivered for
    an identity without a profile, or without a configured client. *)
Theorem sendProactiveMessage_records_delivery E phoneNumber triggerType w :
  let w' := snd (sendProactiveMessage E phoneNumber triggerType w) in
  ((outbox w' = outbox w /\ conversations w' = conversations w) \/
   (exists text at_,
      text <> [] /\
      outbox w' = outbox w ++ [(phoneNumber, text)] /\
      last (default [] (conversations w' !! phoneNumber)) =
        Some (mkMsg RoleAssistant text (TProactive triggerType) at_) /\
      forall p, p <> phoneNumber -> conversations w' !! p = conversations w !! p)) /\
  (users w !! phoneNumber = None \/ hasClient E = false ->
   outbox w' = outbox w /\ conversations w' = conversations w /\ calls w' = calls w).
Proof.
  cbv zeta.
  remember (sendProactiveMessage E phoneNumber triggerType w) as r eqn:Hr.
  unfold sendProactiveMessage, ConversationEngine.generateProactiveMessage in Hr.
  unfold emit, modify in Hr. unfold bind at 1 in Hr. unfold tryCatch at 1 in Hr.
  unfold bind at 1 in Hr.
  destruct (hasClient E) eqn:Hclient; cbn [negb] in Hr.
  2:{ unfold ret in Hr. subst r. cbn. split; [left; auto | auto]. }
  unfold tryCatch at 1, bind at 1, Redis.getUser, gets in Hr. world_simpl_in Hr.
  destruct (users w !! phoneNumber) as [u|] eqn:Hu.
  2:{ unfold ret in Hr. subst r. cbn. split; [left; auto | auto]. }
  split; [|intros [H | H]; discriminate H].
  unfold bind at 1, Redis.getConversationHistory, gets in Hr.
  unfold bind at 1, external, bind at 1, gets, bind at 1, modify in Hr.
  unfold ret at 1 in Hr. world_simpl_in Hr.
  destruct (proactiveReply E (calls w) phoneNumber triggerType) as [status | [[|c t]|]];
    unfold throw, ret in Hr; try (subst r; cbn; left; auto; fail).
  cbn [falsy] in Hr. unfold bind at 1 in Hr.
  match type of Hr with context [sendMessage E phoneNumber (c :: t) ?x] =>
    pose proof (sendMessage_effects E phoneNumber (c :: t) x) as Heff;
      destruct (sendMessage E phoneNumber (c :: t) x) as [[[|reason]|e] w1]
  end; cbv zeta in Heff; cbn [fst snd sendSucceeded] in Heff, Hr;
    world_simpl_in Heff; destruct Heff as [Hconv Hout].
  - right. exists (c :: t), (clock w1).
    unfold Redis.addMessage, bind, dateNow, gets, modify in Hr. subst r. world_simpl.
    rewrite lookup_insert_eq. cbn [default from_option id].
    split; [discriminate|]. split; [exact Hout|]. split.
    + destruct (_ <? _)%nat; [apply lastN_last; unfold Redis.maxMessages; lia|].
      apply last_snoc.
    + intros p Hp. rewrite lookup_insert_ne by congruence. rewrite Hconv. reflexivity.
  - subst r. cbn. left. auto.
  - subst r. cbn. left. auto.
Qed.

Lemma sendProactiveMessage_records_delivery_witness :
  let w' := snd (sendProactiveMessage (Demo.env Demo.low) Demo.phone (lit "morning")
                   emptyWorld) in
  outbox w' = [] /\ conversations w' = ∅ /\ calls w' = 0%nat.
Proof.
  exact (proj2 (sendProactiveMessage_records_delivery (Demo.env Demo.low) Demo.phone
                  (lit "morning") emptyWorld) (or_introl eq_refl)).
Defined.

(** *** The messages of a completion request *)

Import Prompt.

Lemma role_eqb_eq (a b : Role) : role_eqb a b = true <-> a = b.
Proof. destruct a, b; cbn; split; congruence. Qed.

Lemma alternating_snoc (c : list ChatMessage) (msg : ChatMessage) :
  alternating c = true ->
  fst <$> last c <> Some (fst msg) ->
  alternating (c ++ [msg]) = true.
Proof.
  induction c as [|a c IH]; [reflexivity|].
  destruct c as [|b c].
  - intros _ Hne. cbn in *. destruct (role_eqb (fst a) (fst msg)) eqn:Heq; [|reflexivity].
    apply role_eqb_eq in Heq. congruence.
  - intros Halt Hne. change (alternating ((a :: b :: c) ++ [msg]))
      with (negb (role_eqb (fst a) (fst b)) && alternating ((b :: c) ++ [msg])).
    cbn [alternating] in Halt. apply andb_true_iff in Halt as [Hab Hrest].
    rewrite Hab. apply IH; [exact Hrest | exact Hne].
Qed.

(** What the loop keeps true of [(lastRole, cleaned)]. *)
Lemma pushIfNew_invariant (messages : list ChatMessage) st :
  alternating (snd st) = true -> fst st = fst <$> last (snd st) ->
  let st' := fold_left pushIfNew messages st in
  alternating (snd st') = true /\ fst st' = fst <$> last (snd st').
Proof.
  revert st. induction messages as [|msg messages IH]; intros [lr c] Halt Hlr;
    cbn [fold_left]; [auto|].
  apply IH; unfold pushIfNew; cbn [fst snd] in *.
  - destruct lr as [r|]; [destruct (role_eqb (fst msg) r) eqn:Heq|]; cbn [negb snd];
      try exact Halt; apply alternating_snoc; try exact Halt; rewrite <- Hlr.
    + intros [= ->]. destruct (fst msg); discriminate Heq.
    + discriminate.
  - destruct lr as [r|]; [destruct (role_eqb (fst msg) r) eqn:Heq|]; cbn [negb fst snd];
      try exact Hlr; rewrite last_snoc; reflexivity.
Qed.

(** After the loop [lastRole] is the role of the last message read. *)
Lemma pushIfNew_lastRole (messages : list ChatMessage) (msg : ChatMessage) st :
  fst (fold_left pushIfNew (messages ++ [msg]) st) = Some (fst msg).
Proof.
  rewrite fold_left_app. cbn [fold_left].
  destruct (fold_left pushIfNew messages st) as [[r|] c]; unfold pushIfNew; cbn [fst snd];
    [|reflexivity].
  destruct (role_eqb (fst msg) r) eqn:Heq; cbn [negb fst]; [|reflexivity].
  apply role_eqb_eq in Heq. congruence.
Qed.

(** The first entry kept is the first message read. *)
Lemma pushIfNew_head (messages : list ChatMessage) st :
  snd st <> [] -> fst st <> None ->
  head (snd (fold_left pushIfNew messages st)) = head (snd st).
Proof.
  revert st. induction messages as [|msg messages IH]; intros [lr c] Hc Hlr;
    cbn [fold_left]; [reflexivity|].
  cbn [fst snd] in *. unfold pushIfNew at 2. cbn [fst snd].
  destruct lr as [r|]; [|congruence].
  destruct (role_eqb (fst msg) r); cbn [negb].
  - apply (IH (Some r, c)); cbn; congruence.
  - rewrite (IH (Some (fst msg), c ++ [msg])); cbn [fst snd].
    + destruct c; [congruence | reflexivity].
    + destruct c; discriminate.
    + discriminate.
Qed.

Lemma cleaned_head (messages : list ChatMessage) :
  head (snd (fold_left pushIfNew messages (None, []))) = head messages.
Proof.
  destruct messages as [|msg messages]; [reflexivity|].
  cbn [fold_left]. unfold pushIfNew at 2. cbn [fst snd negb app].
  rewrite pushIfNew_head; cbn; [reflexivity | discriminate | discriminate].
Qed.

Lemma shiftUnlessUser_snoc (l : list ChatMessage) (x : ChatMessage) :
  l <> [] -> shiftUnlessUser (l ++ [x]) = shiftUnlessUser l ++ [x].
Proof.
  destruct l as [|first rest]; [congruence|]. intros _. cbn.
  destruct (role_eqb (fst first) RoleUser); reflexivity.
Qed.

(** The messages the loop reads end with the current message. *)
Lemma shifted_messages (history : list Msg) (currentMessage : str) :
  let read := if decide (history = []) then []
              else shiftUnlessUser (map (fun msg => (role msg, content msg)) history) in
  shiftUnlessUser (map (fun msg => (role msg, content msg)) history
                   ++ [(RoleUser, currentMessage)])
  = read ++ [(RoleUser, currentMessage)].
Proof.
  cbv zeta. destruct (decide (history = [])) as [-> | Hne]; [reflexivity|].
  apply shiftUnlessUser_snoc. destruct history; [congruence | discriminate].
Qed.

(** X27.  The messages [buildMessages] hands to the completion are
    never empty, never hold two neighbours of the same role, and end
    with a user message.  That message is the current one when the
    history is empty or ends with an assistant message; when the
    history ends with a user message the current message is left out,
    and the result is the one for that earlier message.  The first
    message is a user message unless the history begins with two
    assistant messages. *)
Theorem buildMessages_shape (history : list Msg) (currentMessage : str) :
  let result := buildMessages history currentMessage in
  alternating result = true /\
  fst <$> last result = Some RoleUser /\
  (history = [] \/ (exists h m, history = h ++ [m] /\ role m = RoleAssistant) ->
   last result = Some (RoleUser, currentMessage)) /\
  (forall h m, history = h ++ [m] -> role m = RoleUser ->
     result = buildMessages h (content m)) /\
  (fst <$> head result = Some RoleUser <->
   ~ exists a1 a2 rest,
       history = a1 :: a2 :: rest /\ role a1 = RoleAssistant /\ role a2 = RoleAssistant).
Proof.
  cbv zeta. unfold buildMessages. cbv zeta.
  set (f := fun msg : Msg => (role msg, content msg)).
  pose proof (shifted_messages history currentMessage) as Hread. cbv zeta in Hread.
  fold f in Hread.
  set (read := if decide (history = []) then [] else shiftUnlessUser (map f history))
    in Hread.
  destruct (pushIfNew_invariant (read ++ [(RoleUser, currentMessage)]) (None, [])
              eq_refl eq_refl) as [Halt Hlast].
  cbv zeta in Halt, Hlast.
  pose proof (pushIfNew_lastRole read (RoleUser, currentMessage) (None, [])) as Hrole.
  split; [rewrite Hread; exact Halt|].
  split; [rewrite Hread, <- Hlast; exact Hrole|].
  split; [|split].
  - rewrite Hread, fold_left_app. cbn [fold_left].
    intros [-> | (h & m & -> & Hm)].
    + reflexivity.
    + subst read. destruct (decide (h ++ [m] = [])) as [He | _];
        [destruct h; discriminate He|].
      rewrite map_app. cbn [map]. unfold f at 2. rewrite Hm.
      destruct h as [|a h].
      * reflexivity.
      * rewrite shiftUnlessUser_snoc by discriminate.
        pose proof (pushIfNew_lastRole (shiftUnlessUser (map f (a :: h)))
                      (RoleAssistant, content m) (None, [])) as Hr.
        match goal with |- context [pushIfNew ?s _] =>
          assert (Hr' : fst s = Some RoleAssistant) by exact Hr; clear Hr;
            destruct s as [lr c]
        end.
        cbn [fst] in Hr'. subst lr.
        unfold pushIfNew. cbn [fst snd role_eqb negb]. apply last_snoc.
  - intros h m -> Hm. rewrite Hread, fold_left_app. cbn [fold_left].
    subst read. destruct (decide (h ++ [m] = [])) as [He | _];
      [destruct h; discriminate He|].
    rewrite map_app. cbn [map]. unfold f at 2. rewrite Hm.
    pose proof (shifted_messages h (content m)) as Hread2. cbv zeta in Hread2.
    fold f in Hread2. rewrite Hread2.
    match goal with |- context [fold_left pushIfNew (?l ++ [?x]) ?st] =>
      pose proof (pushIfNew_lastRole l x st) as Hr
    end.
    match goal with |- context [pushIfNew ?s _] =>
      assert (Hr' : fst s = Some RoleUser) by exact Hr; clear Hr; destruct s as [lr c]
    end.
    cbn [fst] in Hr'. subst lr. reflexivity.
  - rewrite cleaned_head. clear. subst f.
    destruct history as [|a1 [|a2 rest]]; cbn [map app]; unfold shiftUnlessUser; cbn [fst].
    + cbn. split; [intros _ (a1 & a2 & rest & H & _); discriminate H | reflexivity].
    + destruct (role a1); cbn;
        (split; [intros _ (b1 & b2 & rest & H & _); discriminate H | reflexivity]).
    + destruct (role a1) eqn:H1; cbn.
      * split; [|reflexivity]. intros _ (b1 & b2 & rest' & [= <- <- <-] & Hb1 & _).
        congruence.
      * destruct (role a2) eqn:H2.
        -- split; [|reflexivity]. intros _ (b1 & b2 & rest' & [= <- <- <-] & _ & Hb2).
           congruence.
        -- split; [discriminate|]. intros Hn. exfalso. apply Hn.
           exists a1, a2, rest. auto.
Qed.

Example buildMessages_demo :
  let user c := mkMsg RoleUser (lit c) TPlain 0 in
  let assistant c := mkMsg RoleAssistant (lit c) TPlain 0 in
  buildMessages [assistant "Good morning!"; user "hi"; assistant "hello"] (lit "how are you")
    = [(RoleUser, lit "hi"); (RoleAssistant, lit "hello"); (RoleUser, lit "how are you")] /\
  buildMessages [user "hi"; assistant "hello"; user "lost"] (lit "how are you")
    = [(RoleUser, lit "hi"); (RoleAssistant, lit "hello"); (RoleUser, lit "lost")] /\
  buildMessages [assistant "Good morning!"; assistant "Time to reflect"] (lit "hi")
    = [(RoleAssistant, lit "Time to reflect"); (RoleUser, lit "hi")].
Proof. vm_compute. auto. Qed.

(** *** The leader lock *)

(** X28.  While the lock is held nobody is made leader: a process that
    asks within 300 seconds of a successful [acquireLeaderLock] is
    told it is not the leader and the lock stays as it is, and this
    includes the holder itself, whose flag is thereby turned off while
    it still holds the lock.  Once the 300 seconds have passed the
    next process to ask becomes leader.  A process that is not leader
    releases nothing. *)
Theorem leader_lock_lease (p q : Leader.Process) (now1 now2 : Z)
    (store : option Leader.Lock) :
  let r1 := Leader.acquireLeaderLock p now1 store in
  Leader.isLeader (fst r1) = true ->
  now1 <= now2 ->
  let r2 := Leader.acquireLeaderLock q now2 (snd r1) in
  (now2 < now1 + Leader.lockTTL ->
     Leader.isLeader (fst r2) = false /\ snd r2 = snd r1 /\
     Leader.isLeader (fst (Leader.acquireLeaderLock (fst r1) now2 (snd r1))) = false /\
     Leader.get now2 (snd r1) = Some (Leader.processId p)) /\
  (now1 + Leader.lockTTL <= now2 ->
     Leader.isLeader (fst r2) = true /\
     Leader.get now2 (snd r2) = Some (Leader.processId q)) /\
  (Leader.isLeader q = false ->
     Leader.releaseLeaderLock q now2 (snd r1) = (q, snd r1)).
Proof.
  unfold Leader.acquireLeaderLock, Leader.acquireLock, Leader.releaseLeaderLock,
    Leader.lockTTL.
  cbv zeta. destruct (Leader.get now1 store) eqn:Hget; cbn [fst snd Leader.isLeader];
    [discriminate|].
  intros _ Hle. unfold Leader.get. cbn [Leader.lockExpiry Leader.lockValue fst snd
    Leader.processId].
  split; [|split].
  - intros Hlt. destruct (Z.ltb_spec now2 (now1 + 300)); [|lia]. cbn. auto.
  - intros Hge. destruct (Z.ltb_spec now2 (now1 + 300)); [lia|]. cbn.
    destruct (Z.ltb_spec now2 (now2 + 300)); [auto | lia].
  - intros ->. reflexivity.
Qed.

Lemma leader_lock_lease_witness :
  let p := Leader.mkProcess (lit "4242") false in
  let r1 := Leader.acquireLeaderLock p 1000 None in
  Leader.isLeader (fst r1) = true /\
  Leader.isLeader (fst (Leader.acquireLeaderLock (fst r1) 1120 (snd r1))) = false.
Proof.
  cbv zeta. split; [reflexivity|].
  assert (Hle : 1000 <= 1120) by lia.
  assert (Hlt : 1120 < 1000 + Leader.lockTTL) by (unfold Leader.lockTTL; lia).
  destruct (leader_lock_lease (Leader.mkProcess (lit "4242") false)
              (Leader.mkProcess (lit "7") false) 1000 1120 None eq_refl Hle) as [H _].
  destruct (H Hlt) as [_ [_ [H3 _]]]. exact H3.
Defined.

(** *** Redelivery over time *)

(** X29.  A second delivery of an event that arrives after the first
    was handled is answered as a duplicate for 300 seconds from the
    marking, and is handled again once they have passed.  Deliveries
    that carry no message id are never recognised as duplicates. *)
Theorem redelivery_window (messageId : str) (store0 : gmap str Z) (t0 seconds : Z) :
  messageId <> [] ->
  checkIdempotency messageId t0 store0 = false ->
  0 <= seconds ->
  timesHandled messageId (run (redelivered seconds) (twoDeliveries messageId store0 t0))
    = (if seconds <? idempotencyTTL then 1%nat else 2%nat) /\
  handled (run [Run 0; Run 1]%nat (mkSys store0 t0 [arrive None; arrive None] []))
    = [None; None].
Proof.
  intros Hne Hfresh Hsec. split; [|reflexivity].
  destruct messageId as [|c rest]; [congruence|].
  unfold redelivered, twoDeliveries, arrive. cbn [falsy].
  deliver. rewrite Hfresh. deliver. deliver.
  rewrite run_cons. unfold act. cbn [store now requests handled].
  deliver.
  assert (Hcheck : checkIdempotency (c :: rest) (t0 + seconds)
                     (setIdempotency (c :: rest) t0 store0)
                   = (seconds <? idempotencyTTL)).
  { unfold checkIdempotency, setIdempotency. rewrite lookup_insert_eq.
    unfold idempotencyTTL.
    destruct (Z.ltb_spec seconds 300), (Z.ltb_spec (t0 + seconds) (t0 + 300));
      try reflexivity; lia. }
  rewrite Hcheck. destruct (seconds <? idempotencyTTL).
  - deliver. deliver. unfold run, timesHandled. cbn -[str_eqb].
    rewrite str_eqb_refl. reflexivity.
  - deliver. deliver. unfold run, timesHandled. cbn -[str_eqb].
    rewrite !str_eqb_refl. reflexivity.
Qed.

Lemma redelivery_window_witness :
  timesHandled (lit "evt-1") (run (redelivered 299) (twoDeliveries (lit "evt-1") ∅ 1762160400))
    = 1%nat /\
  timesHandled (lit "evt-1") (run (redelivered 300) (twoDeliveries (lit "evt-1") ∅ 1762160400))
    = 2%nat.
Proof.
  assert (Hne : lit "evt-1" <> []) by (vm_compute; discriminate).
  split.
  - exact (proj1 (redelivery_window (lit "evt-1") ∅ 1762160400 299 Hne eq_refl
                    ltac:(lia))).
  - exact (proj1 (redelivery_window (lit "evt-1") ∅ 1762160400 300 Hne eq_refl
                    ltac:(lia))).
Defined.
